(** * ANZ insurance and finance lead pipeline

    A shallow embedding of the four batch stages of the repository
    (company_research.py, hiring_verification.py, contact_enrichment.py,
    data_consolidation.py) and the properties established about them.

    Python values that live in table cells are modelled by [cell]; a table
    row (a pandas Series, or a dict of the Collector) is a finite map from
    column names to cells; a table is a column list with a list of rows.
    Python strings are modelled as byte strings: ASCII text byte for byte,
    the two star glyphs by their UTF-8 encoding. *)

From Stdlib Require Import ZArith QArith String Ascii List Permutation Sorted Lia.
From stdpp Require Import base option gmap strings pretty list sorting.

Local Open Scope Z_scope.
Local Open Scope string_scope.
Local Open Scope list_scope.

(** ** Python values and exceptions *)

(** A table cell: a missing value (None or NaN, which [pd.isna] does not
    tell apart), a text, or a whole number. *)
Inductive cell : Type :=
| NaN
| Str (s : string)
| Int (z : Z).

#[global] Instance cell_eq_dec : EqDecision cell.
Proof. solve_decision. Defined.

#[global] Instance cell_inhabited : Inhabited cell := populate NaN.

Definition isna (v : cell) : bool :=
  match v with NaN => true | _ => false end.

(** [v == s] on a cell against a text literal. *)
Definition cell_is (s : string) (v : cell) : bool :=
  match v with Str t => bool_decide (t = s) | _ => false end.

Inductive exn : Type :=
| KeyError (key : string)
| IndexError
| TypeError
| FileNotFoundError (path : string)
| OtherError (msg : string)
| SystemExit (code : Z).

(** [isinstance(e, Exception)]: SystemExit is a BaseException only. *)
Definition is_exception (e : exn) : bool :=
  match e with SystemExit _ => false | _ => true end.

(** [str(e)] *)
Definition exn_str (e : exn) : string :=
  match e with
  | KeyError key => "'" ++ key ++ "'"
  | IndexError => "string index out of range"
  | TypeError => "expected string or bytes-like object"
  | FileNotFoundError path => "[Errno 2] No such file or directory: '" ++ path ++ "'"
  | OtherError msg => msg
  | SystemExit code => pretty code
  end.

(** What a run does to the outside world, in order. *)
Inductive event : Type :=
| Printed (line : string)
| TracebackPrinted (e : exn)
| FileWritten (path : string) (mode : string) (content : string)
| TableSaved (path : string)
| WorkbookSaved (path : string).

(** How a script ends: it runs to its end or the interpreter exits. *)
Inductive ending : Type :=
| Finished
| Exited (code : Z).

#[global] Instance exn_eq_dec : EqDecision exn.
Proof. solve_decision. Defined.

Inductive result (A : Type) : Type :=
| Returned (a : A)
| Raised (e : exn).
Arguments Returned {A} a.
Arguments Raised {A} e.

Definition rbind {A B} (m : result A) (k : A -> result B) : result B :=
  match m with
  | Returned a => k a
  | Raised e => Raised e
  end.

Notation "x <- m ;; k" := (rbind m (fun x => k))
  (at level 100, m at next level, right associativity).

Fixpoint rmap {A B} (f : A -> result B) (l : list A) : result (list B) :=
  match l with
  | [] => Returned []
  | a :: l' => b <- f a ;; bs <- rmap f l' ;; Returned (b :: bs)
  end.

(** A script step: the events it causes and how it ends. *)
Definition io (A : Type) : Type := list event * result A.

Definition io_ret {A} (a : A) : io A := ([], Returned a).

Definition io_bind {A B} (m : io A) (k : A -> io B) : io B :=
  match m with
  | (trace, Returned a) => let (trace', r) := k a in (trace ++ trace', r)
  | (trace, Raised e) => (trace, Raised e)
  end.

Definition emit (ev : event) : io unit := ([ev], Returned tt).

(** A call that causes no event. *)
Definition lift {A} (r : result A) : io A := ([], r).

Notation "x <-- m ;; k" := (io_bind m (fun x => k))
  (at level 100, m at next level, right associativity).
Notation "m ;;; k" := (io_bind m (fun _ => k))
  (at level 100, right associativity).

(** ** Rows and tables *)

Abbreviation row := (gmap string cell).

Record DataFrame : Type := mkDataFrame {
  columns : list string;
  rows : list row
}.

(** [col in df.columns] *)
Definition has_column (df : DataFrame) (c : string) : bool :=
  bool_decide (c ∈ columns df).

(** [row[col]]; a missing key raises KeyError. *)
Definition getitem (r : row) (c : string) : result cell :=
  match r !! c with
  | Some v => Returned v
  | None => Raised (KeyError c)
  end.

(** ** Python string operations *)

(** [s * n]: the empty string when [n <= 0]. *)
Fixpoint str_repeat (s : string) (n : nat) : string :=
  match n with
  | O => ""
  | S n' => s ++ str_repeat s n'
  end.

Definition str_mul (s : string) (n : Z) : string := str_repeat s (Z.to_nat n).

(** [sep.join(parts)] *)
Fixpoint join (sep : string) (parts : list string) : string :=
  match parts with
  | [] => ""
  | [p] => p
  | p :: ps => p ++ sep ++ join sep ps
  end.

Fixpoint starts_with (p s : string) : bool :=
  match p, s with
  | EmptyString, _ => true
  | String a p', String b s' => bool_decide (a = b) && starts_with p' s'
  | String _ _, EmptyString => false
  end.

(** [p in s] on strings *)
Fixpoint contains (p s : string) : bool :=
  starts_with p s ||
  match s with
  | EmptyString => false
  | String _ s' => contains p s'
  end.

(** [s.replace(c, t)] for a one-character [c]. *)
Fixpoint replace_char (c : ascii) (t : string) (s : string) : string :=
  match s with
  | EmptyString => EmptyString
  | String a s' => if bool_decide (a = c) then t ++ replace_char c t s'
                   else String a (replace_char c t s')
  end.

Definition remove_char (c : ascii) (s : string) : string := replace_char c "" s.

(** ASCII letters; other bytes are left alone. *)
Definition lower_ascii (a : ascii) : ascii :=
  let n := nat_of_ascii a in
  if (65 <=? n)%nat && (n <=? 90)%nat then ascii_of_nat (n + 32) else a.

(** [s.lower()] *)
Fixpoint lower (s : string) : string :=
  match s with
  | EmptyString => EmptyString
  | String a s' => String (lower_ascii a) (lower s')
  end.

(** The characters [str.isspace] and the regex class [\s] accept, within
    ASCII: tab to carriage return, the four separators, the blank. *)
Definition is_space (a : ascii) : bool :=
  let n := nat_of_ascii a in
  ((9 <=? n)%nat && (n <=? 13)%nat) || ((28 <=? n)%nat && (n <=? 32)%nat).

Fixpoint lstrip (s : string) : string :=
  match s with
  | String a s' => if is_space a then lstrip s' else s
  | EmptyString => EmptyString
  end.

Fixpoint rstrip (s : string) : string :=
  match s with
  | EmptyString => EmptyString
  | String a s' =>
      match rstrip s' with
      | EmptyString => if is_space a then EmptyString else String a EmptyString
      | t => String a t
      end
  end.

(** [s.strip()] *)
Definition strip (s : string) : string := rstrip (lstrip s).

Fixpoint drop_chars (n : nat) (s : string) : string :=
  match n, s with
  | O, _ => s
  | S n', String _ s' => drop_chars n' s'
  | S _, EmptyString => EmptyString
  end.

(** [s.split(sep)]: the pieces between the occurrences of [sep], found
    from the left without overlap. [skip] counts the characters of a found
    separator still to pass; the result is the piece in progress and the
    pieces after it. *)
Fixpoint split_aux (sep : string) (skip : nat) (s : string) : string * list string :=
  match s with
  | EmptyString => (EmptyString, [])
  | String a s' =>
      match skip with
      | S k => split_aux sep k s'
      | O =>
          if starts_with sep s
          then let (p, ps) := split_aux sep (String.length sep - 1) s' in
               (EmptyString, p :: ps)
          else let (p, ps) := split_aux sep 0 s' in (String a p, ps)
      end
  end.

Definition split (sep : string) (s : string) : list string :=
  let (p, ps) := split_aux sep 0 s in p :: ps.

(** [s.split()]: the words between runs of white space. *)
Fixpoint split_ws_aux (s : string) : string * list string :=
  match s with
  | EmptyString => (EmptyString, [])
  | String a s' =>
      let (w, ws) := split_ws_aux s' in
      if is_space a
      then (EmptyString, match w with EmptyString => ws | _ => w :: ws end)
      else (String a w, ws)
  end.

Definition split_ws (s : string) : list string :=
  let (w, ws) := split_ws_aux s in
  match w with EmptyString => ws | _ => w :: ws end.

(** [template.format(arg)] for a template with one [{}] field and no
    other brace. *)
Fixpoint format (template arg : string) : string :=
  match template with
  | String "{" (String "}" rest) => arg +:+ rest
  | String a rest => String a (format rest arg)
  | EmptyString => EmptyString
  end.

(** The truth value of [x if not pd.isna(x) else None]. *)
Definition truthy (v : cell) : bool :=
  match v with
  | NaN => false
  | Str s => negb (bool_decide (s = ""))
  | Int z => negb (z =? 0)%Z
  end.

(** ** The pandas operations the stages call *)

Module Pandas.

(** The cell of a row at a column the table is known to have. *)
Definition cell_at (r : row) (c : string) : cell := default NaN (r !! c).

Section StableSort.
Context {A K : Type} (leb : K -> K -> bool) (key : A -> K).

Fixpoint insert_asc (x : A) (l : list A) : list A :=
  match l with
  | [] => [x]
  | y :: l' => if leb (key x) (key y) then x :: y :: l'
               else y :: insert_asc x l'
  end.

(** A stable ascending sort by insertion. *)
Definition sort_asc (l : list A) : list A := foldr insert_asc [] l.

(** The descending order pandas produces with such a sort: reverse the
    input, sort ascending, reverse the outcome. *)
Definition sort_desc (l : list A) : list A := rev (sort_asc (rev l)).
End StableSort.

Definition cell_leb (a b : cell) : bool :=
  match a, b with
  | Int x, Int y => (x <=? y)%Z
  | Str s, Str t => String.leb s t
  | _, _ => false
  end.

Definition is_int (v : cell) : bool := match v with Int _ => true | _ => false end.
Definition is_str (v : cell) : bool := match v with Str _ => true | _ => false end.

(** The values of a column can be compared with each other when, missing
    values apart, they are all numbers or all texts. *)
Definition comparable (cells : list cell) : bool :=
  forallb (fun v => isna v || is_int v) cells
  || forallb (fun v => isna v || is_str v) cells.

(** [values.take(indexer)]: the items at the positions the indexer
    lists. *)
Definition take {A : Type} (l : list A) (indexer : list nat) : list A :=
  omap (fun i => l !! i) indexer.

Section Argsort.

(** [keys.argsort(kind='quicksort')], the sort [sort_values] runs by
    default: the positions of the keys in ascending order of the keys.
    Which of two equal keys comes first is up to the routine numpy runs on
    the machine. *)
Variable argsort : list cell -> list nat.

(** Descending order the way pandas produces it: reverse the input, take
    it in the ascending order of its keys, reverse the outcome. *)
Definition sort_desc_by {A : Type} (key : A -> cell) (l : list A) : list A :=
  rev (take (rev l) (argsort (map key (rev l)))).

(** [df.sort_values(c, ascending=False)]: rows with a value in descending
    order, rows with a missing value last in their original order. *)
Definition sort_values_desc_by (c : string) (df : DataFrame) : result DataFrame :=
  if has_column df c then
    if comparable (map (fun r => cell_at r c) (rows df)) then
      Returned
        (mkDataFrame (columns df)
           (sort_desc_by (fun r => cell_at r c)
              (List.filter (fun r => negb (isna (cell_at r c))) (rows df))
            ++ List.filter (fun r => isna (cell_at r c)) (rows df)))
    else Raised TypeError
  else Raised (KeyError c).

End Argsort.

(** The positions a stable insertion sort gives. Numpy's quicksort is
    this sort on an array of at most sixteen keys for which it has no
    vectorised routine. *)
Definition insertion_argsort (keys : list cell) : list nat :=
  map fst (sort_asc cell_leb snd (zip (seq 0 (length keys)) keys)).

(** [sort_values] with that routine: equal values stay in their original
    order. *)
Definition sort_values_desc (c : string) (df : DataFrame) : result DataFrame :=
  sort_values_desc_by insertion_argsort c df.

(** [df[col].isna().all()] *)
Definition all_na (c : string) (df : DataFrame) : bool :=
  forallb (fun r => isna (cell_at r c)) (rows df).

(** Keep the first row of every value of [key]. *)
Fixpoint dedup_by {A K : Type} `{EqDecision K} (key : A -> K) (seen : list K)
    (l : list A) : list A :=
  match l with
  | [] => []
  | x :: l' => if bool_decide (key x ∈ seen) then dedup_by key seen l'
               else x :: dedup_by key (key x :: seen) l'
  end.

(** [df.empty]: the table has no row or no column. *)
Definition empty (df : DataFrame) : bool :=
  match rows df, columns df with
  | [], _ | _, [] => true
  | _, _ => false
  end.

(** [df.drop_duplicates(subset=[col])]: an empty table is handed back at
    once, before the column is looked up. *)
Definition drop_duplicates (c : string) (df : DataFrame) : result DataFrame :=
  if empty df then Returned df
  else if has_column df c then
    Returned (mkDataFrame (columns df) (dedup_by (fun r => cell_at r c) [] (rows df)))
  else Raised (KeyError c).

(** [df.head(n)] *)
Definition head (n : nat) (df : DataFrame) : DataFrame :=
  mkDataFrame (columns df) (firstn n (rows df)).

(** [df[cols]] for a list of columns the table has. *)
Definition select_columns (cols : list string) (df : DataFrame) : DataFrame :=
  mkDataFrame cols
    (map (fun r : row => filter (fun kv => kv.1 ∈ cols) r) (rows df)).

(** [df[col] = values], one value per row. *)
Definition assign (c : string) (values : list cell) (df : DataFrame) : DataFrame :=
  mkDataFrame
    (if has_column df c then columns df else columns df ++ [c])
    (zip_with (fun (r : row) v => <[c := v]> r) (rows df) values).

(** [df[col] = value] for a single value. *)
Definition assign_all (c : string) (v : cell) (df : DataFrame) : DataFrame :=
  assign c (map (fun _ => v) (rows df)) df.

(** [df.rename(columns=mapping)] *)
Definition rename_column (mapping : list (string * string)) (c : string) : string :=
  match List.find (fun kv => bool_decide (kv.1 = c)) mapping with
  | Some kv => kv.2
  | None => c
  end.

Definition rename (mapping : list (string * string)) (df : DataFrame) : DataFrame :=
  mkDataFrame
    (map (rename_column mapping) (columns df))
    (map (fun r : row =>
            list_to_map (map (fun c => (rename_column mapping c, cell_at r c))
                             (columns df)) : row)
         (rows df)).

(** *** [pd.merge(left, right, on=key, how='left')] *)

(** Columns other than the key that both tables have get a suffix. *)
Definition overlaps (key : string) (other : list string) (c : string) : bool :=
  negb (bool_decide (c = key)) && bool_decide (c ∈ other).

Definition suffixed (sfx key : string) (other : list string) (c : string) : string :=
  if overlaps key other c then (c ++ sfx)%string else c.

Definition left_part (key : string) (lcols rcols : list string) (l : row)
  : list (string * cell) :=
  map (fun c => (suffixed "_x" key rcols c, cell_at l c)) lcols.

Definition right_columns (key : string) (rcols : list string) : list string :=
  List.filter (fun c => negb (bool_decide (c = key))) rcols.

(** The part of a merged row that comes from the right table; all missing
    when the left row has no match. *)
Definition right_part (key : string) (lcols rcols : list string) (m : option row)
  : list (string * cell) :=
  map (fun c => (suffixed "_y" key lcols c,
                 match m with Some r => cell_at r c | None => NaN end))
      (right_columns key rcols).

Definition merged_row (key : string) (lcols rcols : list string) (l : row)
    (m : option row) : row :=
  list_to_map (left_part key lcols rcols l ++ right_part key lcols rcols m).

Definition matches (key : string) (l : row) (right : list row) : list row :=
  List.filter (fun r => bool_decide (cell_at r key = cell_at l key)) right.

(** The merged rows a single left row gives: one per matching right row,
    in the right table's order, or one with the right part missing. *)
Definition merge_row (key : string) (lcols rcols : list string) (right : list row)
    (l : row) : list row :=
  match matches key l right with
  | [] => [merged_row key lcols rcols l None]
  | ms => map (fun r => merged_row key lcols rcols l (Some r)) ms
  end.

Definition merge_left (key : string) (left right : DataFrame) : result DataFrame :=
  if has_column left key && has_column right key then
    Returned
      (mkDataFrame
         (map (suffixed "_x" key (columns right)) (columns left)
          ++ map (suffixed "_y" key (columns left)) (right_columns key (columns right)))
         (concat (map (merge_row key (columns left) (columns right) (rows right))
                      (rows left))))
  else Raised (KeyError key).

End Pandas.

(** ** Stage 1: company_research.py *)

Module Collector.

(** A company dict of the static catalog, with its keys in source order. *)
Definition company (name industry country data_source website : string)
  : list (string * cell) :=
  [("company_name", Str name); ("industry", Str industry);
   ("country", Str country); ("data_source", Str data_source);
   ("company_website", Str website)].

Definition search_asx_companies : list (list (string * cell)) :=
  [company "Commonwealth Bank" "Finance" "Australia" "ASX" "commbank.com.au";
   company "Westpac Banking Corporation" "Finance" "Australia" "ASX" "westpac.com.au";
   company "National Australia Bank" "Finance" "Australia" "ASX" "nab.com.au";
   company "ANZ Banking Group" "Finance" "Australia" "ASX" "anz.com.au";
   company "Macquarie Group" "Finance" "Australia" "ASX" "macquarie.com";
   company "QBE Insurance Group" "Insurance" "Australia" "ASX" "qbe.com";
   company "Insurance Australia Group" "Insurance" "Australia" "ASX" "iag.com.au";
   company "Suncorp Group" "Both" "Australia" "ASX" "suncorp.com.au";
   company "AMP Limited" "Both" "Australia" "ASX" "amp.com.au";
   company "Medibank Private" "Insurance" "Australia" "ASX" "medibank.com.au"].

Definition search_nzx_companies : list (list (string * cell)) :=
  [company "Heartland Group Holdings" "Finance" "New Zealand" "NZX" "heartland.co.nz";
   company "Tower Limited" "Insurance" "New Zealand" "NZX" "tower.co.nz";
   company "Westpac Banking Corporation" "Finance" "New Zealand" "NZX" "westpac.co.nz";
   company "ANZ Bank New Zealand" "Finance" "New Zealand" "NZX" "anz.co.nz";
   company "Kiwibank" "Finance" "New Zealand" "NZX" "kiwibank.co.nz"].

Definition get_sample_australia_finance_companies : list (list (string * cell)) :=
  [company "Commonwealth Bank of Australia" "Finance" "Australia" "Sample Data" "commbank.com.au";
   company "Westpac Banking Corporation" "Finance" "Australia" "Sample Data" "westpac.com.au";
   company "National Australia Bank" "Finance" "Australia" "Sample Data" "nab.com.au";
   company "Australia and New Zealand Banking Group" "Finance" "Australia" "Sample Data" "anz.com.au";
   company "Macquarie Group" "Finance" "Australia" "Sample Data" "macquarie.com";
   company "Suncorp Group" "Finance" "Australia" "Sample Data" "suncorp.com.au";
   company "Bank of Queensland" "Finance" "Australia" "Sample Data" "boq.com.au";
   company "Bendigo and Adelaide Bank" "Finance" "Australia" "Sample Data" "bendigobank.com.au";
   company "AMP Limited" "Finance" "Australia" "Sample Data" "amp.com.au";
   company "Judo Bank" "Finance" "Australia" "Sample Data" "judo.bank";
   company "Tyro Payments" "Finance" "Australia" "Sample Data" "tyro.com";
   company "MyState Limited" "Finance" "Australia" "Sample Data" "mystate.com.au";
   company "Xinja Bank" "Finance" "Australia" "Sample Data" "xinja.com.au";
   company "86 400" "Finance" "Australia" "Sample Data" "86400.com.au";
   company "Volt Bank" "Finance" "Australia" "Sample Data" "voltbank.com.au";
   company "Heritage Bank" "Finance" "Australia" "Sample Data" "heritage.com.au";
   company "Teachers Mutual Bank" "Finance" "Australia" "Sample Data" "tmbank.com.au";
   company "Greater Bank" "Finance" "Australia" "Sample Data" "greater.com.au";
   company "IMB Bank" "Finance" "Australia" "Sample Data" "imb.com.au";
   company "Beyond Bank Australia" "Finance" "Australia" "Sample Data" "beyondbank.com.au"].

Definition get_sample_australia_insurance_companies : list (list (string * cell)) :=
  [company "QBE Insurance Group" "Insurance" "Australia" "Sample Data" "qbe.com";
   company "Insurance Australia Group" "Insurance" "Australia" "Sample Data" "iag.com.au";
   company "Suncorp Insurance" "Insurance" "Australia" "Sample Data" "suncorp.com.au";
   company "Allianz Australia" "Insurance" "Australia" "Sample Data" "allianz.com.au";
   company "Youi Insurance" "Insurance" "Australia" "Sample Data" "youi.com.au";
   company "Budget Direct" "Insurance" "Australia" "Sample Data" "budgetdirect.com.au";
   company "AAMI Insurance" "Insurance" "Australia" "Sample Data" "aami.com.au";
   company "NRMA Insurance" "Insurance" "Australia" "Sample Data" "nrma.com.au";
   company "Medibank Private" "Insurance" "Australia" "Sample Data" "medibank.com.au";
   company "Bupa Australia" "Insurance" "Australia" "Sample Data" "bupa.com.au";
   company "HCF" "Insurance" "Australia" "Sample Data" "hcf.com.au";
   company "NIB Health Funds" "Insurance" "Australia" "Sample Data" "nib.com.au";
   company "AIA Australia" "Insurance" "Australia" "Sample Data" "aia.com.au";
   company "TAL Life Limited" "Insurance" "Australia" "Sample Data" "tal.com.au";
   company "Zurich Australia" "Insurance" "Australia" "Sample Data" "zurich.com.au";
   company "MetLife Insurance Limited" "Insurance" "Australia" "Sample Data" "metlife.com.au";
   company "Chubb Insurance Australia" "Insurance" "Australia" "Sample Data" "chubb.com/au";
   company "RACQ Insurance" "Insurance" "Australia" "Sample Data" "racq.com.au/insurance";
   company "RACV Insurance" "Insurance" "Australia" "Sample Data" "racv.com.au/insurance";
   company "Hollard Insurance" "Insurance" "Australia" "Sample Data" "hollard.com.au"].

Definition get_sample_nz_finance_companies : list (list (string * cell)) :=
  [company "ANZ Bank New Zealand" "Finance" "New Zealand" "Sample Data" "anz.co.nz";
   company "Westpac New Zealand" "Finance" "New Zealand" "Sample Data" "westpac.co.nz";
   company "Bank of New Zealand" "Finance" "New Zealand" "Sample Data" "bnz.co.nz";
   company "ASB Bank" "Finance" "New Zealand" "Sample Data" "asb.co.nz";
   company "Kiwibank" "Finance" "New Zealand" "Sample Data" "kiwibank.co.nz";
   company "TSB Bank" "Finance" "New Zealand" "Sample Data" "tsb.co.nz";
   company "Heartland Bank" "Finance" "New Zealand" "Sample Data" "heartland.co.nz";
   company "The Co-operative Bank" "Finance" "New Zealand" "Sample Data" "co-operativebank.co.nz";
   company "SBS Bank" "Finance" "New Zealand" "Sample Data" "sbsbank.co.nz";
   company "Rabobank New Zealand" "Finance" "New Zealand" "Sample Data" "rabobank.co.nz";
   company "HSBC New Zealand" "Finance" "New Zealand" "Sample Data" "hsbc.co.nz";
   company "China Construction Bank NZ" "Finance" "New Zealand" "Sample Data" "nz.ccb.com";
   company "Industrial and Commercial Bank of China NZ" "Finance" "New Zealand" "Sample Data" "icbcnz.com";
   company "Bank of China New Zealand" "Finance" "New Zealand" "Sample Data" "bankofchina.com/nz";
   company "Credit Union Baywide" "Finance" "New Zealand" "Sample Data" "nzcubaywide.co.nz"].

Definition get_sample_nz_insurance_companies : list (list (string * cell)) :=
  [company "AA Insurance" "Insurance" "New Zealand" "Sample Data" "aainsurance.co.nz";
   company "Tower Insurance" "Insurance" "New Zealand" "Sample Data" "tower.co.nz";
   company "IAG New Zealand" "Insurance" "New Zealand" "Sample Data" "iag.co.nz";
   company "FMG Insurance" "Insurance" "New Zealand" "Sample Data" "fmg.co.nz";
   company "AMI Insurance" "Insurance" "New Zealand" "Sample Data" "ami.co.nz";
   company "State Insurance" "Insurance" "New Zealand" "Sample Data" "state.co.nz";
   company "Medical Assurance Society" "Insurance" "New Zealand" "Sample Data" "mas.co.nz";
   company "Vero Insurance" "Insurance" "New Zealand" "Sample Data" "vero.co.nz";
   company "Southern Cross Health Society" "Insurance" "New Zealand" "Sample Data" "southerncross.co.nz";
   company "AIA New Zealand" "Insurance" "New Zealand" "Sample Data" "aia.co.nz";
   company "Partners Life" "Insurance" "New Zealand" "Sample Data" "partnerslife.co.nz";
   company "Fidelity Life" "Insurance" "New Zealand" "Sample Data" "fidelitylife.co.nz";
   company "Cigna Life Insurance" "Insurance" "New Zealand" "Sample Data" "cigna.co.nz";
   company "Asteron Life" "Insurance" "New Zealand" "Sample Data" "asteronlife.co.nz";
   company "Accuro Health Insurance" "Insurance" "New Zealand" "Sample Data" "accuro.co.nz"].

(** [pd.DataFrame(dicts)]: the columns are the keys in order of first
    appearance; a key a dict lacks is a missing value in its row. *)
Definition frame_of_dicts (dicts : list (list (string * cell))) : DataFrame :=
  let cols := Pandas.dedup_by (fun key : string => key) []
                (concat (map (map fst) dicts)) in
  mkDataFrame cols
    (map (fun d => list_to_map
                     (map (fun c => (c, default NaN (snd <$> List.find
                                        (fun kv => bool_decide (kv.1 = c)) d)))
                          cols) : row)
         dicts).

(** [range(1, n + 1)] as a column of cells. *)
Definition id_range (n : nat) : list cell :=
  map (fun i => Int (Z.of_nat i)) (seq 1 n).

Definition required_columns : list string :=
  ["company_id"; "company_name"; "industry"; "country"; "company_size";
   "annual_revenue"; "company_website"; "linkedin_url"; "actively_hiring";
   "hiring_devops"; "hiring_developers"; "data_source"; "last_verified"].

Definition add_missing_columns (df : DataFrame) : DataFrame :=
  fold_left (fun df c => if has_column df c then df else Pandas.assign_all c NaN df)
            required_columns df.

(** [str(v)] for a cell. *)
Definition cell_str (v : cell) : string :=
  match v with
  | NaN => "nan"
  | Str s => s
  | Int z => pretty z
  end.

(** The AttributeError text of [v.lower()] on a cell that is no text. *)
Definition no_lower (v : cell) : string :=
  match v with
  | Int _ => "'int' object has no attribute 'lower'"
  | _ => "'float' object has no attribute 'lower'"
  end.

(** A website guessed from the name where none is known. A name that is
    no text makes [lower] raise inside the try block: the row stays as it
    is and an error line is printed. *)
Definition enrich_website_row (r : row) : row * list event :=
  if isna (Pandas.cell_at r "company_website") then
    match Pandas.cell_at r "company_name" with
    | Str company_name =>
        let company_url :=
          "https://www." +:+ remove_char " " (lower company_name) +:+ ".com" in
        (<["company_website" := Str company_url]> r, [])
    | v => (r, [Printed ("Error finding website for " +:+ cell_str v +:+ ": "
                         +:+ no_lower v)])
    end
  else (r, []).

Definition enrich_linkedin_row (r : row) : row * list event :=
  if isna (Pandas.cell_at r "linkedin_url") then
    match Pandas.cell_at r "company_name" with
    | Str company_name =>
        let formatted_name :=
          replace_char "&" "and" (replace_char " " "-" (lower company_name)) in
        let linkedin_url := "https://www.linkedin.com/company/" +:+ formatted_name in
        (<["linkedin_url" := Str linkedin_url]> r, [])
    | v => (r, [Printed ("Error finding LinkedIn for " +:+ cell_str v +:+ ": "
                         +:+ no_lower v)])
    end
  else (r, []).

Definition enrich_rows (f : row -> row * list event) (df : DataFrame)
  : io DataFrame :=
  let done := map f (rows df) in
  (concat (map snd done), Returned (mkDataFrame (columns df) (map fst done))).

Definition enrich_with_company_websites (companies_df : DataFrame) : io DataFrame :=
  emit (Printed "Enriching with company websites...") ;;;
  enrich_rows enrich_website_row companies_df.

Definition enrich_with_linkedin (companies_df : DataFrame) : io DataFrame :=
  emit (Printed "Enriching with LinkedIn URLs...") ;;;
  enrich_rows enrich_linkedin_row companies_df.

Definition all_companies : list (list (string * cell)) :=
  search_asx_companies ++ search_nzx_companies
  ++ get_sample_australia_finance_companies
  ++ get_sample_australia_insurance_companies
  ++ get_sample_nz_finance_companies
  ++ get_sample_nz_insurance_companies.

Section Main.

(** [datetime.now().strftime('%Y-%m-%d')] and [str(datetime.now())] *)
Variable today : string.
Variable now : string.

(** The table the Collector builds from a list of company dicts: the
    part of [main] between the construction of the frame and its
    saving. *)
Definition collect (companies : list (list (string * cell))) : io DataFrame :=
  let collected_df := frame_of_dicts companies in
  let collected_df :=
    Pandas.assign "company_id" (id_range (length (rows collected_df)))
      collected_df in
  let collected_df := Pandas.assign_all "actively_hiring" (Str "Unknown") collected_df in
  let collected_df := Pandas.assign_all "hiring_devops" (Str "Unknown") collected_df in
  let collected_df := Pandas.assign_all "hiring_developers" (Str "Unknown") collected_df in
  let collected_df := Pandas.assign_all "last_verified" (Str today) collected_df in
  collected_df <-- lift (Pandas.drop_duplicates "company_name" collected_df) ;;
  let collected_df := add_missing_columns collected_df in
  collected_df <--
    (if has_column collected_df "company_website"
     then enrich_with_company_websites collected_df
     else io_ret collected_df) ;;
  (if has_column collected_df "linkedin_url"
   then enrich_with_linkedin collected_df
   else io_ret collected_df).

Definition save_tables (collected_df : DataFrame) : io unit :=
  emit (TableSaved "data/raw/companies_raw.xlsx") ;;;
  emit (Printed "Successfully saved data to data/raw/companies_raw.xlsx") ;;;
  emit (TableSaved "data/raw/companies_processed.csv") ;;;
  emit (Printed "Successfully saved data to data/raw/companies_processed.csv") ;;;
  emit (Printed ("Collected " +:+ pretty (length (rows collected_df))
                 +:+ " companies and saved to data/raw/")).

(** [main] on the static catalog. An exception of the [try] block is
    printed and written to the error log, which is opened for writing. *)
Definition main : list event * ending :=
  match (emit (Printed "Starting data collection process...") ;;;
         emit (Printed "Getting ASX listed companies...") ;;;
         emit (Printed "Getting NZX listed companies...") ;;;
         emit (TableSaved "data/raw/companies_raw.csv") ;;;
         emit (Printed "Successfully wrote data to data/raw/companies_raw.csv") ;;;
         collected_df <-- collect all_companies ;;
         save_tables collected_df) with
  | (trace, Returned _) => (trace, Finished)
  | (trace, Raised (SystemExit code)) => (trace, Exited code)
  | (trace, Raised e) =>
      (trace ++ [Printed ("Error processing dataframe: " +:+ exn_str e);
                 FileWritten "data/raw/error_log.txt" "w"
                   ("Error occurred at " +:+ now +:+ ": " +:+ exn_str e)],
       Finished)
  end.

End Main.

End Collector.

(** ** Stage 2: hiring_verification.py *)

Module StatusChecker.
Import Pandas.

(** What a source check reports: the two facts and where they were seen. *)
Record check_result : Type := mkCheck {
  has_devops : bool;
  has_software_dev : bool;
  source : cell
}.

Definition is_yes (c : string) (r : row) : bool := cell_is "Yes" (cell_at r c).

(** [hiring_devops != 'Yes' or hiring_developers != 'Yes'] *)
Definition undecided (r : row) : bool :=
  negb (is_yes "hiring_devops" r) || negb (is_yes "hiring_developers" r).

(** The careers-page result is recorded without looking at the flags. *)
Definition record_careers (res : check_result) (r : row) : row :=
  let r := if has_devops res
           then <["devops_source" := source res]> (<["hiring_devops" := Str "Yes"]> r)
           else r in
  let r := if has_software_dev res
           then <["software_dev_source" := source res]>
                  (<["hiring_developers" := Str "Yes"]> r)
           else r in
  r.

(** The LinkedIn and Seek results only fill a flag that is not "Yes" yet. *)
Definition record_later (res : check_result) (r : row) : row :=
  let r := if has_devops res && negb (is_yes "hiring_devops" r)
           then <["devops_source" := source res]> (<["hiring_devops" := Str "Yes"]> r)
           else r in
  let r := if has_software_dev res && negb (is_yes "hiring_developers" r)
           then <["software_dev_source" := source res]>
                  (<["hiring_developers" := Str "Yes"]> r)
           else r in
  r.

(** Mark as "No" what is still not "Yes" after all checks. *)
Definition mark_no (r : row) : row :=
  let r := if negb (is_yes "hiring_devops" r)
           then <["hiring_devops" := Str "No"]> r else r in
  let r := if negb (is_yes "hiring_developers" r)
           then <["hiring_developers" := Str "No"]> r else r in
  r.

Definition set_actively_hiring (r : row) : row :=
  if is_yes "hiring_devops" r || is_yes "hiring_developers" r
  then <["actively_hiring" := Str "Yes"]> r
  else <["actively_hiring" := Str "No"]> r.

Section Verify.

(** The state of everything outside the program: the web and the random
    number generator of mock mode. *)
Variable world : Type.

(** The three source checks, with the arguments the source passes and
    the [use_mock] flag: a web lookup or, in mock mode, coin flips. *)
Variable check_company_careers_page :
  cell -> cell -> bool -> world -> check_result * world.
Variable check_linkedin_jobs :
  cell -> cell -> bool -> world -> check_result * world.
Variable check_seek_jobs :
  cell -> cell -> bool -> world -> check_result * world.

(** One block of the loop body: it updates the table row and may consult
    the outside world. *)
Definition stage : Type := row -> world -> row * world.

(** [snapshot] is the row as [iterrows] hands it out at the start of the
    iteration; the name, the addresses and the country are read from it. *)
Definition careers_stage (use_mock : bool) (snapshot : row) : stage :=
  fun r w =>
    let company_url := cell_at snapshot "company_website" in
    if truthy company_url then
      let (careers_result, w) :=
        check_company_careers_page (cell_at snapshot "company_name")
          company_url use_mock w in
      (record_careers careers_result r, w)
    else (r, w).

Definition linkedin_stage (use_mock : bool) (snapshot : row) : stage :=
  fun r w =>
    if undecided r then
      let linkedin_url := cell_at snapshot "linkedin_url" in
      let (linkedin_result, w) :=
        check_linkedin_jobs (cell_at snapshot "company_name")
          linkedin_url use_mock w in
      (record_later linkedin_result r, w)
    else (r, w).

Definition seek_stage (use_mock : bool) (snapshot : row) : stage :=
  fun r w =>
    if undecided r then
      let (seek_result, w) :=
        check_seek_jobs (cell_at snapshot "company_name")
          (cell_at snapshot "country") use_mock w in
      (record_later seek_result r, w)
    else (r, w).

(** The blocks of the loop body in source order: careers page, LinkedIn,
    Seek, the final fill-in, the overall flag. *)
Definition stages (use_mock : bool) (snapshot : row) : list stage :=
  [careers_stage use_mock snapshot;
   linkedin_stage use_mock snapshot;
   seek_stage use_mock snapshot;
   (fun r w => (mark_no r, w));
   (fun r w => (set_actively_hiring r, w))].

Definition run_stages (ss : list stage) (r : row) (w : world) : row * world :=
  fold_left (fun rw (s : stage) => s rw.1 rw.2) ss (r, w).

Definition verify_row (use_mock : bool) (r : row) (w : world) : row * world :=
  run_stages (stages use_mock r) r w.

Fixpoint verify_rows (use_mock : bool) (l : list row) (w : world)
  : list row * world :=
  match l with
  | [] => ([], w)
  | r :: l' =>
      let (r', w) := verify_row use_mock r w in
      let (l'', w) := verify_rows use_mock l' w in
      (r' :: l'', w)
  end.

Definition verify_hiring_status (companies_df : DataFrame) (use_mock : bool)
    (w : world) : DataFrame * world :=
  let companies_df := assign_all "devops_source" NaN companies_df in
  let companies_df := assign_all "software_dev_source" NaN companies_df in
  let (l, w) := verify_rows use_mock (rows companies_df) w in
  (mkDataFrame (columns companies_df) l, w).

End Verify.

End StatusChecker.

(** ** Stage 3: contact_enrichment.py *)

Module ContactFinder.
Import Pandas.

(** *** filter_actively_hiring_companies *)

(** [actively_hiring == 'Yes' and (hiring_devops == 'Yes' or
    hiring_developers == 'Yes')] on a row. *)
Definition qualifies (r : row) : bool :=
  cell_is "Yes" (cell_at r "actively_hiring")
  && (cell_is "Yes" (cell_at r "hiring_devops")
      || cell_is "Yes" (cell_at r "hiring_developers")).

Definition sort_by_size_or_revenue (hiring_df : DataFrame) : result DataFrame :=
  if has_column hiring_df "company_size" && negb (all_na "company_size" hiring_df)
  then sort_values_desc "company_size" hiring_df
  else if has_column hiring_df "annual_revenue"
          && negb (all_na "annual_revenue" hiring_df)
  then sort_values_desc "annual_revenue" hiring_df
  else Returned hiring_df.

Definition filter_actively_hiring_companies (companies_df : DataFrame)
  : io DataFrame :=
  if negb (has_column companies_df "actively_hiring")
  then lift (Raised (KeyError "actively_hiring"))
  else if negb (has_column companies_df "hiring_devops")
  then lift (Raised (KeyError "hiring_devops"))
  else if negb (has_column companies_df "hiring_developers")
  then lift (Raised (KeyError "hiring_developers"))
  else
    let hiring_df :=
      mkDataFrame (columns companies_df) (List.filter qualifies (rows companies_df)) in
    if (length (rows hiring_df) <? 100)%nat then
      emit (Printed ("Warning: Only " +:+ pretty (length (rows hiring_df))
                     +:+ " companies are actively hiring. Using all available companies.")) ;;;
      io_ret hiring_df
    else
      hiring_df <-- lift (sort_by_size_or_revenue hiring_df) ;;
      io_ret (head 100 hiring_df).

(** *** extract_domain_from_url, generate_email *)

(** The domain of a website address; nothing when the address is no text
    (the string method raises, which is caught). *)
Definition extract_domain_from_url (url : cell) : option string :=
  match url with
  | Str url =>
      let url := if starts_with "http://" url || starts_with "https://" url
                 then url else "https://" +:+ url in
      let parsed_url :=
        List.hd "" (split "/" (List.last (split "//" url) "")) in
      Some (if starts_with "www." parsed_url then drop_chars 4 parsed_url
            else parsed_url)
  | _ => None
  end.

Definition common_patterns : list string :=
  ["first.last@{}"; "firstlast@{}"; "first_last@{}"; "flast@{}"; "first.l@{}";
   "f.last@{}"].

(** [s[0]] *)
Definition first_char (s : string) : result string :=
  match s with
  | String a _ => Returned (String a "")
  | EmptyString => Raised IndexError
  end.

(** [pattern] is the optional argument; [None] and the empty text both
    select the default shape. *)
Definition generate_email (first_name last_name domain : string)
    (pattern : option string) : result string :=
  let pattern :=
    match pattern with
    | Some p => if bool_decide (p = "") then format "first.last@{}" domain else p
    | None => format "first.last@{}" domain
    end in
  let first := lower first_name in
  let last := lower last_name in
  if bool_decide (pattern = format "first.last@{}" domain)
  then Returned (first +:+ "." +:+ last +:+ "@" +:+ domain)
  else if bool_decide (pattern = format "firstlast@{}" domain)
  then Returned (first +:+ last +:+ "@" +:+ domain)
  else if bool_decide (pattern = format "first_last@{}" domain)
  then Returned (first +:+ "_" +:+ last +:+ "@" +:+ domain)
  else if bool_decide (pattern = format "flast@{}" domain)
  then f <- first_char first ;; Returned (f +:+ last +:+ "@" +:+ domain)
  else if bool_decide (pattern = format "first.l@{}" domain)
  then l <- first_char last ;; Returned (first +:+ "." +:+ l +:+ "@" +:+ domain)
  else if bool_decide (pattern = format "f.last@{}" domain)
  then f <- first_char first ;; Returned (f +:+ "." +:+ last +:+ "@" +:+ domain)
  else Returned (first +:+ "." +:+ last +:+ "@" +:+ domain).

(** *** enrich_contacts *)

(** A candidate as the finders return it: a dict with a name, a title, a
    source and, from the profile finder, a profile address. *)
Record executive : Type := mkExecutive {
  name : string;
  title : string;
  linkedin_url : option string;
  source : string
}.

Definition placeholder : executive :=
  {| name := "Technology Decision Maker";
     title := "CTO or equivalent";
     linkedin_url := None;
     source := "Placeholder - requires manual research" |}.

Definition executive_columns : list string :=
  ["company_id"; "executive_name"; "executive_title"; "linkedin_url";
   "email"; "phone"; "source"; "verification_status"].

Definition opt_cell (o : option string) : cell :=
  match o with Some s => Str s | None => NaN end.

(** The candidates of both finders, the profile finder's first; a website
    candidate is dropped when its name, ignoring case, is among the
    profile finder's names. *)
Definition combine_executives (linkedin_execs website_execs : list executive)
  : list executive :=
  let linkedin_names := map (fun e => lower (name e)) linkedin_execs in
  linkedin_execs
  ++ List.filter (fun e => negb (bool_decide (lower (name e) ∈ linkedin_names)))
       website_execs.

(** [if not all_execs: all_execs.append(placeholder)] *)
Definition with_placeholder (all_execs : list executive) : list executive :=
  match all_execs with
  | [] => [placeholder]
  | _ => all_execs
  end.

Section Enrich.

(** The state of everything outside the program: the web and the random
    number generator of mock mode. *)
Variable world : Type.

(** A step that may consult the outside world and may raise. *)
Definition st (A : Type) : Type := world -> result A * world.

Definition st_ret {A} (a : A) : st A := fun w => (Returned a, w).

Definition st_bind {A B} (m : st A) (k : A -> st B) : st B :=
  fun w => match m w with
           | (Returned a, w') => k a w'
           | (Raised e, w') => (Raised e, w')
           end.

(** A call to the outside world; these calls catch their own errors. *)
Definition ask {A} (f : world -> A * world) : st A :=
  fun w => let (a, w') := f w in (Returned a, w').

(** The two finders, the pattern draw, the email check and the phone
    lookup, with the arguments the source passes: web lookups or, in
    mock mode, random draws. [random_index n] is the position
    [random.choice] picks in a list of [n] items. *)
Variable find_linkedin_executives :
  cell -> cell -> bool -> world -> list executive * world.
Variable find_company_executives :
  cell -> cell -> bool -> world -> list executive * world.
Variable random_index : nat -> world -> nat * world.
Variable verify_email_exists : string -> bool -> world -> bool * world.
Variable find_phone_number : string -> cell -> bool -> world -> option string * world.

Definition discover_email_pattern (company_domain : string) : st string :=
  st_bind (ask (random_index (length common_patterns))) (fun i =>
    st_ret (format (nth (i mod length common_patterns) common_patterns "")
              company_domain)).

(** The email of a candidate and its verification label. *)
Definition derive_email (use_mock : bool) (first_name last_name : string)
    (company_domain email_pattern : option string)
  : st (option string * string) :=
  match company_domain, email_pattern with
  | Some domain, Some pattern =>
      if negb (bool_decide (domain = "")) && negb (bool_decide (pattern = ""))
      then
        st_bind (fun w => (generate_email first_name last_name domain (Some pattern), w))
          (fun email =>
             st_bind (ask (verify_email_exists email use_mock)) (fun ok =>
               st_ret (Some email,
                       if ok then "Domain MX Verified" else "Not Verified")))
      else st_ret (None, "Not Verified")
  | _, _ => st_ret (None, "Not Verified")
  end.

Definition contact_row (company_id : cell) (exec : executive)
    (email phone : option string) (verification_status : string) : row :=
  list_to_map
    [("company_id", company_id);
     ("executive_name", Str (name exec));
     ("executive_title", Str (title exec));
     ("linkedin_url", opt_cell (linkedin_url exec));
     ("email", opt_cell email);
     ("phone", opt_cell phone);
     ("source", Str (source exec));
     ("verification_status", Str verification_status)].

(** The body of the loop over the candidates of one company: the contact
    row of a candidate, if it gets one. *)
Definition process_executive (use_mock : bool) (company_id company_name : cell)
    (company_domain email_pattern : option string) (exec : executive)
  : st (list row) :=
  let exec_name := name exec in
  if bool_decide (exec_name = "Unknown") then st_ret []
  else
    let name_parts := split_ws exec_name in
    if (2 <=? length name_parts)%nat then
      let first_name := List.hd "" name_parts in
      let last_name := List.last name_parts "" in
      st_bind (derive_email use_mock first_name last_name company_domain
                 email_pattern)
        (fun derived =>
           st_bind (ask (find_phone_number exec_name company_name use_mock))
             (fun phone =>
                st_ret [contact_row company_id exec derived.1 phone derived.2]))
    else st_ret [].

Fixpoint process_executives (use_mock : bool) (company_id company_name : cell)
    (company_domain email_pattern : option string) (execs : list executive)
  : st (list row) :=
  match execs with
  | [] => st_ret []
  | exec :: execs' =>
      st_bind (process_executive use_mock company_id company_name
                 company_domain email_pattern exec) (fun new_rows =>
        st_bind (process_executives use_mock company_id company_name
                   company_domain email_pattern execs') (fun more =>
          st_ret (new_rows ++ more)))
  end.

(** The candidates gathered for one company. *)
Definition gather_executives (use_mock : bool) (r : row) (w : world)
  : list executive * world :=
  let company_name := cell_at r "company_name" in
  let company_url := cell_at r "company_website" in
  let linkedin_url := cell_at r "linkedin_url" in
  let (linkedin_execs, w) :=
    find_linkedin_executives company_name linkedin_url use_mock w in
  let (website_execs, w) :=
    if truthy company_url
    then find_company_executives company_name company_url use_mock w
    else ([], w) in
  (combine_executives linkedin_execs website_execs, w).

(** The body of the loop over the companies: the contact rows of one
    company. *)
Definition enrich_company (use_mock : bool) (r : row) : st (list row) :=
  let company_id := cell_at r "company_id" in
  let company_name := cell_at r "company_name" in
  let company_url := cell_at r "company_website" in
  st_bind (ask (gather_executives use_mock r)) (fun all_execs =>
    let all_execs := with_placeholder all_execs in
    let company_domain :=
      if truthy company_url then extract_domain_from_url company_url else None in
    st_bind (match company_domain with
             | Some domain =>
                 if negb (bool_decide (domain = ""))
                 then st_bind (discover_email_pattern domain)
                        (fun p => st_ret (Some p))
                 else st_ret None
             | None => st_ret None
             end)
      (fun email_pattern =>
         process_executives use_mock company_id company_name
           company_domain email_pattern all_execs)).

Fixpoint enrich_rows (use_mock : bool) (l : list row) : st (list row) :=
  match l with
  | [] => st_ret []
  | r :: l' =>
      st_bind (enrich_company use_mock r) (fun contacts =>
        st_bind (enrich_rows use_mock l') (fun more =>
          st_ret (contacts ++ more)))
  end.

Definition enrich_contacts (companies_df : DataFrame) (use_mock : bool)
  : st DataFrame :=
  st_bind (enrich_rows use_mock (rows companies_df)) (fun contacts =>
    st_ret (mkDataFrame executive_columns contacts)).

End Enrich.

End ContactFinder.

Module Consolidator.

(** *** data_consolidation.py: clean_company_names *)

Definition newline : string := String (ascii_of_nat 10) "".

(** The regex anchor [$]: the end of the text, or the place just before a
    newline that ends the text. *)
Definition at_end (t : string) : bool :=
  bool_decide (t = "") || bool_decide (t = newline).

(** The suffix patterns: [\s<word>$], [\s<word>\.?$] and [\s\(.+\)$]. *)
Inductive pattern : Type :=
| Word (word : string) (optional_dot : bool)
| Parenthesised.

Definition patterns : list pattern :=
  [Word "Ltd" true; Word "Limited" false; Word "Pty" true; Word "Corp" true;
   Word "Corporation" false; Word "Inc" true; Word "LLC" false;
   Word "Group" false; Word "Holdings" false; Parenthesised].

(** A word pattern against the text after the white space, ignoring case:
    the text that stays behind the match, if there is a match. *)
Definition match_word (word : string) (optional_dot : bool) (rest : string)
  : option string :=
  if starts_with (lower word) (lower rest) then
    let after := drop_chars (String.length word) rest in
    if optional_dot && starts_with "." after && at_end (drop_chars 1 after)
    then Some (drop_chars 1 after)
    else if at_end after then Some after
    else None
  else None.

(** [.+\)$] against the text after the opening parenthesis: one or more
    characters other than a newline, then a closing parenthesis at the end. *)
Fixpoint match_body (t : string) (nonempty : bool) : option string :=
  match t with
  | EmptyString => None
  | String a t' =>
      if nonempty && bool_decide (a = ")"%char) && at_end t' then Some t'
      else if bool_decide (String a "" = newline) then None
      else match_body t' true
  end.

Definition match_pattern (p : pattern) (rest : string) : option string :=
  match p with
  | Word word optional_dot => match_word word optional_dot rest
  | Parenthesised =>
      match rest with
      | String "("%char t => match_body t false
      | _ => None
      end
  end.

(** [re.sub(pattern, '', s, flags=re.IGNORECASE)]: the leftmost match is
    cut out; behind it at most a final newline stays, which holds no
    further match. *)
Fixpoint sub_pattern (p : pattern) (s : string) : string :=
  match s with
  | EmptyString => EmptyString
  | String a s' =>
      if is_space a then
        match match_pattern p s' with
        | Some behind => behind
        | None => String a (sub_pattern p s')
        end
      else String a (sub_pattern p s')
  end.

Definition clean_name (name : string) : string :=
  let cleaned := fold_left (fun cleaned p => sub_pattern p cleaned) patterns name in
  strip cleaned.

(** [re.sub] on a cell that holds no text raises TypeError. *)
Definition clean_name_cell (v : cell) : result cell :=
  match v with
  | Str name => Returned (Str (clean_name name))
  | _ => Raised TypeError
  end.

Definition clean_company_names (df : DataFrame) : result DataFrame :=
  if has_column df "company_name" then
    cleaned <- rmap (fun r => clean_name_cell (Pandas.cell_at r "company_name"))
                    (rows df) ;;
    Returned (Pandas.assign "clean_company_name" cleaned df)
  else Raised (KeyError "company_name").

(** *** data_consolidation.py: prepare_final_dataset / calculate_quality *)

Definition filled_star : string := "★".
Definition empty_star : string := "☆".

(** [any(pd.isna(row[col]) for col in cols)]: the generator stops at the
    first missing value, later columns are not looked up. *)
Fixpoint any_isna (r : row) (cols : list string) : result bool :=
  match cols with
  | [] => Returned false
  | c :: cs => v <- getitem r c ;;
               if isna v then Returned true else any_isna r cs
  end.

Definition bump (b : bool) (score : Z) : Z := if b then score + 1 else score.

(** The number of completeness checks a row passes. *)
Definition quality_score (r : row) : result Z :=
  let score := 0 in
  basic_missing <- any_isna r ["company_name"; "industry"; "country"] ;;
  let score := bump (negb basic_missing) score in
  website <- getitem r "company_website" ;;
  web_and_linkedin <-
    (if isna website then Returned false
     else l <- getitem r "linkedin_url_x" ;; Returned (negb (isna l))) ;;
  let score := bump web_and_linkedin score in
  name <- getitem r "executive_name" ;;
  let score := bump (negb (isna name)) score in
  title <- getitem r "executive_title" ;;
  let score := bump (negb (isna title)) score in
  linkedin <- getitem r "linkedin_url_y" ;;
  let score := bump (negb (isna linkedin)) score in
  email <- getitem r "email" ;;
  let score := bump (negb (isna email)) score in
  phone <- getitem r "phone" ;;
  let score := bump (negb (isna phone)) score in
  Returned score.

Definition stars_of (score : Z) : string :=
  str_mul filled_star score ++ str_mul empty_star (5 - score).

Definition calculate_quality (r : row) : result string :=
  score <- quality_score r ;;
  Returned (stars_of score).

Definition column_names : list (string * string) :=
  [("clean_company_name", "Company Name"); ("industry", "Industry");
   ("country", "Country"); ("company_size", "Company Size");
   ("annual_revenue", "Annual Revenue (AUD)");
   ("company_website", "Company Website");
   ("linkedin_url_x", "Company LinkedIn"); ("hiring_devops", "Hiring DevOps");
   ("hiring_developers", "Hiring Software Developers");
   ("executive_name", "C-Level Contact Name");
   ("executive_title", "C-Level Title"); ("linkedin_url_y", "C-Level LinkedIn");
   ("email", "C-Level Email"); ("phone", "C-Level Phone");
   ("data_quality", "Data Quality"); ("last_verified", "Last Verified")].

Definition columns_order : list string :=
  ["Company Name"; "Industry"; "Country"; "Company Size"; "Annual Revenue (AUD)";
   "Company Website"; "Company LinkedIn"; "Hiring DevOps";
   "Hiring Software Developers"; "C-Level Contact Name"; "C-Level Title";
   "C-Level LinkedIn"; "C-Level Email"; "C-Level Phone"; "Data Quality";
   "Last Verified"].

Section PrepareFinalDataset.

(** [pd.to_datetime(v).strftime('%Y-%m-%d')] on one value: the date as a
    text, or nothing when the value is no date and the conversion raises. *)
Variable format_date : cell -> option cell.

(** [pd.to_datetime(column).dt.strftime('%Y-%m-%d')]: one value that is
    no date makes the conversion of the column raise. *)
Definition format_dates (column : list cell) : option (list cell) :=
  mapM format_date column.

(** [datetime.now().strftime('%Y-%m-%d')] *)
Variable today : string.

Definition sort_by_size_or_revenue (final_df : DataFrame) : result DataFrame :=
  if has_column final_df "company_size"
     && negb (Pandas.all_na "company_size" final_df)
  then Pandas.sort_values_desc "company_size" final_df
  else if has_column final_df "annual_revenue"
          && negb (Pandas.all_na "annual_revenue" final_df)
  then Pandas.sort_values_desc "annual_revenue" final_df
  else Returned final_df.

Definition format_last_verified (final_df : DataFrame) : DataFrame :=
  if has_column final_df "Last Verified" then
    match format_dates (map (fun r => Pandas.cell_at r "Last Verified")
                            (rows final_df)) with
    | Some dates => Pandas.assign "Last Verified" dates final_df
    | None =>
        Pandas.assign "Last Verified"
          (map (fun _ => Str today) (rows final_df)) final_df
    end
  else final_df.

Definition prepare_final_dataset (companies_df executives_df : DataFrame)
  : result DataFrame :=
  companies_df <- clean_company_names companies_df ;;
  final_df <- Pandas.merge_left "company_id" companies_df executives_df ;;
  final_df <- sort_by_size_or_revenue final_df ;;
  quality <- rmap (fun r => stars <- calculate_quality r ;; Returned (Str stars))
                  (rows final_df) ;;
  let final_df := Pandas.assign "data_quality" quality final_df in
  let final_df := Pandas.rename column_names final_df in
  let final_df := format_last_verified final_df in
  let available_columns := List.filter (has_column final_df) columns_order in
  Returned (Pandas.select_columns available_columns final_df).

End PrepareFinalDataset.

(** *** data_consolidation.py: create_opportunities_content *)

(** A Python float: a finite number, an infinity or the float NaN. *)
Inductive pyfloat : Type :=
| Finite (q : Q)
| Infinite (positive : bool)
| NotANumber.

(** [x > n] for a float [x] and a whole number [n]. *)
Definition float_gt (x : pyfloat) (n : Z) : bool :=
  match x with
  | Finite q => negb (Qle_bool q (inject_Z n))
  | Infinite positive => positive
  | NotANumber => false
  end.

(** [col in row and not pd.isna(row[col])] *)
Definition present (r : row) (c : string) : bool :=
  match r !! c with
  | Some v => negb (isna v)
  | None => false
  end.

Section Opportunities.

(** Python's [float] applied to a text: the float it denotes, or nothing
    when the text is no number and [float] raises ValueError. *)
Variable python_float : string -> option pyfloat.

(** [float(str(v).replace(',', ''))] inside try/except: a number cell
    prints to its own numeral, a text cell is parsed after its commas
    are dropped; nothing when the conversion raises. *)
Definition company_size (v : cell) : option pyfloat :=
  match v with
  | Int z => Some (Finite (inject_Z z))
  | Str s => python_float (remove_char "," s)
  | NaN => Some NotANumber
  end.

Definition hiring_points (r : row) : Z :=
  match r !! "Hiring DevOps", r !! "Hiring Software Developers" with
  | Some devops, Some developers =>
      if cell_is "Yes" devops && cell_is "Yes" developers then 3
      else if cell_is "Yes" devops || cell_is "Yes" developers then 1
      else 0
  | _, _ => 0
  end.

Definition size_points (r : row) : Z :=
  match r !! "Company Size" with
  | Some v =>
      if isna v then 0
      else match company_size v with
           | Some size =>
               if float_gt size 10000 then 3
               else if float_gt size 1000 then 2
               else if float_gt size 100 then 1
               else 0
           | None => 0
           end
  | None => 0
  end.

Definition score_opportunity (r : row) : Z :=
  let score := 0 in
  let score := score + hiring_points r in
  let score := if present r "C-Level Contact Name" then score + 1 else score in
  let score := if present r "C-Level Email" then score + 2 else score in
  let score := if present r "C-Level Phone" then score + 2 else score in
  let score := score + size_points r in
  score.

Definition hiring_notes (r : row) : list string :=
  match r !! "Hiring DevOps", r !! "Hiring Software Developers" with
  | Some devops, Some developers =>
      if cell_is "Yes" devops && cell_is "Yes" developers
      then ["Actively hiring for both DevOps and Software Developer roles"]
      else if cell_is "Yes" devops then ["Currently seeking DevOps talent"]
      else if cell_is "Yes" developers then ["Actively recruiting Software Developers"]
      else []
  | _, _ => []
  end.

Definition contact_notes (r : row) : list string :=
  match r !! "C-Level Email", r !! "C-Level Phone" with
  | Some email, Some phone =>
      if negb (isna email) && negb (isna phone)
      then ["Complete C-level contact information available"]
      else if negb (isna email)
      then ["Direct email contact available for decision maker"]
      else []
  | _, _ => []
  end.

Definition size_notes (r : row) : list string :=
  match r !! "Company Size" with
  | Some v =>
      if isna v then []
      else match company_size v with
           | Some size =>
               if float_gt size 5000
               then ["Major enterprise with significant IT needs"]
               else if float_gt size 1000
               then ["Large company with established IT department"]
               else []
           | None => []
           end
  | None => []
  end.

Definition create_opportunity_note (r : row) : string :=
  let notes := hiring_notes r ++ contact_notes r ++ size_notes r in
  match notes with
  | [] => "Standard opportunity"
  | _ => join "; " notes
  end.

Definition display_columns : list string :=
  ["Company Name"; "Industry"; "Country"; "Hiring DevOps";
   "Hiring Software Developers"; "C-Level Contact Name"; "C-Level Title";
   "C-Level Email"; "C-Level Phone"; "Opportunity Score"; "Opportunity Notes"].

Definition create_opportunities_content_by (argsort : list cell -> list nat)
    (final_df : DataFrame) : result DataFrame :=
  let opportunities_df := final_df in
  let opportunities_df :=
    Pandas.assign "Opportunity Score"
      (map (fun r => Int (score_opportunity r)) (rows opportunities_df))
      opportunities_df in
  let opportunities_df :=
    Pandas.assign "Opportunity Notes"
      (map (fun r => Str (create_opportunity_note r)) (rows opportunities_df))
      opportunities_df in
  top_opportunities <-
    Pandas.sort_values_desc_by argsort "Opportunity Score" opportunities_df ;;
  top_opportunities <- Pandas.drop_duplicates "Company Name" top_opportunities ;;
  let top_opportunities := Pandas.head 10 top_opportunities in
  let available_columns :=
    List.filter (has_column top_opportunities) display_columns in
  Returned (Pandas.select_columns available_columns top_opportunities).

(** The function with the stable routine for the sort. *)
Definition create_opportunities_content (final_df : DataFrame) : result DataFrame :=
  create_opportunities_content_by Pandas.insertion_argsort final_df.

End Opportunities.

(** *** data_consolidation.py: load_data, main *)

(** The five sheets handed to [create_final_excel]. *)
Record Workbook : Type := mkWorkbook {
  company_data : DataFrame;
  summary_dashboard : DataFrame;
  methodology : list string;
  sources : DataFrame;
  top_opportunities : DataFrame
}.

(** [len(df[col].unique())] *)
Definition count_unique (c : string) (df : DataFrame) : result nat :=
  if has_column df c then
    Returned (length (remove_dups (map (fun r => Pandas.cell_at r c) (rows df))))
  else Raised (KeyError c).

(** [len(df.dropna(subset=[col]))] *)
Definition count_present (c : string) (df : DataFrame) : nat :=
  length (List.filter (fun r => negb (isna (Pandas.cell_at r c))) (rows df)).

Section Main.

Variable python_float : string -> option pyfloat.
Variable format_date : cell -> option cell.
Variable today : string.

(** [pd.read_excel(path)]: the table stored at a path, or the exception
    the read raises. *)
Variable read_excel : string -> result DataFrame.

(** The sheets that are not modelled further: the summary counts with
    their percentages, the methodology text and the source list. *)
Variable create_summary_data : DataFrame -> result DataFrame.
Variable create_methodology_content : list string.
Variable create_sources_content : DataFrame.

(** [create_final_excel] followed by [workbook.save(path)]: either may
    raise. *)
Variable save_workbook : string -> Workbook -> result unit.

Definition load_data : io (DataFrame * DataFrame) :=
  match read_excel "data/processed/top_hiring_companies.xlsx" with
  | Returned companies_df =>
      match read_excel "data/processed/executives_contacts.xlsx" with
      | Returned executives_df => io_ret (companies_df, executives_df)
      | Raised (FileNotFoundError _) =>
          emit (Printed "Processed data files not found. Please run the previous scripts first.") ;;;
          lift (Raised (SystemExit 1))
      | Raised e => lift (Raised e)
      end
  | Raised (FileNotFoundError _) =>
      emit (Printed "Processed data files not found. Please run the previous scripts first.") ;;;
      lift (Raised (SystemExit 1))
  | Raised e => lift (Raised e)
  end.

Definition output_path : string := "data/final/ANZ_Insurance_Finance_Companies.xlsx".

(** The body of the [try] block of [main]. *)
Definition consolidate : io unit :=
  dfs <-- load_data ;;
  final_df <-- lift (prepare_final_dataset format_date today dfs.1 dfs.2) ;;
  summary_df <-- lift (create_summary_data final_df) ;;
  let methodology_content := create_methodology_content in
  let sources_df := create_sources_content in
  opportunities_df <-- lift (create_opportunities_content python_float final_df) ;;
  lift (save_workbook output_path
          (mkWorkbook final_df summary_df methodology_content sources_df
             opportunities_df)) ;;;
  emit (WorkbookSaved output_path) ;;;
  emit (Printed (newline ++ "Final deliverable created successfully!")) ;;;
  emit (Printed ("Saved to: " ++ output_path)) ;;;
  emit (Printed (newline ++ "Summary:")) ;;;
  total <-- lift (count_unique "Company Name" final_df) ;;
  emit (Printed ("Total companies included: " ++ pretty total)) ;;;
  (if has_column final_df "C-Level Email"
   then emit (Printed ("Companies with complete contact information: "
                       ++ pretty (count_present "C-Level Email" final_df)))
   else io_ret tt) ;;;
  emit (Printed (newline ++ "The Excel file contains the following sheets:")) ;;;
  emit (Printed "- Company Data: Main dataset with all companies and contacts") ;;;
  emit (Printed "- Summary Dashboard: Key statistics and metrics") ;;;
  emit (Printed "- Methodology: Detailed explanation of data collection process") ;;;
  emit (Printed "- Sources: List of all data sources used") ;;;
  emit (Printed "- Top 10 Opportunities: Highest potential companies for targeting").

(** [main]: the events of the run and how the script ends. An exception
    of the [try] block is handled by printing it with its stack trace;
    SystemExit passes through the handler. *)
Definition main : list event * ending :=
  match (emit (Printed "Starting data consolidation process...") ;;; consolidate) with
  | (trace, Returned _) => (trace, Finished)
  | (trace, Raised (SystemExit code)) => (trace, Exited code)
  | (trace, Raised e) =>
      (trace ++ [Printed ("Error in data consolidation: " ++ exn_str e);
                 TracebackPrinted e],
       Finished)
  end.

End Main.

End Consolidator.

(** *** data_consolidation.py: create_summary_data *)

Module Summary.
Import Pandas.

(** The exception of a division of whole numbers by zero. *)
Definition ZeroDivisionError : exn := OtherError "division by zero".

(** [len(final_df[mask]['Company Name'].unique())] *)
Definition count_companies (mask : row -> bool) (final_df : DataFrame) : nat :=
  length (remove_dups (map (fun r => cell_at r "Company Name")
                           (List.filter mask (rows final_df)))).

(** The [metrics] dict, in insertion order. *)
Definition metrics (final_df : DataFrame) : result (list (string * nat)) :=
  if has_column final_df "Company Name" then
    let count mask := count_companies mask final_df in
    Returned
      ([("Total Companies", count (fun _ => true))]
       ++ (if has_column final_df "Country" then
             [("Australian Companies",
               count (fun r => cell_is "Australia" (cell_at r "Country")));
              ("New Zealand Companies",
               count (fun r => cell_is "New Zealand" (cell_at r "Country")))]
           else [])
       ++ (if has_column final_df "Industry" then
             [("Insurance Companies",
               count (fun r => cell_is "Insurance" (cell_at r "Industry")));
              ("Finance Companies",
               count (fun r => cell_is "Finance" (cell_at r "Industry")));
              ("Companies with Both Classifications",
               count (fun r => cell_is "Both" (cell_at r "Industry")))]
           else [])
       ++ (if has_column final_df "Hiring DevOps"
              && has_column final_df "Hiring Software Developers" then
             [("Companies Hiring DevOps",
               count (fun r => cell_is "Yes" (cell_at r "Hiring DevOps")));
              ("Companies Hiring Software Developers",
               count (fun r => cell_is "Yes" (cell_at r "Hiring Software Developers")));
              ("Companies Hiring Both Roles",
               count (fun r => cell_is "Yes" (cell_at r "Hiring DevOps")
                               && cell_is "Yes" (cell_at r "Hiring Software Developers")))]
           else [])
       ++ (if has_column final_df "C-Level Contact Name" then
             [("C-Level Contacts Found",
               count (fun r => negb (isna (cell_at r "C-Level Contact Name"))))]
           else [])
       ++ (if has_column final_df "C-Level Email" then
             [("C-Level Emails Found",
               count (fun r => negb (isna (cell_at r "C-Level Email"))))]
           else [])
       ++ (if has_column final_df "C-Level Phone" then
             [("C-Level Phone Numbers Found",
               count (fun r => negb (isna (cell_at r "C-Level Phone"))))]
           else []))
  else Raised (KeyError "Company Name").

Section Percentages.

(** The text of [f"{v/total_companies*100:.1f}%"] for a count [v] and a
    total other than zero: a float division and its rounding to one
    decimal. *)
Variable format_percentage : nat -> nat -> string.

(** [metrics.get('Total Companies', 1)] and the dict comprehension over
    the items; the division raises when the total is zero. *)
Definition percentages (metrics : list (string * nat)) : result (list string) :=
  let total_companies :=
    default 1%nat
      (snd <$> List.find (fun kv => bool_decide (kv.1 = "Total Companies")) metrics) in
  rmap (fun kv : string * nat =>
          if bool_decide (total_companies = 0%nat) then Raised ZeroDivisionError
          else Returned (format_percentage kv.2 total_companies))
       metrics.

Definition summary_row (metric : string) (count : nat) (percentage : string) : row :=
  list_to_map [("Metric", Str metric); ("Count", Int (Z.of_nat count));
               ("Percentage", Str percentage)].

Definition create_summary_data (final_df : DataFrame) : result DataFrame :=
  metrics <- metrics final_df ;;
  percentages <- percentages metrics ;;
  Returned (mkDataFrame ["Metric"; "Count"; "Percentage"]
              (zip_with (fun kv pct => summary_row kv.1 kv.2 pct) metrics percentages)).

End Percentages.

End Summary.

(** *** contact_enrichment.py: the mock finders *)

Module MockFinder.
Import ContactFinder.

Definition first_names : list string :=
  ["James"; "John"; "Robert"; "Michael"; "William"; "David"; "Richard"; "Joseph";
   "Thomas"; "Charles"; "Mary"; "Patricia"; "Jennifer"; "Linda"; "Elizabeth";
   "Barbara"; "Susan"; "Jessica"; "Sarah"; "Karen"].

Definition last_names : list string :=
  ["Smith"; "Johnson"; "Williams"; "Brown"; "Jones"; "Miller"; "Davis"; "Garcia";
   "Rodriguez"; "Wilson"; "Martinez"; "Anderson"; "Taylor"; "Thomas"; "Hernandez";
   "Moore"; "Martin"; "Jackson"; "Thompson"; "White"].

Definition titles : list string :=
  ["Chief Technology Officer"; "CTO"; "Chief Information Officer"; "CIO";
   "Chief Digital Officer"; "CDO"; "VP of Engineering"; "VP of Technology";
   "Head of Technology"; "Head of Engineering"; "Director of IT";
   "Director of Technology"].

Section Random.

Variable world : Type.

(** The random number generator: [random_index n] is a draw below [n],
    as in the Contact Finder. *)
Variable random_index : nat -> world -> nat * world.

(** [random.choice(l)]: the item at a drawn position. *)
Definition choice {A} (default : A) (l : list A) (w : world) : A * world :=
  let (i, w) := random_index (length l) w in
  (nth (i mod length l) l default, w).

(** [random.randint(lo, hi)]: [lo] plus a draw below the width. *)
Definition randint (lo hi : Z) (w : world) : Z * world :=
  let width := Z.to_nat (hi - lo + 1) in
  let (i, w) := random_index width w in
  (lo + Z.of_nat (i mod width), w).

Definition generate_mock_executive (company_name : cell) (w : world)
  : executive * world :=
  let (first_name, w) := choice "" first_names w in
  let (last_name, w) := choice "" last_names w in
  let (title, w) := choice "" titles w in
  let (number, w) := randint 10000 99999 w in
  let linkedin_url :=
    "https://www.linkedin.com/in/" +:+ lower first_name +:+ "-" +:+ lower last_name
    +:+ "-" +:+ pretty number in
  ({| name := first_name +:+ " " +:+ last_name;
      title := title;
      linkedin_url := Some linkedin_url;
      source := "Mock Data" |}, w).

(** [for _ in range(n): executives.append(make())] *)
Fixpoint generate (n : nat) (make : world -> executive * world) (w : world)
  : list executive * world :=
  match n with
  | O => ([], w)
  | S n' =>
      let (e, w) := make w in
      let (es, w) := generate n' make w in
      (e :: es, w)
  end.

(** The profile finder and the website finder outside mock mode: web
    lookups. *)
Variable search_linkedin : cell -> cell -> world -> list executive * world.
Variable search_website : cell -> cell -> world -> list executive * world.

Definition find_linkedin_executives (company_name linkedin_url : cell)
    (use_mock : bool) (w : world) : list executive * world :=
  if use_mock then
    let (num_executives, w) := randint 1 3 w in
    generate (Z.to_nat num_executives) (generate_mock_executive company_name) w
  else search_linkedin company_name linkedin_url w.

Definition find_company_executives (company_name company_url : cell)
    (use_mock : bool) (w : world) : list executive * world :=
  if use_mock then
    let (found, w) := choice false [true; false] w in
    if found then
      let (num_executives, w) := randint 1 2 w in
      generate (Z.to_nat num_executives)
        (fun w => let (exec_data, w) := generate_mock_executive company_name w in
                  ({| name := name exec_data;
                      title := title exec_data;
                      linkedin_url := linkedin_url exec_data;
                      source := Collector.cell_str company_url +:+ "/about/leadership" |},
                   w))
        w
    else ([], w)
  else search_website company_name company_url w.

End Random.

End MockFinder.

(** *** hiring_verification.py: the mock checks of LinkedIn and Seek *)

Module MockChecker.
Import StatusChecker.

(** The AttributeError text of [v.replace(...)] on a cell that is no text. *)
Definition no_replace (v : cell) : string :=
  match v with
  | Int _ => "'int' object has no attribute 'replace'"
  | _ => "'float' object has no attribute 'replace'"
  end.

Section Random.

Variable world : Type.
Variable random_index : nat -> world -> nat * world.

(** [random.choice([True, False])] *)
Definition coin (w : world) : bool * world :=
  MockFinder.choice world random_index false [true; false] w.

(** The two checks outside mock mode: web lookups that catch their own
    errors. *)
Variable search_linkedin_jobs : cell -> cell -> world -> check_result * world.
Variable search_seek_jobs : cell -> cell -> world -> check_result * world.

Definition check_linkedin_jobs (company_name linkedin_url : cell) (use_mock : bool)
    (w : world) : check_result * world :=
  let result := mkCheck false false NaN in
  if use_mock then
    let (found_devops, w) := coin w in
    let (found_software_dev, w) := coin w in
    let result :=
      if found_devops
      then mkCheck true (has_software_dev result)
             (Str ("https://www.linkedin.com/jobs/search/?keywords="
                   +:+ Collector.cell_str company_name +:+ "%20DevOps"))
      else result in
    let result :=
      if found_software_dev
      then mkCheck (has_devops result) true
             (Str ("https://www.linkedin.com/jobs/search/?keywords="
                   +:+ Collector.cell_str company_name +:+ "%20Software%20Developer"))
      else result in
    (result, w)
  else search_linkedin_jobs company_name linkedin_url w.

(** In mock mode the name is used as a text outside any try block: a
    name that is no text raises AttributeError, after the two draws. *)
Definition check_seek_jobs (company_name country : cell) (use_mock : bool)
    (w : world) : result check_result * world :=
  let result := mkCheck false false NaN in
  if use_mock then
    let (found_devops, w) := coin w in
    let (found_software_dev, w) := coin w in
    let domain := if cell_is "Australia" country then "seek.com.au" else "seek.co.nz" in
    match company_name with
    | Str name =>
        let company_query := lower (replace_char " " "-" name) in
        let seek_url :=
          "https://www." +:+ domain +:+ "/jobs?keywords=" +:+ company_query in
        let result :=
          if found_devops
          then mkCheck true (has_software_dev result) (Str seek_url)
          else result in
        let result :=
          if found_software_dev
          then mkCheck (has_devops result) true (Str seek_url)
          else result in
        (Returned result, w)
    | v => (Raised (OtherError (no_replace v)), w)
    end
  else
    let (result, w) := search_seek_jobs company_name country w in
    (Returned result, w).

End Random.

End MockChecker.

(** ** Notions used to state the properties *)

(** [x] comes before [y] in descending stable order: a greater key [z], or
    the same key and an earlier position [pos]. *)
Definition beats {A : Type} (z : A -> Z) (pos : A -> nat) (x y : A) : Prop :=
  z y < z x \/ (z x = z y /\ (pos x < pos y)%nat).

(** The items of a list paired with their positions, counted from [n]. *)
Fixpoint enumerate_from {A : Type} (n : nat) (l : list A) : list (nat * A) :=
  match l with
  | [] => []
  | x :: l' => (n, x) :: enumerate_from (S n) l'
  end.

(** The row of the Top 10 sheet before its columns are selected: the
    report row with its score and its note. *)
Definition annotate (python_float : string -> option Consolidator.pyfloat)
    (r : row) : row :=
  let scored := <["Opportunity Score" :=
                   Int (Consolidator.score_opportunity python_float r)]> r in
  <["Opportunity Notes" :=
     Str (Consolidator.create_opportunity_note python_float scored)]> scored.

Definition company_name_of (r : row) : cell := Pandas.cell_at r "Company Name".

(** The address part of what [derive_email] gives. *)
Definition derived_address {W : Type}
    (outcome : result (option string * string) * W) : result (option string) :=
  match outcome.1 with
  | Returned derived => Returned derived.1
  | Raised e => Raised e
  end.

Definition company_id_of (r : row) : cell := Pandas.cell_at r "company_id".
Definition raw_name_of (r : row) : cell := Pandas.cell_at r "company_name".

(** The table a script step returns, if it returns. *)
Definition returned {A : Type} (m : io A) : option A :=
  match m.2 with
  | Returned a => Some a
  | Raised _ => None
  end.

(** The positions, counted from [start], of the names that did not occur
    earlier in the list (nor in [seen]). *)
Fixpoint first_occurrences (seen : list cell) (start : nat) (names : list cell)
  : list nat :=
  match names with
  | [] => []
  | n :: names' =>
      if bool_decide (n ∈ seen) then first_occurrences seen (S start) names'
      else start :: first_occurrences (n :: seen) (S start) names'
  end.

Definition int_cell (i : nat) : cell := Int (Z.of_nat i).

(** The Collector's table right after the ids and the default values
    are set, before duplicates are dropped. *)
Definition numbered (today : string) (companies : list (list (string * cell)))
  : DataFrame :=
  let collected_df := Collector.frame_of_dicts companies in
  let collected_df :=
    Pandas.assign "company_id" (Collector.id_range (length (rows collected_df)))
      collected_df in
  let collected_df := Pandas.assign_all "actively_hiring" (Str "Unknown") collected_df in
  let collected_df := Pandas.assign_all "hiring_devops" (Str "Unknown") collected_df in
  let collected_df := Pandas.assign_all "hiring_developers" (Str "Unknown") collected_df in
  Pandas.assign_all "last_verified" (Str today) collected_df.

(** The company ids of the table the Collector returns. *)
Definition collected_ids (today : string) (companies : list (list (string * cell)))
  : option (list cell) :=
  (fun df => map company_id_of (rows df)) <$> returned (Collector.collect today companies).

(** An event that writes a text file, such as an error log. *)
Definition is_file_write (ev : event) : bool :=
  match ev with
  | FileWritten _ _ _ => true
  | _ => false
  end.


(** A companies table with one company and a contacts table that lacks the
    company id column, so that the join raises KeyError. *)
Definition one_company : DataFrame :=
  mkDataFrame
    ["company_id"; "company_name"; "industry"; "country"; "company_size";
     "annual_revenue"; "company_website"; "linkedin_url"; "actively_hiring";
     "hiring_devops"; "hiring_developers"; "data_source"; "last_verified"]
    [list_to_map
       [("company_id", Int 6); ("company_name", Str "Suncorp Group");
        ("industry", Str "Both"); ("country", Str "Australia");
        ("company_size", NaN); ("annual_revenue", NaN);
        ("company_website", Str "suncorp.com.au");
        ("linkedin_url", Str "https://www.linkedin.com/company/suncorp-group");
        ("actively_hiring", Str "Yes"); ("hiring_devops", Str "Yes");
        ("hiring_developers", Str "No"); ("data_source", Str "ASX");
        ("last_verified", Str "2025-01-01")]].

Definition contacts_without_id : DataFrame :=
  mkDataFrame
    ["executive_name"; "executive_title"; "linkedin_url"; "email"; "phone";
     "source"; "verification_status"]
    [].

(** A file system that holds the two tables above. *)
Definition read_broken_contacts (path : string) : result DataFrame :=
  if bool_decide (path = "data/processed/top_hiring_companies.xlsx")
  then Returned one_company
  else if bool_decide (path = "data/processed/executives_contacts.xlsx")
  then Returned contacts_without_id
  else Raised (FileNotFoundError path).

(** A report row with the columns the opportunity score reads. *)
Definition lead (company : string) (devops developers : string)
    (contact email phone : cell) : row :=
  list_to_map
    [("Company Name", Str company); ("Industry", Str "Finance");
     ("Country", Str "Australia"); ("Company Size", NaN);
     ("Hiring DevOps", Str devops); ("Hiring Software Developers", Str developers);
     ("C-Level Contact Name", contact); ("C-Level Title", NaN);
     ("C-Level Email", email); ("C-Level Phone", phone)].

(** Fifteen leads with pairwise distinct names and several tied scores. *)
Definition fifteen_leads : DataFrame :=
  mkDataFrame
    ["Company Name"; "Industry"; "Country"; "Company Size"; "Hiring DevOps";
     "Hiring Software Developers"; "C-Level Contact Name"; "C-Level Title";
     "C-Level Email"; "C-Level Phone"]
    [lead "Judo Bank" "Yes" "No" NaN NaN NaN;
     lead "Tyro Payments" "Yes" "Yes" (Str "Mary Smith") (Str "mary.smith@tyro.com") NaN;
     lead "Xinja Bank" "No" "No" NaN NaN NaN;
     lead "Volt Bank" "Yes" "Yes" NaN NaN NaN;
     lead "Heritage Bank" "No" "Yes" (Str "John Brown") NaN NaN;
     lead "Greater Bank" "Yes" "Yes" (Str "Linda Jones") (Str "ljones@greater.com.au")
          (Str "+61 2 1234 5678");
     lead "IMB Bank" "No" "No" NaN NaN NaN;
     lead "Kiwibank" "Yes" "Yes" NaN NaN NaN;
     lead "TSB Bank" "Yes" "No" NaN NaN NaN;
     lead "SBS Bank" "No" "Yes" NaN NaN NaN;
     lead "ASB Bank" "Yes" "Yes" (Str "Karen White") (Str "karen.white@asb.co.nz") NaN;
     lead "HCF" "No" "No" NaN NaN NaN;
     lead "Youi Insurance" "Yes" "No" (Str "David Moore") NaN NaN;
     lead "Budget Direct" "No" "No" (Str "Susan Davis") NaN NaN;
     lead "Partners Life" "Yes" "Yes" NaN NaN NaN].

(** On text without numbers no float conversion takes place; this stand-in
    for Python's [float] rejects every text. *)
Definition no_float : string -> option Consolidator.pyfloat := fun _ => None.

(** A company as the Status Checker reads it, with both flags open. *)
Definition unchecked_company : row :=
  list_to_map
    [("company_id", Int 6); ("company_name", Str "Suncorp Group");
     ("country", Str "Australia"); ("company_website", Str "suncorp.com.au");
     ("linkedin_url", Str "https://www.linkedin.com/company/suncorp-group");
     ("actively_hiring", Str "Unknown"); ("hiring_devops", Str "Unknown");
     ("hiring_developers", Str "Unknown");
     ("devops_source", NaN); ("software_dev_source", NaN)].

(** A source that reports a DevOps opening and one that reports nothing. *)
Definition reports_devops (_ _ : cell) (_ : bool) (w : unit)
  : StatusChecker.check_result * unit :=
  (StatusChecker.mkCheck true false (Str "suncorp.com.au/careers"), w).

Definition reports_nothing (_ _ : cell) (_ : bool) (w : unit)
  : StatusChecker.check_result * unit :=
  (StatusChecker.mkCheck false false NaN, w).

(** A contacts table whose only contact belongs to another company. *)
Definition other_contacts : DataFrame :=
  mkDataFrame ContactFinder.executive_columns
    [list_to_map
       [("company_id", Int 7); ("executive_name", Str "Mary Smith");
        ("executive_title", Str "CTO"); ("linkedin_url", NaN);
        ("email", Str "mary.smith@boq.com.au"); ("phone", NaN);
        ("source", Str "Mock Data"); ("verification_status", Str "Not Verified")]].

(** Finders that find nobody, and a profile finder whose only find has no
    readable name. *)
Definition finds_nobody (_ _ : cell) (_ : bool) (w : unit)
  : list ContactFinder.executive * unit := ([], w).

Definition finds_unknown (_ _ : cell) (_ : bool) (w : unit)
  : list ContactFinder.executive * unit :=
  ([ContactFinder.mkExecutive "Unknown" "Technology Executive"
      (Some "https://au.linkedin.com/in/x") "LinkedIn via Google"], w).

(** A table of three checked companies, two of which qualify. *)
Definition three_checked : DataFrame :=
  mkDataFrame ["company_id"; "actively_hiring"; "hiring_devops"; "hiring_developers"]
    [list_to_map [("company_id", Int 1); ("actively_hiring", Str "Yes");
                  ("hiring_devops", Str "Yes"); ("hiring_developers", Str "No")];
     list_to_map [("company_id", Int 2); ("actively_hiring", Str "No");
                  ("hiring_devops", Str "No"); ("hiring_developers", Str "No")];
     list_to_map [("company_id", Int 3); ("actively_hiring", Str "Yes");
                  ("hiring_devops", Str "No"); ("hiring_developers", Str "Yes")]].

(** A report row of a company with a complete contact: every field the
    quality score looks at is filled. *)
Definition complete_row : row :=
  list_to_map
    [("company_id", Int 6); ("company_name", Str "Suncorp Group");
     ("clean_company_name", Str "Suncorp"); ("industry", Str "Both");
     ("country", Str "Australia"); ("company_size", NaN); ("annual_revenue", NaN);
     ("company_website", Str "suncorp.com.au");
     ("linkedin_url_x", Str "https://www.linkedin.com/company/suncorp-group");
     ("hiring_devops", Str "Yes"); ("hiring_developers", Str "Yes");
     ("executive_name", Str "Sarah Wilson"); ("executive_title", Str "CTO");
     ("linkedin_url_y", Str "https://www.linkedin.com/in/sarah-wilson-48213");
     ("email", Str "sarah.wilson@suncorp.com.au"); ("phone", Str "+61 7 1234 5678")].

(** A row of a company without any contact. *)
Definition bare_row : row :=
  list_to_map
    [("company_name", Str "Judo Bank"); ("industry", Str "Finance");
     ("country", Str "Australia"); ("company_website", Str "judo.bank");
     ("linkedin_url_x", Str "https://www.linkedin.com/company/judo-bank");
     ("executive_name", NaN); ("executive_title", NaN);
     ("linkedin_url_y", NaN); ("email", NaN); ("phone", NaN)].

(** The number of glyphs of a text made of the two stars only. *)
Fixpoint star_count (s : string) : option nat :=
  match s with
  | EmptyString => Some O
  | String a (String b (String c s')) =>
      if bool_decide (String a (String b (String c "")) = Consolidator.filled_star)
         || bool_decide (String a (String b (String c "")) = Consolidator.empty_star)
      then S <$> star_count s' else None
  | _ => None
  end.

(** The report row of the worked example: Suncorp Group, hiring for both
    roles, with a contact that has an email and a phone number. *)
Definition suncorp_row : row :=
  list_to_map
    [("Company Name", Str "Suncorp"); ("Industry", NaN); ("Country", NaN);
     ("Company Size", NaN); ("Annual Revenue (AUD)", NaN);
     ("Company Website", NaN); ("Company LinkedIn", NaN);
     ("Hiring DevOps", Str "Yes"); ("Hiring Software Developers", Str "Yes");
     ("C-Level Contact Name", NaN); ("C-Level Title", NaN);
     ("C-Level LinkedIn", NaN);
     ("C-Level Email", Str "jane.doe@suncorp.com.au");
     ("C-Level Phone", Str "+61 7 1234 5678");
     ("Data Quality", Str "★★★☆☆"); ("Last Verified", Str "2025-01-01")].

(** Both hiring flags are "Yes" and the contact has an email and a phone. *)
Definition hiring_both_with_contact (r : row) : Prop :=
  r !! "Hiring DevOps" = Some (Str "Yes") /\
  r !! "Hiring Software Developers" = Some (Str "Yes") /\
  Consolidator.present r "C-Level Email" = true /\
  Consolidator.present r "C-Level Phone" = true.

Definition both_roles_fragment : string :=
  "Actively hiring for both DevOps and Software Developer roles".
Definition complete_contact_fragment : string :=
  "Complete C-level contact information available".

(** The score written into an annotated row. *)
Definition score_of_annotated (r : row) : Z :=
  match Pandas.cell_at r "Opportunity Score" with Int z => z | _ => 0 end.

(** The two role flags. *)
Definition role_flag (c : string) : Prop :=
  c = "hiring_devops" \/ c = "hiring_developers".

(** The email check and the phone lookup of a quiet world. *)
Definition always_verified (_ : string) (_ : bool) (w : unit) : bool * unit := (true, w).
Definition no_phone (_ : string) (_ : cell) (_ : bool) (w : unit)
  : option string * unit := (None, w).
Definition first_choice (_ : nat) (w : unit) : nat * unit := (O, w).

(** The rows that pass the filter. *)
Definition hiring_rows (df : DataFrame) : list row :=
  List.filter ContactFinder.qualifies (rows df).

(** A block of the Status Checker's loop body keeps a role flag that is
    "Yes". *)
Definition keeps_yes {world : Type} (s : StatusChecker.stage world) : Prop :=
  forall c r w, role_flag c ->
    StatusChecker.is_yes c r = true -> StatusChecker.is_yes c (s r w).1 = true.

(** What numpy promises of [argsort], on keys that are whole numbers: the
    positions it returns list every position once, and the keys taken in
    their order ascend. *)
Definition ascending_argsort (argsort : list cell -> list nat) : Prop :=
  forall zs : list Z,
    argsort (map Int zs) ≡ₚ seq 0 (length zs) /\
    StronglySorted Z.le (Pandas.take zs (argsort (map Int zs))).

(** A routine that keeps the promise and leaves equal keys in the reverse
    of their order: a stable sort of the keys read from the last to the
    first. *)
Definition backward_argsort (keys : list cell) : list nat :=
  map fst (Pandas.sort_asc Pandas.cell_leb snd
             (rev (zip (seq 0 (length keys)) keys))).

(** The place of a company in a table: the number of rows before the
    first row with its name. *)
Fixpoint index_of (name : cell) (names : list cell) : nat :=
  match names with
  | [] => O
  | n :: names' => if bool_decide (n = name) then O else S (index_of name names')
  end.

Definition place_of (df : DataFrame) (name : cell) : nat :=
  index_of name (map company_name_of (rows df)).

(** Scores with places, listed by descending score and, among equal
    scores, by ascending place. *)
Fixpoint ties_in_input_order (l : list (Z * nat)) : bool :=
  match l with
  | a :: (b :: _) as l' =>
      ((b.1 <? a.1)%Z || ((a.1 =? b.1)%Z && (a.2 <? b.2)%nat))
      && ties_in_input_order l'
  | _ => true
  end.

(** [x] comes before [y] in ascending order on a reversed input: a smaller
    key, or the same key and a later position. *)
Definition asc_before {A : Type} (z : A -> Z) (pos : A -> nat) (x y : A) : Prop :=
  z x < z y \/ (z x = z y /\ (pos y < pos x)%nat).


(** ** Notions used to state further properties *)

(** The column that records where a role flag was seen. *)
Definition source_column (c : string) : string :=
  if bool_decide (c = "hiring_devops") then "devops_source" else "software_dev_source".

(** A careers page that reports both roles. *)
Definition reports_both (_ _ : cell) (_ : bool) (w : unit)
  : StatusChecker.check_result * unit :=
  (StatusChecker.mkCheck true true (Str "suncorp.com.au/careers"), w).


(** A block of the Status Checker's loop body leaves the recorded source of
    a role flag that is "Yes" as it is. *)
Definition keeps_source {world : Type} (s : StatusChecker.stage world) : Prop :=
  forall c r w, role_flag c ->
    StatusChecker.is_yes c r = true ->
    Pandas.cell_at (s r w).1 (source_column c) = Pandas.cell_at r (source_column c).


(** What a contact row of the company [r] looks like: it has exactly the
    eight columns of the contact table and carries the company's id; the
    name is not "Unknown" and has two words or more; the email is absent or
    an address at the domain of the company's website; the verification
    label is one of the two the source writes, the positive one only next
    to an email. *)
Definition contact_of_company (r c : row) : Prop :=
  dom c = list_to_set ContactFinder.executive_columns /\
  c !! "company_id" = Some (Pandas.cell_at r "company_id") /\
  (exists n, c !! "executive_name" = Some (Str n) /\ n <> "Unknown" /\
             (2 <= length (split_ws n))%nat) /\
  (c !! "email" = Some NaN \/
   exists local domain,
     ContactFinder.extract_domain_from_url (Pandas.cell_at r "company_website")
     = Some domain /\
     c !! "email" = Some (Str (local +:+ "@" +:+ domain))) /\
  (c !! "verification_status" = Some (Str "Not Verified") \/
   c !! "verification_status" = Some (Str "Domain MX Verified") /\
   c !! "email" <> Some NaN).

(** A table with one company, the columns the Contact Finder reads. *)
Definition one_hiring_company : DataFrame :=
  mkDataFrame
    ["company_id"; "company_name"; "country"; "company_website"; "linkedin_url";
     "actively_hiring"; "hiring_devops"; "hiring_developers"; "devops_source";
     "software_dev_source"]
    [unchecked_company].

(** A profile finder that finds a chief technology officer. *)
Definition finds_cto (_ _ : cell) (_ : bool) (w : unit)
  : list ContactFinder.executive * unit :=
  ([ContactFinder.mkExecutive "Sarah Wilson" "CTO"
      (Some "https://www.linkedin.com/in/sarah-wilson-48213") "LinkedIn (Mock Data)"],
   w).


(** The columns the loop of [enrich_contacts] reads from a company row. *)
Definition columns_read_by_enrich_contacts : list string :=
  ["company_id"; "company_name"; "company_website"; "linkedin_url"].


(** The columns [calculate_quality] looks up in a joined row. *)
Definition quality_columns : list string :=
  ["company_name"; "industry"; "country"; "company_website"; "linkedin_url_x";
   "executive_name"; "executive_title"; "linkedin_url_y"; "email"; "phone"].

(** A text without white space. *)
Fixpoint no_space (s : string) : bool :=
  match s with
  | EmptyString => true
  | String a s' => negb (is_space a) && no_space s'
  end.

(** A text of ASCII characters only: every byte below 128. On such a
    text the bytes are the characters, and [is_space] is the white space
    of [str.strip] and of the regex class [\s]. *)
Fixpoint ascii_only (s : string) : bool :=
  match s with
  | EmptyString => true
  | String a s' => (nat_of_ascii a <? 128)%nat && ascii_only s'
  end.

(** Endings the cleaning of company names is meant for, in several
    spellings. *)
Definition legal_endings : list string :=
  ["Ltd"; "Ltd."; "LTD"; "Limited"; "limited"; "Pty"; "Pty."; "Corp"; "Corp.";
   "Corporation"; "Inc"; "Inc."; "LLC"; "Group"; "Holdings"; "(ASX: SUN)";
   "Pty Ltd"; "Pty. Ltd."; "Group Ltd"; "Holdings Limited"].

(** A cell that holds a text. *)
Definition is_text (v : cell) : bool :=
  match v with Str _ => true | _ => false end.


(** A companies table without any company. *)
Definition no_companies : DataFrame :=
  mkDataFrame (columns one_company) [].

(** A file system that holds the empty companies table and a contacts
    table. *)
Definition read_no_companies (path : string) : result DataFrame :=
  if bool_decide (path = "data/processed/top_hiring_companies.xlsx")
  then Returned no_companies
  else if bool_decide (path = "data/processed/executives_contacts.xlsx")
  then Returned other_contacts
  else Raised (FileNotFoundError path).

(** A file system without the processed tables. *)
Definition read_nothing (path : string) : result DataFrame :=
  Raised (FileNotFoundError path).

(** A stand-in for the percentage text. *)
Definition percentage_of (v total : nat) : string :=
  pretty v +:+ "/" +:+ pretty total.


(** What a run of the Consolidator may do: print, print a stack trace,
    save the workbook at its fixed path. *)
Definition report_event (ev : event) : bool :=
  match ev with
  | Printed _ | TracebackPrinted _ => true
  | WorkbookSaved path => bool_decide (path = Consolidator.output_path)
  | FileWritten _ _ _ | TableSaved _ => false
  end.


(** The row of the Collector's table after both address columns are
    filled in. *)
Definition with_addresses (r : row) : row :=
  (Collector.enrich_linkedin_row (Collector.enrich_website_row r).1).1.


(** A list of company dicts none of which has a name. *)
Definition nameless_companies : list (list (string * cell)) :=
  [[("industry", Str "Finance"); ("country", Str "Australia")]].

(** Two company dicts, the second without a website. *)
Definition two_companies : list (list (string * cell)) :=
  [Collector.company "Suncorp Group" "Both" "Australia" "ASX" "suncorp.com.au";
   [("company_name", Str "Judo Bank"); ("industry", Str "Finance");
    ("country", Str "Australia"); ("data_source", Str "Sample Data")]].


(** A candidate as the mock finders make them: a first and a last name
    of the lists with a blank between, a title of the list, a profile
    address. *)
Definition mock_candidate (e : ContactFinder.executive) : Prop :=
  exists first_name last_name,
    first_name ∈ MockFinder.first_names /\ last_name ∈ MockFinder.last_names /\
    ContactFinder.name e = first_name +:+ " " +:+ last_name /\
    ContactFinder.title e ∈ MockFinder.titles /\
    exists number,
      10000 <= number <= 99999 /\
      ContactFinder.linkedin_url e
      = Some ("https://www.linkedin.com/in/" +:+ lower first_name +:+ "-"
              +:+ lower last_name +:+ "-" +:+ pretty number).

(** A random number generator that always draws the same number. *)
Definition always_draws (i : nat) (_ : nat) (w : unit) : nat * unit := (i, w).

(** Web lookups that find nobody. *)
Definition search_finds_nobody (_ _ : cell) (w : unit)
  : list ContactFinder.executive * unit := ([], w).



(** * Properties *)

(** ** The stable sort and the deduplication of the pandas model *)

Module SortFacts.
Import Pandas.

Lemma rbind_returned {A B} (m : result A) (k : A -> result B) b :
  rbind m k = Returned b -> exists a, m = Returned a /\ k a = Returned b.
Proof. destruct m; simpl; [eauto | discriminate]. Qed.

Section Generic.
Context {A K : Type} (leb : K -> K -> bool) (key : A -> K).

Lemma insert_asc_perm x l : insert_asc leb key x l ≡ₚ x :: l.
Proof.
  induction l as [|y l IH]; simpl; [reflexivity|].
  destruct (leb (key x) (key y)); [reflexivity|].
  rewrite IH. apply perm_swap.
Qed.

Lemma sort_asc_perm l : sort_asc leb key l ≡ₚ l.
Proof.
  induction l as [|x l IH]; simpl; [reflexivity|].
  rewrite insert_asc_perm. now rewrite IH.
Qed.

Lemma sort_desc_perm l : sort_desc leb key l ≡ₚ l.
Proof.
  unfold sort_desc. rewrite <- Permutation_rev, sort_asc_perm.
  symmetry. apply Permutation_rev.
Qed.

Lemma sort_asc_ext_key (key' : A -> K) l :
  (forall x, key x = key' x) -> sort_asc leb key l = sort_asc leb key' l.
Proof.
  intros Hk. induction l as [|x l IH]; simpl; [reflexivity|].
  rewrite IH. generalize (sort_asc leb key' l). intros m.
  induction m as [|y m IHm]; simpl; [reflexivity|].
  rewrite !Hk, IHm. reflexivity.
Qed.
End Generic.

(** Sorting commutes with a map that respects the sort key. *)
Lemma sort_asc_map {A B K} (leb : K -> K -> bool) (key : A -> K) (f : B -> A) l :
  sort_asc leb key (map f l) = map f (sort_asc leb (fun b => key (f b)) l).
Proof.
  induction l as [|x l IH]; simpl; [reflexivity|].
  rewrite IH. generalize (sort_asc leb (fun b => key (f b)) l). intros m.
  induction m as [|y m IHm]; simpl; [reflexivity|].
  destruct (leb (key (f x)) (key (f y))); simpl; [reflexivity|].
  now rewrite IHm.
Qed.

Lemma sort_desc_map {A B K} (leb : K -> K -> bool) (key : A -> K) (f : B -> A) l :
  sort_desc leb key (map f l) = map f (sort_desc leb (fun b => key (f b)) l).
Proof. unfold sort_desc. now rewrite <- map_rev, sort_asc_map, map_rev. Qed.

Lemma StronglySorted_rev {A} (R : A -> A -> Prop) l :
  StronglySorted R l -> StronglySorted (fun x y => R y x) (rev l).
Proof.
  induction 1 as [|x l Hl IH Hx]; simpl; [constructor|].
  apply StronglySorted_app_2; [|exact IH|repeat constructor].
  intros a b Ha Hb. apply list_elem_of_singleton in Hb as ->.
  rewrite list_elem_of_In in Ha. apply in_rev in Ha.
  rewrite List.Forall_forall in Hx. now apply Hx.
Qed.

Lemma StronglySorted_weaken {A} (R S : A -> A -> Prop) l :
  (forall x y, R x y -> S x y) -> StronglySorted R l -> StronglySorted S l.
Proof.
  intros HRS. induction 1 as [|x l Hl IH Hx]; constructor; [exact IH|].
  eapply Forall_impl; [exact Hx|]. auto.
Qed.

(** Items carry a whole-number key [z] and the position [pos] they had in
    the input; [leb] on the sort keys agrees with the order of [z]. *)
Section Stable.
Context {A K : Type} (leb : K -> K -> bool) (key : A -> K).
Context (z : A -> Z) (pos : A -> nat).
Hypothesis leb_spec : forall x y, leb (key x) (key y) = (z x <=? z y)%Z.

Lemma insert_asc_sorted x l :
  StronglySorted (asc_before z pos) l ->
  Forall (fun y => (pos y < pos x)%nat) l ->
  StronglySorted (asc_before z pos) (insert_asc leb key x l).
Proof.
  induction 1 as [|y l Hl IH Hy]; intros Hpos; simpl.
  - repeat constructor.
  - apply Forall_cons in Hpos as [Hyx Hpos].
    rewrite leb_spec. destruct (Z.leb_spec (z x) (z y)) as [Hle|Hgt].
    + constructor; [now constructor|].
      assert (Hxy : (asc_before z pos) x y) by (unfold asc_before; lia).
      constructor; [exact Hxy|].
      rewrite Forall_forall in Hy, Hpos |- *. intros w Hw.
      specialize (Hy w Hw). specialize (Hpos w Hw).
      unfold asc_before in *. lia.
    + constructor; [now apply IH|].
      rewrite insert_asc_perm. constructor; [|exact Hy].
      unfold asc_before. lia.
Qed.

Lemma sort_asc_sorted l :
  StronglySorted (fun x y => (pos y < pos x)%nat) l ->
  StronglySorted (asc_before z pos) (sort_asc leb key l).
Proof.
  induction 1 as [|x l Hl IH Hx]; simpl; [constructor|].
  apply insert_asc_sorted; [exact IH|].
  now rewrite sort_asc_perm.
Qed.

(** On an input listed by increasing position the descending sort puts
    greater keys first and leaves equal keys in their input order. *)
Lemma sort_desc_sorted l :
  StronglySorted (fun x y => (pos x < pos y)%nat) l ->
  StronglySorted (beats z pos) (sort_desc leb key l).
Proof.
  intros Hl. unfold sort_desc.
  apply StronglySorted_rev in Hl. apply sort_asc_sorted in Hl.
  apply StronglySorted_rev in Hl.
  eapply StronglySorted_weaken; [|exact Hl].
  unfold asc_before, beats. intros x y. lia.
Qed.
End Stable.

(** *** Sorting through an indexer *)

Lemma take_map {A B} (f : A -> B) (l : list A) idx :
  take (map f l) idx = map f (take l idx).
Proof.
  unfold take. induction idx as [|i idx IH]; [reflexivity|].
  cbn [omap list_omap]. change (map f l !! i) with ((f <$> l) !! i).
  rewrite list_lookup_fmap.
  destruct (l !! i); cbn [fmap option_fmap option_map map]; [f_equal|]; exact IH.
Qed.

Lemma take_seq_app {A} (l1 l2 : list A) :
  take (l1 ++ l2) (seq (length l1) (length l2)) = l2.
Proof.
  revert l1. induction l2 as [|x l2 IH]; intros l1; [reflexivity|].
  cbn [length seq]. unfold take. cbn [omap list_omap].
  rewrite list_lookup_middle by reflexivity. f_equal.
  specialize (IH (l1 ++ [x])). rewrite <- app_assoc in IH. cbn [app] in IH.
  rewrite length_app in IH. cbn [length] in IH.
  rewrite Nat.add_1_r in IH. exact IH.
Qed.

Lemma take_seq {A} (l : list A) : take l (seq 0 (length l)) = l.
Proof. exact (take_seq_app [] l). Qed.

(** An indexer that lists every position once takes every item once. *)
Lemma take_perm {A} (l : list A) idx :
  idx ≡ₚ seq 0 (length l) -> take l idx ≡ₚ l.
Proof.
  intros H. rewrite <- (take_seq l) at 2. unfold take. now rewrite H.
Qed.

Lemma take_pairs {A} (l : list A) (ps : list (nat * A)) :
  Forall (fun p => l !! p.1 = Some p.2) ps -> take l (map fst ps) = map snd ps.
Proof.
  unfold take. induction 1 as [|p ps Hp _ IH]; [reflexivity|].
  cbn [map omap list_omap]. rewrite Hp. now f_equal.
Qed.

Lemma zip_seq_lookup {A} n (l : list A) :
  Forall (fun p => (n <= p.1)%nat /\ l !! (p.1 - n)%nat = Some p.2)
    (zip (seq n (length l)) l).
Proof.
  revert n. induction l as [|x l IH]; intros n; [constructor|].
  cbn [length seq zip zip_with]. constructor.
  - cbn [fst snd]. rewrite Nat.sub_diag. split; [lia | reflexivity].
  - eapply Forall_impl; [apply IH|]. intros [i y] [Hle Hl]. cbn [fst snd] in *.
    split; [lia|]. replace (i - n)%nat with (S (i - S n)) by lia. exact Hl.
Qed.

Lemma zip_seq_map {A B} (f : A -> B) n (l : list A) :
  zip (seq n (length (map f l))) (map f l)
  = map (fun p => (p.1, f p.2)) (zip (seq n (length l)) l).
Proof.
  revert n. induction l as [|x l IH]; intros n; [reflexivity|].
  cbn [map length seq zip zip_with fst snd]. f_equal. apply IH.
Qed.

Lemma zip_seq_fst {A} n (l : list A) : map fst (zip (seq n (length l)) l) = seq n (length l).
Proof.
  revert n. induction l as [|x l IH]; intros n; [reflexivity|].
  cbn [map length seq zip zip_with fst]. f_equal. apply IH.
Qed.

Lemma zip_seq_snd {A} n (l : list A) : map snd (zip (seq n (length l)) l) = l.
Proof.
  revert n. induction l as [|x l IH]; intros n; [reflexivity|].
  cbn [map length seq zip zip_with snd]. f_equal. apply IH.
Qed.

(** The positions a stable sort of numbered keys gives take the items
    in the order of the stable sort. *)
Lemma take_sorted_pairs {A} (key : A -> cell) (l : list A) (pl : list (nat * A)) :
  Forall (fun p => l !! p.1 = Some p.2) pl ->
  take l (map fst (sort_asc cell_leb snd (map (fun p => (p.1, key p.2)) pl)))
  = sort_asc cell_leb key (map snd pl).
Proof.
  intros Hpl.
  rewrite (sort_asc_map cell_leb snd (fun p : nat * A => (p.1, key p.2)) pl).
  rewrite map_map. cbn [fst snd].
  rewrite (sort_asc_map cell_leb key snd pl).
  apply take_pairs. now rewrite sort_asc_perm.
Qed.

Lemma zip_seq_pairs {A} (l : list A) :
  Forall (fun p => l !! p.1 = Some p.2) (zip (seq 0 (length l)) l).
Proof.
  eapply Forall_impl; [apply (zip_seq_lookup 0 l)|].
  intros [i x] [_ Hx]. cbn [fst snd] in *. now rewrite Nat.sub_0_r in Hx.
Qed.

(** Through the indexer of the insertion sort the items come out in
    stable ascending order. *)
Lemma take_insertion_argsort {A} (key : A -> cell) (l : list A) :
  take l (insertion_argsort (map key l)) = sort_asc cell_leb key l.
Proof.
  unfold insertion_argsort. rewrite zip_seq_map.
  rewrite take_sorted_pairs by apply zip_seq_pairs.
  now rewrite zip_seq_snd.
Qed.

(** Through the indexer of the backward sort they come out as the stable
    sort leaves the reversed list. *)
Lemma take_backward_argsort {A} (key : A -> cell) (l : list A) :
  take l (backward_argsort (map key l)) = sort_asc cell_leb key (rev l).
Proof.
  unfold backward_argsort. rewrite zip_seq_map, <- map_rev.
  rewrite take_sorted_pairs.
  - now rewrite map_rev, zip_seq_snd.
  - apply Forall_rev, zip_seq_pairs.
Qed.

Lemma sort_desc_by_insertion {A} (key : A -> cell) (l : list A) :
  sort_desc_by insertion_argsort key l = sort_desc cell_leb key l.
Proof. unfold sort_desc_by, sort_desc. now rewrite take_insertion_argsort. Qed.

Lemma sort_desc_by_backward {A} (key : A -> cell) (l : list A) :
  sort_desc_by backward_argsort key l = rev (sort_asc cell_leb key l).
Proof.
  unfold sort_desc_by. now rewrite take_backward_argsort, rev_involutive.
Qed.

(** Sorting commutes with a map, since the routine sees the keys only. *)
Lemma sort_desc_by_map {A B} argsort (key : A -> cell) (f : B -> A) l :
  sort_desc_by argsort key (map f l)
  = map f (sort_desc_by argsort (fun b => key (f b)) l).
Proof.
  unfold sort_desc_by. rewrite <- (map_rev f l), map_map, take_map.
  symmetry. apply map_rev.
Qed.

Lemma StronglySorted_of_map {A B} (R : B -> B -> Prop) (f : A -> B) l :
  StronglySorted R (map f l) -> StronglySorted (fun x y => R (f x) (f y)) l.
Proof.
  induction l as [|x l IH]; intros H; [constructor|].
  cbn [map] in H. apply StronglySorted_inv in H as [Hl Hx].
  constructor; [now apply IH|].
  rewrite List.Forall_forall in Hx |- *. intros y Hy. apply Hx. now apply in_map.
Qed.

(** An insertion sort of whole numbers gives them in ascending order. *)
Lemma insert_asc_whole_numbers (x : Z) l :
  StronglySorted Z.le l -> StronglySorted Z.le (insert_asc cell_leb Int x l).
Proof.
  induction 1 as [|y l Hl IH Hy]; cbn [insert_asc]; [repeat constructor|].
  cbn [cell_leb]. destruct (Z.leb_spec x y) as [Hle|Hgt].
  - constructor; [now constructor|]. constructor; [exact Hle|].
    eapply Forall_impl; [exact Hy|]. cbn. intros; lia.
  - constructor; [exact IH|]. rewrite insert_asc_perm.
    constructor; [lia | exact Hy].
Qed.

Lemma sort_asc_whole_numbers (l : list Z) :
  StronglySorted Z.le (sort_asc cell_leb Int l).
Proof.
  induction l as [|x l IH]; cbn [sort_asc foldr]; [constructor|].
  now apply insert_asc_whole_numbers.
Qed.

Lemma argsort_of_pairs_perm (keys : list cell) (pl : list (nat * cell)) :
  pl ≡ₚ zip (seq 0 (length keys)) keys ->
  map fst (sort_asc cell_leb snd pl) ≡ₚ seq 0 (length keys).
Proof.
  intros Hpl. rewrite sort_asc_perm, Hpl. now rewrite zip_seq_fst.
Qed.

(** The insertion sort and the backward sort both give what numpy
    promises of its quicksort. *)
Lemma insertion_argsort_ascending : ascending_argsort insertion_argsort.
Proof.
  intros zs. split.
  - unfold insertion_argsort. rewrite argsort_of_pairs_perm by reflexivity.
    now rewrite length_map.
  - rewrite take_insertion_argsort. apply sort_asc_whole_numbers.
Qed.

Lemma backward_argsort_ascending : ascending_argsort backward_argsort.
Proof.
  intros zs. split.
  - unfold backward_argsort.
    rewrite argsort_of_pairs_perm by (symmetry; apply Permutation_rev).
    now rewrite length_map.
  - rewrite take_backward_argsort. apply sort_asc_whole_numbers.
Qed.

Section Promise.
Context {A : Type} (argsort : list cell -> list nat) (key : A -> cell) (z : A -> Z).
Hypothesis argsort_ascending : ascending_argsort argsort.

Lemma sort_desc_by_keys l :
  (forall x, In x l -> key x = Int (z x)) ->
  map key (rev l) = map Int (map z (rev l)).
Proof.
  intros Hz. rewrite map_map. apply map_ext_in. intros x Hx. apply Hz.
  now apply in_rev.
Qed.

(** Whatever routine keeps the promise, the sort permutes its input... *)
Lemma sort_desc_by_perm l :
  (forall x, In x l -> key x = Int (z x)) -> sort_desc_by argsort key l ≡ₚ l.
Proof.
  intros Hz. unfold sort_desc_by. rewrite (sort_desc_by_keys l Hz).
  destruct (argsort_ascending (map z (rev l))) as [Hperm _].
  rewrite length_map in Hperm.
  rewrite <- Permutation_rev, (take_perm _ _ Hperm). symmetry. apply Permutation_rev.
Qed.

(** ... and lists greater keys first. *)
Lemma sort_desc_by_sorted l :
  (forall x, In x l -> key x = Int (z x)) ->
  StronglySorted (fun x y => z y <= z x) (sort_desc_by argsort key l).
Proof.
  intros Hz. unfold sort_desc_by. rewrite (sort_desc_by_keys l Hz).
  destruct (argsort_ascending (map z (rev l))) as [_ Hsorted].
  rewrite take_map in Hsorted. apply StronglySorted_of_map in Hsorted.
  exact (StronglySorted_rev _ _ Hsorted).
Qed.

End Promise.

Lemma filter_split_perm {A} (f : A -> bool) l :
  List.filter (fun x => negb (f x)) l ++ List.filter f l ≡ₚ l.
Proof.
  induction l as [|x l IH]; simpl; [reflexivity|].
  destruct (f x); simpl.
  - rewrite <- Permutation_middle. now rewrite IH.
  - now rewrite IH.
Qed.

(** Sorting a table permutes its rows and keeps its columns. *)
Lemma sort_values_desc_perm c df sorted :
  sort_values_desc c df = Returned sorted ->
  rows sorted ≡ₚ rows df /\ columns sorted = columns df.
Proof.
  unfold sort_values_desc, sort_values_desc_by.
  destruct (has_column df c); [|discriminate].
  destruct (comparable _); [|discriminate].
  intros H. injection H as <-. simpl. split; [|reflexivity].
  rewrite sort_desc_by_insertion, sort_desc_perm. apply filter_split_perm.
Qed.

(** With the column in the table, [drop_duplicates] keeps the first row
    of every value; on a table without rows that is the table itself. *)
Lemma drop_duplicates_with_column c df :
  c ∈ columns df ->
  drop_duplicates c df
  = Returned (mkDataFrame (columns df)
                (dedup_by (fun r => cell_at r c) [] (rows df))).
Proof.
  intros Hc. unfold drop_duplicates, empty, has_column.
  destruct df as [cols rs]. cbn [columns rows] in *.
  destruct rs as [|r rs]; [reflexivity|].
  destruct cols as [|c' cols]; [now apply elem_of_nil in Hc|].
  now rewrite bool_decide_eq_true_2 by exact Hc.
Qed.

(** Without the column, a table that has rows makes [drop_duplicates]
    raise KeyError. *)
Lemma drop_duplicates_without_column c df :
  c ∉ columns df -> rows df <> [] -> columns df <> [] ->
  drop_duplicates c df = Raised (KeyError c).
Proof.
  intros Hc Hr Hcols. unfold drop_duplicates, empty, has_column.
  destruct (rows df) as [|r rs]; [contradiction|].
  destruct (columns df) as [|c' cols] eqn:E; [contradiction|].
  now rewrite bool_decide_eq_false_2 by exact Hc.
Qed.

(** A table without rows passes [drop_duplicates] as it is. *)
Lemma drop_duplicates_no_rows c df :
  rows df = [] -> drop_duplicates c df = Returned df.
Proof. intros Hr. unfold drop_duplicates, empty. now rewrite Hr. Qed.

End SortFacts.

(** ** Consolidator: the data-quality stars *)

Module QualityFacts.
Import Consolidator SortFacts.

Example calculate_quality_bare_row :
  calculate_quality bare_row = Returned "★★☆☆☆".
Proof. vm_compute. reflexivity. Qed.

Lemma bump_bounds b n : n <= bump b n <= n + 1.
Proof. destruct b; simpl; lia. Qed.

(** The score counts seven independent checks, so it ranges over 0..7. *)
Lemma quality_score_range r s :
  quality_score r = Returned s -> 0 <= s <= 7.
Proof.
  unfold quality_score. intros H.
  repeat (apply rbind_returned in H; destruct H as (? & _ & H)).
  injection H as <-.
  repeat match goal with
         | |- context [bump ?b ?n] =>
             pose proof (bump_bounds b n); generalize dependent (bump b n); intros
         | H : context [bump ?b ?n] |- _ =>
             pose proof (bump_bounds b n); generalize dependent (bump b n); intros
         end.
  lia.
Qed.

Lemma star_count_filled s : star_count (filled_star +:+ s) = S <$> star_count s.
Proof. reflexivity. Qed.

Lemma star_count_empty s : star_count (empty_star +:+ s) = S <$> star_count s.
Proof. reflexivity. Qed.

Lemma star_count_repeat_filled n s k :
  star_count s = Some k ->
  star_count (str_repeat filled_star n +:+ s) = Some (n + k)%nat.
Proof.
  intros H. induction n as [|n IH]; [exact H|].
  change (str_repeat filled_star (S n) +:+ s)
    with (filled_star +:+ (str_repeat filled_star n +:+ s)).
  rewrite star_count_filled, IH. reflexivity.
Qed.

Lemma star_count_repeat_empty n :
  star_count (str_repeat empty_star n) = Some n.
Proof.
  induction n as [|n IH]; [reflexivity|].
  change (str_repeat empty_star (S n)) with (empty_star +:+ str_repeat empty_star n).
  rewrite star_count_empty, IH. reflexivity.
Qed.

(** The rendering has as many filled stars as the score and pads with
    empty stars up to five: five glyphs up to score 5, more beyond. *)
Lemma stars_of_count s :
  0 <= s -> star_count (stars_of s) = Some (Z.to_nat (Z.max 5 s)).
Proof.
  intros Hs. unfold stars_of, str_mul.
  rewrite (star_count_repeat_filled _ _ (Z.to_nat (5 - s))).
  - f_equal. lia.
  - apply star_count_repeat_empty.
Qed.

(** C2 (the code departs from the claim): a row with all seven checked
    fields filled scores 7, not at most 5, and is rendered as seven filled
    stars instead of five glyphs. *)
Theorem calculate_quality_complete_row :
  quality_score complete_row = Returned 7 /\
  calculate_quality complete_row = Returned "★★★★★★★" /\
  star_count "★★★★★★★" = Some 7%nat.
Proof. vm_compute. repeat split. Qed.

End QualityFacts.

(** ** Consolidator: opportunity score and note *)

Module OpportunityFacts.
Import Consolidator.

Section WithFloat.
Variable python_float : string -> option pyfloat.

Lemma size_points_range r : 0 <= size_points python_float r <= 3.
Proof.
  unfold size_points.
  repeat (case_match; try lia).
Qed.

Lemma size_notes_cases r :
  size_notes python_float r = [] \/
  size_notes python_float r = ["Major enterprise with significant IT needs"] \/
  size_notes python_float r = ["Large company with established IT department"].
Proof.
  unfold size_notes.
  repeat (case_match; auto).
Qed.

Lemma present_lookup r c :
  present r c = true -> exists v, r !! c = Some v /\ isna v = false.
Proof.
  unfold present. destruct (r !! c) as [v|]; [|discriminate].
  intros H. exists v. split; [reflexivity|]. now destruct (isna v).
Qed.

(** C3 as amended: with both flags "Yes" and a contact with email and
    phone the score is 3 + 2 + 2 = 7, plus 1 for a contact name and plus
    the headcount bonus, so it lies between 7 and 11; the note carries
    both fragments. *)
Theorem score_and_note_hiring_both_with_contact (r : row) :
  hiring_both_with_contact r ->
  score_opportunity python_float r
    = 7 + (if present r "C-Level Contact Name" then 1 else 0)
        + size_points python_float r /\
  7 <= score_opportunity python_float r <= 11 /\
  contains both_roles_fragment (create_opportunity_note python_float r) = true /\
  contains complete_contact_fragment (create_opportunity_note python_float r) = true.
Proof.
  intros (Hd & Hs & He & Hp).
  assert (Hscore : score_opportunity python_float r
    = 7 + (if present r "C-Level Contact Name" then 1 else 0)
        + size_points python_float r).
  { unfold score_opportunity, hiring_points. rewrite Hd, Hs, He, Hp. simpl.
    destruct (present r "C-Level Contact Name"); lia. }
  split; [exact Hscore|]. split.
  { rewrite Hscore. pose proof (size_points_range r).
    destruct (present r "C-Level Contact Name"); lia. }
  apply present_lookup in He as (e & He & Hne).
  apply present_lookup in Hp as (p & Hp & Hnp).
  unfold create_opportunity_note, hiring_notes, contact_notes.
  rewrite Hd, Hs, He, Hp, Hne, Hnp. simpl.
  destruct (size_notes_cases r) as [-> | [-> | ->]]; split; vm_compute; reflexivity.
Qed.
End WithFloat.

(** C3 (witness): the amended statement at the worked example. *)
Lemma score_and_note_suncorp :
  hiring_both_with_contact suncorp_row /\
  score_opportunity no_float suncorp_row
    = 7 + (if present suncorp_row "C-Level Contact Name" then 1 else 0)
        + size_points no_float suncorp_row /\
  7 <= score_opportunity no_float suncorp_row <= 11 /\
  contains both_roles_fragment (create_opportunity_note no_float suncorp_row) = true /\
  contains complete_contact_fragment (create_opportunity_note no_float suncorp_row)
    = true.
Proof.
  assert (H : hiring_both_with_contact suncorp_row) by (vm_compute; auto).
  split; [exact H|].
  exact (score_and_note_hiring_both_with_contact no_float suncorp_row H).
Defined.

Example suncorp_score_and_note_values :
  score_opportunity no_float suncorp_row = 7 /\
  create_opportunity_note no_float suncorp_row
    = "Actively hiring for both DevOps and Software Developer roles; Complete C-level contact information available".
Proof. vm_compute. auto. Qed.

(** C3 (counterexample): on the worked example the claimed preconditions
    hold and the score is 7, not 3. *)
Lemma score_suncorp_is_not_3 :
  hiring_both_with_contact suncorp_row /\
  score_opportunity no_float suncorp_row <> 3.
Proof. split; [vm_compute; auto | vm_compute; discriminate]. Qed.

End OpportunityFacts.

(** ** Consolidator: the Top 10 Opportunities sheet *)

Module TopTenFacts.
Import Pandas Consolidator SortFacts.

Lemma enumerate_from_snd {A} n (l : list A) : map snd (enumerate_from n l) = l.
Proof. revert n. induction l as [|x l IH]; intros n; simpl; [|rewrite IH]; reflexivity. Qed.

Lemma enumerate_from_lookup {A} n (l : list A) i x :
  In (i, x) (enumerate_from n l) <-> (n <= i)%nat /\ l !! (i - n)%nat = Some x.
Proof.
  revert n. induction l as [|y l IH]; intros n; simpl.
  - split; [tauto | intros [_ H]; discriminate].
  - rewrite IH. split.
    + intros [H | [Hle Hl]].
      * injection H as <- <-. rewrite Nat.sub_diag. split; [lia | reflexivity].
      * split; [lia|]. replace (i - n)%nat with (S (i - S n)) by lia. exact Hl.
    + intros [Hle Hl]. destruct (decide (i = n)) as [->|Hne].
      * rewrite Nat.sub_diag in Hl. injection Hl as ->. now left.
      * right. split; [lia|].
        replace (i - n)%nat with (S (i - S n)) in Hl by lia. exact Hl.
Qed.

Lemma enumerate_from_sorted {A} n (l : list A) :
  StronglySorted (fun x y => (x.1 < y.1)%nat) (enumerate_from n l).
Proof.
  revert n. induction l as [|x l IH]; intros n; simpl; constructor; [apply IH|].
  rewrite List.Forall_forall. intros [i y] Hin.
  apply enumerate_from_lookup in Hin. simpl. lia.
Qed.

Lemma enumerate_from_fst {A} n (l : list A) :
  map fst (enumerate_from n l) = seq n (length l).
Proof. revert n. induction l as [|x l IH]; intros n; simpl; [|rewrite IH]; reflexivity. Qed.

(** Dropping duplicates changes nothing when the keys are distinct. *)
Lemma dedup_by_nodup {A K} `{EqDecision K} (key : A -> K) seen l :
  NoDup (map key l) -> (forall x, In x l -> key x ∉ seen) ->
  dedup_by key seen l = l.
Proof.
  revert seen. induction l as [|x l IH]; intros seen Hnd Hseen; simpl; [reflexivity|].
  apply NoDup_cons in Hnd as [Hx Hnd].
  rewrite bool_decide_eq_false_2 by (apply Hseen; now left).
  f_equal. apply IH; [exact Hnd|].
  intros y Hy. rewrite not_elem_of_cons. split; [|apply Hseen; now right].
  intros Heq. apply Hx. rewrite <- Heq. apply list_elem_of_In. now apply in_map.
Qed.

Lemma zip_with_map_self {A B C} (f : A -> B -> C) (g : A -> B) l :
  zip_with f l (map g l) = map (fun a => f a (g a)) l.
Proof. induction l as [|a l IH]; simpl; [|rewrite IH]; reflexivity. Qed.

Lemma assign_columns_new c values df : c ∈ columns (assign c values df).
Proof.
  unfold assign, has_column. simpl. case_bool_decide; [assumption|].
  apply elem_of_app. right. apply list_elem_of_singleton. reflexivity.
Qed.

Lemma assign_columns_old c c' values df :
  c' ∈ columns df -> c' ∈ columns (assign c values df).
Proof.
  intros Hc. unfold assign, has_column. simpl. case_bool_decide; [assumption|].
  apply elem_of_app. now left.
Qed.

Lemma filter_all {A} (f : A -> bool) l :
  (forall x, In x l -> f x = true) -> List.filter f l = l.
Proof.
  intros H. induction l as [|x l IH]; simpl; [reflexivity|].
  rewrite H by now left. f_equal. apply IH. intros y Hy. apply H. now right.
Qed.

Lemma filter_none {A} (f : A -> bool) l :
  (forall x, In x l -> f x = false) -> List.filter f l = [].
Proof.
  intros H. induction l as [|x l IH]; simpl; [reflexivity|].
  rewrite H by now left. apply IH. intros y Hy. apply H. now right.
Qed.

Lemma In_firstn {A} n (l : list A) x : In x (firstn n l) -> In x l.
Proof.
  intros H. rewrite <- (firstn_skipn n l). apply in_or_app. now left.
Qed.

Lemma NoDup_firstn {A} n (l : list A) : NoDup l -> NoDup (firstn n l).
Proof.
  intros H. rewrite <- (firstn_skipn n l) in H.
  apply NoDup_app in H. tauto.
Qed.

(** A column of whole numbers sorts without a type error and has no
    missing value to put last. *)
Lemma sort_values_desc_by_whole_numbers argsort c df (z : row -> Z) :
  c ∈ columns df ->
  (forall r, In r (rows df) -> cell_at r c = Int (z r)) ->
  sort_values_desc_by argsort c df
  = Returned (mkDataFrame (columns df)
                (sort_desc_by argsort (fun r => cell_at r c) (rows df))).
Proof.
  intros Hc Hz. unfold sort_values_desc_by, has_column.
  rewrite bool_decide_eq_true_2 by exact Hc.
  assert (Hcmp : comparable (map (fun r => cell_at r c) (rows df)) = true).
  { unfold comparable. apply orb_true_iff. left. apply forallb_forall.
    intros v Hv. apply in_map_iff in Hv as (r & <- & Hr). now rewrite (Hz r Hr). }
  rewrite Hcmp, filter_all, filter_none, app_nil_r; [reflexivity| |].
  - intros r Hr. now rewrite (Hz r Hr).
  - intros r Hr. now rewrite (Hz r Hr).
Qed.

Lemma sort_values_desc_whole_numbers c df (z : row -> Z) :
  c ∈ columns df ->
  (forall r, In r (rows df) -> cell_at r c = Int (z r)) ->
  sort_values_desc c df
  = Returned (mkDataFrame (columns df)
                (sort_desc cell_leb (fun r => cell_at r c) (rows df))).
Proof.
  intros Hc Hz. unfold sort_values_desc.
  rewrite (sort_values_desc_by_whole_numbers _ c df z Hc Hz).
  now rewrite sort_desc_by_insertion.
Qed.

Lemma drop_duplicates_distinct c cols l :
  c ∈ cols -> NoDup (map (fun r => cell_at r c) l) ->
  drop_duplicates c (mkDataFrame cols l) = Returned (mkDataFrame cols l).
Proof.
  intros Hc Hnd. rewrite SortFacts.drop_duplicates_with_column by exact Hc.
  cbn [columns rows].
  rewrite dedup_by_nodup; [reflexivity|exact Hnd|].
  intros x _. apply not_elem_of_nil.
Qed.

Section WithFloat.
Variable python_float : string -> option pyfloat.

Local Abbreviation score := (score_opportunity python_float).
Local Abbreviation ranks_before := (beats (fun p : nat * row => score p.2) fst).

Lemma annotate_score r :
  cell_at (annotate python_float r) "Opportunity Score" = Int (score r).
Proof.
  unfold cell_at, annotate. simpl.
  rewrite lookup_insert_ne by discriminate. now rewrite lookup_insert_eq.
Qed.

Lemma annotate_name r :
  company_name_of (annotate python_float r) = company_name_of r.
Proof.
  unfold company_name_of, cell_at, annotate. simpl.
  now rewrite !lookup_insert_ne by discriminate.
Qed.

(** The frame [create_opportunities_content] sorts: every row with its
    score and note. *)
Lemma annotated_rows df :
  rows (assign "Opportunity Notes"
          (map (fun r => Str (create_opportunity_note python_float r))
             (rows (assign "Opportunity Score"
                      (map (fun r => Int (score r)) (rows df)) df)))
          (assign "Opportunity Score" (map (fun r => Int (score r)) (rows df)) df))
  = map (annotate python_float) (rows df).
Proof.
  unfold assign at 1. simpl. rewrite zip_with_map_self.
  unfold assign. simpl. rewrite zip_with_map_self, map_map. reflexivity.
Qed.

(** C4: from 15 rows with pairwise distinct company names the sheet
    takes 10 rows, [picked] with their input positions, whatever routine
    sorts the scores as long as it keeps numpy's promise: the 10 are
    listed by descending score, their names are distinct, and no row left
    out has a higher score than a row of the sheet. Which of several rows
    with the same score comes first, and which of them is left out at the
    tenth place, is up to the routine. *)
Theorem top_ten_of_fifteen (argsort : list cell -> list nat) (df : DataFrame) :
  ascending_argsort argsort ->
  "Company Name" ∈ columns df ->
  length (rows df) = 15%nat ->
  NoDup (map company_name_of (rows df)) ->
  exists (out : DataFrame) (picked : list (nat * row)),
    create_opportunities_content_by python_float argsort df = Returned out /\
    rows out = map (fun p => filter (fun kv => kv.1 ∈ columns out)
                               (annotate python_float p.2)) picked /\
    map company_name_of (rows out) = map (fun p => company_name_of p.2) picked /\
    length picked = 10%nat /\
    (forall i r, In (i, r) picked -> rows df !! i = Some r) /\
    NoDup (map fst picked) /\
    NoDup (map company_name_of (rows out)) /\
    StronglySorted (fun p q : nat * row => score q.2 <= score p.2) picked /\
    (forall p j r, In p picked -> rows df !! j = Some r ->
                   ~ In j (map fst picked) -> score r <= score p.2).
Proof.
  intros Hsort Hcol Hlen Hnames.
  set (dl := enumerate_from 0 (rows df)).
  set (keyf := fun p : nat * row =>
                 cell_at (annotate python_float p.2) "Opportunity Score").
  set (sdl := sort_desc_by argsort keyf dl).
  assert (Hkey : forall p, In p dl -> keyf p = Int (score p.2)).
  { intros p _. unfold keyf. apply annotate_score. }
  assert (Hperm : sdl ≡ₚ dl).
  { exact (sort_desc_by_perm argsort keyf (fun p => score p.2) Hsort dl Hkey). }
  assert (Hsorted : StronglySorted (fun p q : nat * row => score q.2 <= score p.2) sdl).
  { exact (sort_desc_by_sorted argsort keyf (fun p => score p.2) Hsort dl Hkey). }
  assert (Hsdl_names : NoDup (map (fun p : nat * row => company_name_of p.2) sdl)).
  { rewrite Hperm. unfold dl.
    rewrite <- (map_map snd company_name_of), enumerate_from_snd. exact Hnames. }
  set (scored := assign "Opportunity Score"
                   (map (fun r => Int (score r)) (rows df)) df).
  set (noted := assign "Opportunity Notes"
                  (map (fun r => Str (create_opportunity_note python_float r))
                     (rows scored)) scored).
  assert (Hrows : rows noted = map (fun p => annotate python_float p.2) dl).
  { unfold noted, scored. rewrite annotated_rows. unfold dl.
    now rewrite <- (map_map snd (annotate python_float)), enumerate_from_snd. }
  assert (Hname_col : "Company Name" ∈ columns noted).
  { unfold noted. now do 2 apply assign_columns_old. }
  assert (Hscore_col : "Opportunity Score" ∈ columns noted).
  { unfold noted. apply assign_columns_old, assign_columns_new. }
  set (avail := List.filter
                  (has_column (head 10 (mkDataFrame (columns noted)
                     (map (fun p => annotate python_float p.2) sdl))))
                  display_columns).
  assert (Havail : "Company Name" ∈ avail).
  { unfold avail. apply list_elem_of_In, filter_In. split.
    - simpl. now left.
    - unfold has_column. simpl. now apply bool_decide_eq_true_2. }
  exists (select_columns avail
            (head 10 (mkDataFrame (columns noted)
               (map (fun p => annotate python_float p.2) sdl)))),
         (firstn 10 sdl).
  assert (Hout_names :
    map company_name_of
      (map (fun r : row => filter (fun kv => kv.1 ∈ avail) r)
         (firstn 10 (map (fun p => annotate python_float p.2) sdl)))
    = map (fun p => company_name_of p.2) (firstn 10 sdl)).
  { rewrite firstn_map, !map_map. apply map_ext. intros [i r]. simpl.
    transitivity (company_name_of (annotate python_float r));
      [|apply annotate_name].
    unfold company_name_of, cell_at. f_equal.
    destruct (annotate python_float r !! "Company Name") as [v|] eqn:Hv.
    - apply map_lookup_filter_Some. split; [exact Hv | exact Havail].
    - apply map_lookup_filter_None. left. exact Hv. }
  split; [|split; [|split; [|split; [|split; [|split; [|split; [|split]]]]]]].
  - unfold create_opportunities_content_by. fold scored. fold noted.
    rewrite (sort_values_desc_by_whole_numbers argsort _ _ score_of_annotated);
      [|exact Hscore_col|]; cycle 1.
    { rewrite Hrows. intros r Hr. apply in_map_iff in Hr as (q & <- & _).
      unfold score_of_annotated. now rewrite annotate_score. }
    cbn [rbind]. rewrite Hrows, sort_desc_by_map. fold keyf. fold sdl.
    rewrite drop_duplicates_distinct; [reflexivity|exact Hname_col|].
    cbn [rows]. rewrite map_map.
    erewrite map_ext; [exact Hsdl_names|].
    intros q. apply annotate_name.
  - simpl. now rewrite firstn_map, map_map.
  - exact Hout_names.
  - rewrite length_firstn, (Permutation_length Hperm).
    unfold dl. rewrite <- (length_map fst), enumerate_from_fst, length_seq. lia.
  - intros i r Hin. apply In_firstn in Hin.
    apply (Permutation_in _ Hperm) in Hin.
    apply enumerate_from_lookup in Hin as [_ Hin].
    now rewrite Nat.sub_0_r in Hin.
  - rewrite <- firstn_map. apply NoDup_firstn.
    rewrite Hperm. unfold dl. rewrite enumerate_from_fst. apply NoDup_seq.
  - simpl. rewrite Hout_names, <- firstn_map. now apply NoDup_firstn.
  - rewrite <- (firstn_skipn 10 sdl) in Hsorted.
    now apply StronglySorted_app_1_l in Hsorted.
  - intros q j r Hq Hj Hnot.
    rewrite <- (firstn_skipn 10 sdl) in Hsorted.
    apply (StronglySorted_app_1_elem_of _ _ _ q (j, r) Hsorted).
    + now apply list_elem_of_In.
    + assert (Hin : In (j, r) sdl).
      { apply (Permutation_in _ (Permutation_sym Hperm)).
        apply enumerate_from_lookup. split; [lia|]. now rewrite Nat.sub_0_r. }
      rewrite <- (firstn_skipn 10 sdl) in Hin.
      apply in_app_or in Hin as [Hin|Hin]; [|now apply list_elem_of_In].
      exfalso. apply Hnot. apply in_map_iff. exists (j, r). auto.
Qed.

End WithFloat.

(** C4 (witness): the theorem on fifteen leads with tied scores, sorted
    by the insertion sort. *)
Lemma fifteen_leads_top_ten :
  exists out picked,
    create_opportunities_content_by no_float insertion_argsort fifteen_leads
    = Returned out /\
    map company_name_of (rows out) = map (fun p => company_name_of p.2) picked /\
    length picked = 10%nat /\
    NoDup (map company_name_of (rows out)) /\
    StronglySorted
      (fun p q : nat * row =>
         score_opportunity no_float q.2 <= score_opportunity no_float p.2)
      picked.
Proof.
  destruct (top_ten_of_fifteen no_float insertion_argsort fifteen_leads)
    as (out & picked & Hret & _ & Hnames & Hlen & _ & _ & Hnd & Hsorted & _).
  - exact insertion_argsort_ascending.
  - apply (bool_decide_unpack _). vm_compute. exact I.
  - reflexivity.
  - apply (bool_decide_unpack _). vm_compute. exact I.
  - exists out, picked. auto.
Defined.

(** C4 (counterexample): the sheet of the fifteen leads when the sort
    routine keeps numpy's promise and leaves equal scores in the reverse of
    their order. Each row is shown with its score and its place in the
    input, counted from 0: ASB Bank (place 10) stands before Tyro
    Payments (place 1) at score 6, Partners Life and Kiwibank before Volt
    Bank at score 3, and of the four leads with score 1 the last two of
    the input are kept, not the first two. *)
Lemma quicksort_leaves_tied_leads_out_of_order :
  ascending_argsort backward_argsort /\
  (fun out => map (fun r => (company_name_of r, cell_at r "Opportunity Score",
                             place_of fifteen_leads (company_name_of r)))
                  (rows out))
    <$> (match create_opportunities_content_by no_float backward_argsort
                 fifteen_leads with
         | Returned out => Some out
         | Raised _ => None
         end)
  = Some [(Str "Greater Bank", Int 8, 5%nat); (Str "ASB Bank", Int 6, 10%nat);
          (Str "Tyro Payments", Int 6, 1%nat); (Str "Partners Life", Int 3, 14%nat);
          (Str "Kiwibank", Int 3, 7%nat); (Str "Volt Bank", Int 3, 3%nat);
          (Str "Youi Insurance", Int 2, 12%nat); (Str "Heritage Bank", Int 2, 4%nat);
          (Str "Budget Direct", Int 1, 13%nat); (Str "SBS Bank", Int 1, 9%nat)] /\
  ties_in_input_order
    (map (fun r => (score_of_annotated r, place_of fifteen_leads (company_name_of r)))
       (match create_opportunities_content_by no_float backward_argsort
              fifteen_leads with
        | Returned out => rows out
        | Raised _ => []
        end))
  = false.
Proof.
  split; [exact backward_argsort_ascending|].
  split; vm_compute; reflexivity.
Qed.

(** The sheet of the same leads when the routine is the insertion sort:
    equal scores in the order of the input. *)
Example fifteen_leads_sheet :
  (fun out => map (fun r => (company_name_of r, cell_at r "Opportunity Score",
                             place_of fifteen_leads (company_name_of r)))
                  (rows out))
    <$> (match create_opportunities_content_by no_float insertion_argsort
                 fifteen_leads with
         | Returned out => Some out
         | Raised _ => None
         end)
  = Some [(Str "Greater Bank", Int 8, 5%nat); (Str "Tyro Payments", Int 6, 1%nat);
          (Str "ASB Bank", Int 6, 10%nat); (Str "Volt Bank", Int 3, 3%nat);
          (Str "Kiwibank", Int 3, 7%nat); (Str "Partners Life", Int 3, 14%nat);
          (Str "Heritage Bank", Int 2, 4%nat); (Str "Youi Insurance", Int 2, 12%nat);
          (Str "Judo Bank", Int 1, 0%nat); (Str "TSB Bank", Int 1, 8%nat)].
Proof. vm_compute. reflexivity. Qed.

End TopTenFacts.

(** ** Columns left alone by an assignment *)

Module CollectorIdFacts.
Import Pandas.

Lemma zip_with_insert_column c (l : list row) (values : list cell) :
  length values = length l ->
  map (fun r => cell_at r c) (zip_with (fun (r : row) v => <[c := v]> r) l values)
  = values.
Proof.
  revert values. induction l as [|r l IH]; intros [|v values] Hlen;
    try discriminate; [reflexivity|].
  simpl. unfold cell_at at 1. rewrite lookup_insert_eq. simpl.
  f_equal. apply IH. simpl in Hlen. lia.
Qed.

Lemma zip_with_insert_other c c' (l : list row) (values : list cell) :
  c <> c' -> length values = length l ->
  map (fun r => cell_at r c) (zip_with (fun (r : row) v => <[c' := v]> r) l values)
  = map (fun r => cell_at r c) l.
Proof.
  intros Hne. revert values. induction l as [|r l IH]; intros [|v values] Hlen;
    try discriminate; [reflexivity|].
  simpl. unfold cell_at at 1. rewrite lookup_insert_ne by congruence.
  f_equal. apply IH. simpl in Hlen. lia.
Qed.

(** Setting a column to one value leaves the other columns as they are. *)
Lemma assign_all_other c c' v df :
  c <> c' ->
  map (fun r => cell_at r c) (rows (assign_all c' v df))
  = map (fun r => cell_at r c) (rows df).
Proof.
  intros Hne. unfold assign_all, assign. simpl.
  apply zip_with_insert_other; [exact Hne|]. now rewrite length_map.
Qed.

End CollectorIdFacts.

(** ** Status Checker: a "Yes" is never taken back *)

Module StatusFacts.
Import Pandas StatusChecker.

Lemma is_yes_insert_other c c' v r :
  c <> c' -> is_yes c (<[c' := v]> r) = is_yes c r.
Proof.
  intros Hne. unfold is_yes, cell_at. now rewrite lookup_insert_ne.
Qed.

Lemma is_yes_insert_yes c r : is_yes c (<[c := Str "Yes"]> r) = true.
Proof. unfold is_yes, cell_at. now rewrite lookup_insert_eq. Qed.

Ltac flag_cases :=
  repeat match goal with
         | H : role_flag _ |- _ => destruct H as [-> | ->]
         | |- context [if ?b then _ else _] => destruct b eqn:?
         | |- _ => rewrite is_yes_insert_yes
         | |- _ => rewrite is_yes_insert_other by discriminate
         end; try reflexivity; try assumption; try congruence.

Lemma record_careers_keeps_yes res c r :
  role_flag c -> is_yes c r = true -> is_yes c (record_careers res r) = true.
Proof. intros Hc Hy. unfold record_careers. flag_cases. Qed.

Lemma record_later_keeps_yes res c r :
  role_flag c -> is_yes c r = true -> is_yes c (record_later res r) = true.
Proof. intros Hc Hy. unfold record_later. flag_cases. Qed.

Lemma mark_no_keeps_yes c r :
  role_flag c -> is_yes c r = true -> is_yes c (mark_no r) = true.
Proof.
  intros Hc Hy. unfold mark_no.
  destruct Hc as [-> | ->].
  - rewrite Hy. simpl.
    destruct (negb (is_yes "hiring_developers" r));
      [now rewrite is_yes_insert_other by discriminate | exact Hy].
  - destruct (negb (is_yes "hiring_devops" r)) eqn:Hd.
    + rewrite is_yes_insert_other by discriminate. rewrite Hy. simpl.
      now rewrite is_yes_insert_other by discriminate.
    + rewrite Hy. simpl. exact Hy.
Qed.

Lemma set_actively_hiring_keeps_yes c r :
  role_flag c -> is_yes c r = true -> is_yes c (set_actively_hiring r) = true.
Proof.
  intros Hc Hy. unfold set_actively_hiring.
  destruct (is_yes "hiring_devops" r || is_yes "hiring_developers" r);
    destruct Hc as [-> | ->]; now rewrite is_yes_insert_other by discriminate.
Qed.

Section Monotone.
Variable world : Type.
Variable check_company_careers_page :
  cell -> cell -> bool -> world -> check_result * world.
Variable check_linkedin_jobs :
  cell -> cell -> bool -> world -> check_result * world.
Variable check_seek_jobs :
  cell -> cell -> bool -> world -> check_result * world.

Local Abbreviation the_stages :=
  (stages world check_company_careers_page check_linkedin_jobs check_seek_jobs).

Lemma stages_keep_yes use_mock snapshot :
  Forall (keeps_yes (world:=world)) (the_stages use_mock snapshot).
Proof.
  unfold stages. repeat constructor; intros c r w Hc Hy.
  - unfold careers_stage. destruct (truthy _); [|exact Hy].
    destruct (check_company_careers_page _ _ _ _) as [res w'].
    now apply record_careers_keeps_yes.
  - unfold linkedin_stage. destruct (undecided r); [|exact Hy].
    destruct (check_linkedin_jobs _ _ _ _) as [res w'].
    now apply record_later_keeps_yes.
  - unfold seek_stage. destruct (undecided r); [|exact Hy].
    destruct (check_seek_jobs _ _ _ _) as [res w'].
    now apply record_later_keeps_yes.
  - now apply mark_no_keeps_yes.
  - now apply set_actively_hiring_keeps_yes.
Qed.

Lemma run_stages_app ss1 ss2 r w :
  run_stages world (ss1 ++ ss2) r w
  = run_stages world ss2 (run_stages world ss1 r w).1 (run_stages world ss1 r w).2.
Proof.
  unfold run_stages. rewrite fold_left_app.
  now destruct (fold_left _ ss1 (r, w)).
Qed.

Lemma run_stages_keep_yes ss c r w :
  Forall (keeps_yes (world:=world)) ss -> role_flag c ->
  is_yes c r = true -> is_yes c (run_stages world ss r w).1 = true.
Proof.
  intros Hss Hc. revert r w.
  induction Hss as [|s ss Hs Hss IH]; intros r w Hy; [exact Hy|].
  change (s :: ss) with ([s] ++ ss). rewrite run_stages_app.
  apply IH. now apply Hs.
Qed.

(** C5: split the blocks of the loop body (careers page, LinkedIn, Seek,
    final fill-in, overall flag) at any point; a role flag that is "Yes"
    after the blocks before the split is "Yes" after all of them. *)
Theorem yes_is_never_taken_back use_mock snapshot before after c r w :
  the_stages use_mock snapshot = before ++ after ->
  role_flag c ->
  is_yes c (run_stages world before r w).1 = true ->
  is_yes c (run_stages world (before ++ after) r w).1 = true.
Proof.
  intros Hsplit Hc Hy. rewrite run_stages_app.
  apply run_stages_keep_yes; [|exact Hc|exact Hy].
  pose proof (stages_keep_yes use_mock snapshot) as Hall.
  rewrite Hsplit in Hall. now apply Forall_app in Hall.
Qed.

(** No block of the loop body touches the company id. *)
Lemma stages_keep_id use_mock snapshot :
  Forall (fun s : stage world =>
            forall r w, company_id_of (s r w).1 = company_id_of r)
         (the_stages use_mock snapshot).
Proof.
  unfold stages, company_id_of, cell_at. repeat constructor; intros r w.
  - unfold careers_stage. destruct (truthy _); [|reflexivity].
    destruct (check_company_careers_page _ _ _ _) as [res w'].
    unfold record_careers. simpl.
    repeat (case_match; rewrite ?lookup_insert_ne by discriminate); reflexivity.
  - unfold linkedin_stage. destruct (undecided r); [|reflexivity].
    destruct (check_linkedin_jobs _ _ _ _) as [res w'].
    unfold record_later. simpl.
    repeat (case_match; rewrite ?lookup_insert_ne by discriminate); reflexivity.
  - unfold seek_stage. destruct (undecided r); [|reflexivity].
    destruct (check_seek_jobs _ _ _ _) as [res w'].
    unfold record_later. simpl.
    repeat (case_match; rewrite ?lookup_insert_ne by discriminate); reflexivity.
  - unfold mark_no. simpl.
    repeat (case_match; rewrite ?lookup_insert_ne by discriminate); reflexivity.
  - unfold set_actively_hiring. simpl.
    repeat (case_match; rewrite ?lookup_insert_ne by discriminate); reflexivity.
Qed.

Lemma run_stages_keep_id ss r w :
  Forall (fun s : stage world =>
            forall r w, company_id_of (s r w).1 = company_id_of r) ss ->
  company_id_of (run_stages world ss r w).1 = company_id_of r.
Proof.
  intros Hss. revert r w.
  induction Hss as [|s ss Hs Hss IH]; intros r w; [reflexivity|].
  change (s :: ss) with ([s] ++ ss). rewrite run_stages_app.
  rewrite IH. apply Hs.
Qed.

Lemma verify_rows_keep_ids use_mock l w :
  map company_id_of
    (verify_rows world check_company_careers_page check_linkedin_jobs
       check_seek_jobs use_mock l w).1
  = map company_id_of l.
Proof.
  revert w. induction l as [|r l IH]; intros w; [reflexivity|].
  cbn [verify_rows]. unfold verify_row.
  pose proof (run_stages_keep_id _ r w (stages_keep_id use_mock r)) as Hr.
  destruct (run_stages world _ r w) as [r' w1]. simpl in Hr.
  specialize (IH w1).
  destruct (verify_rows world _ _ _ use_mock l w1) as [l' w2]. simpl in *.
  now rewrite Hr, IH.
Qed.

(** The Status Checker hands on every company with the id it came with. *)
Lemma verify_hiring_status_keeps_ids df use_mock w :
  map company_id_of
    (rows (verify_hiring_status world check_company_careers_page
             check_linkedin_jobs check_seek_jobs df use_mock w).1)
  = map company_id_of (rows df).
Proof.
  unfold verify_hiring_status.
  pose proof (verify_rows_keep_ids use_mock
                (rows (assign_all "software_dev_source" NaN
                         (assign_all "devops_source" NaN df))) w) as H.
  destruct (verify_rows world _ _ _ use_mock _ w) as [l w']. cbn [fst rows] in *.
  rewrite H. unfold company_id_of.
  now rewrite !CollectorIdFacts.assign_all_other by discriminate.
Qed.

End Monotone.

(** C5 (witness): the careers page reports a DevOps opening, LinkedIn
    and Seek report nothing; the flag set by the first block is still
    "Yes" after the whole loop body. *)
Lemma suncorp_devops_yes_stays :
  is_yes "hiring_devops"
    (run_stages unit
       (firstn 1 (stages unit reports_devops reports_nothing reports_nothing true
                    unchecked_company)
        ++ skipn 1 (stages unit reports_devops reports_nothing reports_nothing true
                      unchecked_company))
       unchecked_company tt).1 = true.
Proof.
  apply (yes_is_never_taken_back unit reports_devops reports_nothing reports_nothing
           true unchecked_company).
  - reflexivity.
  - left. reflexivity.
  - vm_compute. reflexivity.
Defined.

Example verify_row_suncorp :
  (fun r : row => (cell_at r "hiring_devops", cell_at r "hiring_developers",
                   cell_at r "actively_hiring", cell_at r "devops_source"))
    (verify_row unit reports_devops reports_nothing reports_nothing true
       unchecked_company tt).1
  = (Str "Yes", Str "No", Str "Yes", Str "suncorp.com.au/careers").
Proof. vm_compute. reflexivity. Qed.

End StatusFacts.

(** ** Consolidator: the join of companies and contacts *)

Module JoinFacts.
Import Pandas.

Lemma suffix_x_is_not_company_id c : c +:+ "_x" <> "company_id".
Proof.
  do 11 (destruct c as [|? c]; [discriminate|]).
  simpl. discriminate.
Qed.

Lemma suffix_y_is_not_company_id c : c +:+ "_y" <> "company_id".
Proof.
  do 11 (destruct c as [|? c]; [discriminate|]).
  simpl. discriminate.
Qed.

Local Abbreviation key := "company_id".

Lemma suffixed_x_key other c : suffixed "_x" key other c = key -> c = key.
Proof.
  unfold suffixed. destruct (overlaps key other c); [|auto].
  intros H. now apply suffix_x_is_not_company_id in H.
Qed.

Lemma suffixed_y_key other c : suffixed "_y" key other c = key -> c = key.
Proof.
  unfold suffixed. destruct (overlaps key other c); [|auto].
  intros H. now apply suffix_y_is_not_company_id in H.
Qed.

Lemma suffixed_key sfx other : suffixed sfx key other key = key.
Proof. reflexivity. Qed.

(** A merged row carries the company id of its left row. *)
Lemma merged_row_key lcols rcols l m :
  key ∈ lcols -> cell_at (merged_row key lcols rcols l m) key = cell_at l key.
Proof.
  intros Hk. unfold cell_at at 1, merged_row.
  rewrite (elem_of_list_to_map_1' _ _ (cell_at l key)); [reflexivity| |].
  - intros y Hy. apply elem_of_app in Hy as [Hy|Hy].
    + apply list_elem_of_fmap in Hy as (c & Heq & _).
      injection Heq as Hc ->. symmetry in Hc.
      apply suffixed_x_key in Hc. now subst c.
    + apply list_elem_of_fmap in Hy as (c & Heq & Hc').
      injection Heq as Hc ->. symmetry in Hc.
      apply suffixed_y_key in Hc. subst c.
      unfold right_columns in Hc'. apply list_elem_of_In, filter_In in Hc' as [_ Hc'].
      now rewrite bool_decide_eq_true_2 in Hc'.
  - apply elem_of_app. left. apply list_elem_of_fmap. exists key. auto.
Qed.





Lemma merge_row_key lcols rcols right l m :
  key ∈ lcols -> In m (merge_row key lcols rcols right l) ->
  cell_at m key = cell_at l key.
Proof.
  intros Hk. unfold merge_row. destruct (matches key l right) as [|r rs].
  - intros [<- | []]. now apply merged_row_key.
  - intros Hin. apply in_map_iff in Hin as (r' & <- & _). now apply merged_row_key.
Qed.




Lemma rmap_length {A B} (f : A -> result B) l k :
  rmap f l = Returned k -> length k = length l.
Proof.
  revert k. induction l as [|a l IH]; intros k; simpl.
  - intros H. now injection H as <-.
  - destruct (f a) as [b|e]; [|discriminate]. simpl.
    destruct (rmap f l) as [bs|e]; [|discriminate]. simpl.
    intros H. injection H as <-. simpl. f_equal. now apply IH.
Qed.

Lemma assign_length c values df :
  length values = length (rows df) ->
  length (rows (assign c values df)) = length (rows df).
Proof. intros H. unfold assign. simpl. rewrite length_zip_with. lia. Qed.

Lemma select_columns_length cols df :
  length (rows (select_columns cols df)) = length (rows df).
Proof. unfold select_columns. cbn [rows]. apply length_map. Qed.

Lemma rename_length mapping df :
  length (rows (rename mapping df)) = length (rows df).
Proof. unfold rename. cbn [rows]. apply length_map. Qed.

Lemma format_last_verified_length format_date today df :
  length (rows (Consolidator.format_last_verified format_date today df))
  = length (rows df).
Proof.
  unfold Consolidator.format_last_verified.
  destruct (has_column df "Last Verified"); [|reflexivity].
  unfold Consolidator.format_dates.
  destruct (mapM _ _) as [dates|] eqn:Hdates.
  - apply length_mapM in Hdates. rewrite length_map in Hdates.
    apply assign_length. now symmetry.
  - apply assign_length. now rewrite length_map.
Qed.

Lemma sort_by_size_or_revenue_length df sorted :
  Consolidator.sort_by_size_or_revenue df = Returned sorted ->
  length (rows sorted) = length (rows df).
Proof.
  unfold Consolidator.sort_by_size_or_revenue.
  destruct (_ && _).
  { intros H. apply SortFacts.sort_values_desc_perm in H as [Hp _].
    exact (Permutation_length Hp). }
  destruct (_ && _).
  { intros H. apply SortFacts.sort_values_desc_perm in H as [Hp _].
    exact (Permutation_length Hp). }
  intros H. now injection H as <-.
Qed.

(** The final table has one report row for every row of the join: sorting,
    scoring, renaming and selecting columns neither add nor drop rows. *)
Lemma prepare_final_dataset_row_count format_date today companies_df executives_df
    final_df :
  Consolidator.prepare_final_dataset format_date today companies_df executives_df
    = Returned final_df ->
  exists cleaned merged,
    Consolidator.clean_company_names companies_df = Returned cleaned /\
    merge_left key cleaned executives_df = Returned merged /\
    length (rows final_df) = length (rows merged).
Proof.
  unfold Consolidator.prepare_final_dataset. intros H.
  apply SortFacts.rbind_returned in H as (cleaned & Hclean & H).
  apply SortFacts.rbind_returned in H as (merged & Hmerge & H).
  apply SortFacts.rbind_returned in H as (sorted & Hsort & H).
  apply SortFacts.rbind_returned in H as (quality & Hquality & H).
  exists cleaned, merged. split; [exact Hclean|]. split; [exact Hmerge|].
  apply rmap_length in Hquality.
  apply sort_by_size_or_revenue_length in Hsort.
  cbv zeta in H.
  match type of H with Returned (select_columns ?available ?df) = _ =>
    generalize dependent available; intros available_columns H
  end.
  assert (Hfinal : length (rows final_df)
                   = length (rows (assign "data_quality" quality sorted))).
  { match type of H with Returned ?t = _ =>
      assert (Ht : final_df = t) by congruence
    end.
    rewrite Ht, select_columns_length, format_last_verified_length, rename_length.
    reflexivity. }
  rewrite Hfinal, assign_length by exact Hquality. exact Hsort.
Qed.

(** The report of one company without a contact: one row, missing values
    in the contact columns, two stars. *)
Example report_of_company_without_contact :
  (fun df => (columns df,
              map (fun r : row => map (fun c => cell_at r c) (columns df)) (rows df)))
    <$> (match Consolidator.prepare_final_dataset (fun v => Some v) "2025-01-01"
                 one_company other_contacts with
         | Returned df => Some df
         | Raised _ => None
         end)
  = Some (Consolidator.columns_order,
          [[Str "Suncorp"; Str "Both"; Str "Australia"; NaN; NaN;
            Str "suncorp.com.au";
            Str "https://www.linkedin.com/company/suncorp-group";
            Str "Yes"; Str "No"; NaN; NaN; NaN; NaN; NaN;
            Str "★★☆☆☆"; Str "2025-01-01"]]).
Proof. vm_compute. reflexivity. Qed.

End JoinFacts.

(** ** Contact Finder: email shapes, placeholder and unknown candidates *)

Module ContactFacts.
Import Pandas ContactFinder.

Lemma lower_nonempty s : s <> "" -> lower s <> "".
Proof. destruct s; [congruence | discriminate]. Qed.

Lemma first_char_returns s : s <> "" -> exists c, first_char s = Returned c.
Proof. destruct s; [congruence | eauto]. Qed.

(** With a non-empty first and last name no shape raises. *)
Lemma generate_email_returns first_name last_name domain pattern :
  first_name <> "" -> last_name <> "" ->
  exists email, generate_email first_name last_name domain pattern = Returned email.
Proof.
  intros Hf Hl. unfold generate_email.
  destruct (first_char_returns _ (lower_nonempty _ Hf)) as [f ->].
  destruct (first_char_returns _ (lower_nonempty _ Hl)) as [l ->].
  repeat case_bool_decide; simpl; eauto.
Qed.

(** The address derived for a candidate does not depend on the state of
    the outside world or on what the email check answers: two runs on the
    same names, domain and pattern agree on it. *)
Lemma derive_email_independent_of_world
    (world1 world2 : Type)
    (verify1 : string -> bool -> world1 -> bool * world1)
    (verify2 : string -> bool -> world2 -> bool * world2)
    use_mock1 use_mock2 first_name last_name domain pattern w1 w2 :
  derived_address
    (derive_email world1 verify1 use_mock1 first_name last_name domain pattern w1)
  = derived_address
      (derive_email world2 verify2 use_mock2 first_name last_name domain pattern w2).
Proof.
  unfold derived_address, derive_email.
  destruct domain as [domain|]; [|reflexivity].
  destruct pattern as [pattern|]; [|reflexivity].
  destruct (negb _ && negb _); [|reflexivity].
  unfold st_bind, ask, st_ret.
  destruct (generate_email first_name last_name domain (Some pattern)) as [email|e];
    [|reflexivity].
  destruct (verify1 email use_mock1 w1), (verify2 email use_mock2 w2). reflexivity.
Qed.

Example generate_email_shapes :
  map (fun p => generate_email "Jane" "Doe" "suncorp.com.au"
                  (Some (format p "suncorp.com.au")))
      common_patterns
  = [Returned "jane.doe@suncorp.com.au"; Returned "janedoe@suncorp.com.au";
     Returned "jane_doe@suncorp.com.au"; Returned "jdoe@suncorp.com.au";
     Returned "jane.d@suncorp.com.au"; Returned "j.doe@suncorp.com.au"].
Proof. vm_compute. reflexivity. Qed.

Example generate_email_empty_first_name :
  generate_email "" "Doe" "suncorp.com.au" (Some "flast@suncorp.com.au")
  = Raised IndexError.
Proof. vm_compute. reflexivity. Qed.

Section Enrich.
Variable world : Type.
Variable find_linkedin_executives :
  cell -> cell -> bool -> world -> list executive * world.
Variable find_company_executives :
  cell -> cell -> bool -> world -> list executive * world.
Variable random_index : nat -> world -> nat * world.
Variable verify_email_exists : string -> bool -> world -> bool * world.
Variable find_phone_number : string -> cell -> bool -> world -> option string * world.

Local Abbreviation gather :=
  (gather_executives world find_linkedin_executives find_company_executives).
Local Abbreviation enrich :=
  (enrich_company world find_linkedin_executives find_company_executives
     random_index verify_email_exists find_phone_number).
Local Abbreviation process :=
  (process_executive world verify_email_exists find_phone_number).

Lemma derive_email_returns use_mock first_name last_name domain pattern w :
  first_name <> "" -> last_name <> "" ->
  exists derived w',
    derive_email world verify_email_exists use_mock first_name last_name
      domain pattern w = (Returned derived, w').
Proof.
  intros Hf Hl. unfold derive_email.
  destruct domain as [domain|]; [|unfold st_ret; eauto].
  destruct pattern as [pattern|]; [|unfold st_ret; eauto].
  destruct (negb _ && negb _); [|unfold st_ret; eauto].
  destruct (generate_email_returns first_name last_name domain (Some pattern) Hf Hl)
    as [email Hemail].
  unfold st_bind, ask, st_ret. rewrite Hemail.
  destruct (verify_email_exists email use_mock w) as [ok w']. eauto.
Qed.

(** The placeholder always gets a contact row. *)
Lemma process_placeholder use_mock company_id company_name domain pattern w :
  exists email phone status w',
    process use_mock company_id company_name domain pattern placeholder w
    = (Returned [contact_row company_id placeholder email phone status], w').
Proof.
  unfold process_executive.
  change (bool_decide (name placeholder = "Unknown")) with false.
  change (split_ws (name placeholder)) with ["Technology"; "Decision"; "Maker"].
  cbn [length Nat.leb List.hd List.last].
  destruct (derive_email_returns use_mock "Technology" "Maker" domain pattern w)
    as ([email status] & w1 & Hd); [discriminate..|].
  unfold st_bind at 1. rewrite Hd. unfold st_bind, ask, st_ret.
  destruct (find_phone_number _ _ _ w1) as [phone w2]. simpl. eauto 6.
Qed.

(** A candidate called "Unknown" gets no contact row. *)
Lemma process_unknown use_mock company_id company_name domain pattern e w :
  name e = "Unknown" ->
  process use_mock company_id company_name domain pattern e w = (Returned [], w).
Proof.
  intros He. unfold process_executive.
  now rewrite bool_decide_eq_true_2 by exact He.
Qed.

(** The email pattern step of [enrich_company] never raises. *)
Lemma pattern_step_returns (domain : option string) w :
  exists p w',
    (match domain with
     | Some d =>
         if negb (bool_decide (d = ""))
         then st_bind world (discover_email_pattern world random_index d)
                (fun p => st_ret world (Some p))
         else st_ret world None
     | None => st_ret world None
     end) w = (Returned p, w').
Proof.
  destruct domain as [d|]; [|unfold st_ret; eauto].
  destruct (negb _); [|unfold st_ret; eauto].
  unfold discover_email_pattern, st_bind, ask, st_ret.
  destruct (random_index _ w) as [i w']. eauto.
Qed.

(** C7: when both finders together give no candidate the company gets
    exactly one contact row, the placeholder "Technology Decision Maker"
    with the title "CTO or equivalent"; when the only candidate is called
    "Unknown" the company gets no contact row. *)
Theorem placeholder_or_nothing use_mock (r : row) w all_execs w1 :
  gather use_mock r w = (all_execs, w1) ->
  (all_execs = [] ->
   exists contact w2,
     enrich use_mock r w = (Returned [contact], w2) /\
     contact !! "executive_name" = Some (Str "Technology Decision Maker") /\
     contact !! "executive_title" = Some (Str "CTO or equivalent") /\
     contact !! "source" = Some (Str "Placeholder - requires manual research") /\
     contact !! "company_id" = Some (cell_at r "company_id")) /\
  (forall e, all_execs = [e] -> name e = "Unknown" ->
   exists w2, enrich use_mock r w = (Returned [], w2)).
Proof.
  intros Hg. split.
  - intros ->. unfold enrich_company, st_bind at 1, ask. rewrite Hg.
    cbn [with_placeholder].
    set (domain := if truthy _ then _ else _).
    destruct (pattern_step_returns domain w1) as (p & w2 & Hp).
    unfold st_bind at 1. rewrite Hp.
    cbn [process_executives].
    destruct (process_placeholder use_mock (cell_at r "company_id")
                (cell_at r "company_name") domain p w2)
      as (email & phone & status & w3 & Hrow).
    unfold st_bind at 1. rewrite Hrow. unfold st_bind, st_ret. simpl.
    eexists _, _. split; [reflexivity|].
    unfold contact_row. repeat split; reflexivity.
  - intros e -> He. unfold enrich_company, st_bind at 1, ask. rewrite Hg.
    cbn [with_placeholder].
    set (domain := if truthy _ then _ else _).
    destruct (pattern_step_returns domain w1) as (p & w2 & Hp).
    unfold st_bind at 1. rewrite Hp.
    cbn [process_executives]. unfold st_bind at 1.
    rewrite process_unknown by exact He.
    unfold st_bind, st_ret. simpl. eauto.
Qed.

End Enrich.

(** C7 (witness): a company for which nobody is found gets the
    placeholder row, a company whose only find is "Unknown" gets none. *)
Lemma nobody_found_or_unknown_found :
  (exists contact w2,
     enrich_company unit finds_nobody finds_nobody first_choice always_verified
       no_phone true unchecked_company tt = (Returned [contact], w2) /\
     contact !! "executive_name" = Some (Str "Technology Decision Maker") /\
     contact !! "executive_title" = Some (Str "CTO or equivalent")) /\
  (exists w2,
     enrich_company unit finds_unknown finds_nobody first_choice always_verified
       no_phone true unchecked_company tt = (Returned [], w2)).
Proof.
  split.
  - destruct (placeholder_or_nothing unit finds_nobody finds_nobody first_choice
                always_verified no_phone true unchecked_company tt [] tt)
      as [Hempty _]; [reflexivity|].
    destruct (Hempty eq_refl) as (contact & w2 & Hret & Hname & Htitle & _).
    exists contact, w2. auto.
  - destruct (placeholder_or_nothing unit finds_unknown finds_nobody first_choice
                always_verified no_phone true unchecked_company tt
                (finds_unknown NaN NaN true tt).1 tt)
      as [_ Hunknown]; [reflexivity|].
    apply (Hunknown _ eq_refl). reflexivity.
Defined.

Example enrich_company_placeholder_row :
  (fun out => map (fun r : row => (cell_at r "executive_name",
                                   cell_at r "executive_title", cell_at r "email"))
                  <$> (match out.1 with Returned l => Some l | Raised _ => None end))
    (enrich_company unit finds_nobody finds_nobody first_choice always_verified
       no_phone true unchecked_company tt)
  = Some [(Str "Technology Decision Maker", Str "CTO or equivalent",
           Str "technology.maker@suncorp.com.au")].
Proof. vm_compute. reflexivity. Qed.

End ContactFacts.

(** ** Contact Finder: the pre-filter *)

Module PrefilterFacts.
Import Pandas ContactFinder SortFacts.

Lemma sort_by_size_or_revenue_perm df sorted :
  sort_by_size_or_revenue df = Returned sorted ->
  rows sorted ≡ₚ rows df /\ columns sorted = columns df.
Proof.
  unfold sort_by_size_or_revenue.
  destruct (_ && _); [apply sort_values_desc_perm|].
  destruct (_ && _); [apply sort_values_desc_perm|].
  intros H. now injection H as <-.
Qed.

Lemma length_firstn_le {A} n (l : list A) : (length (firstn n l) <= n)%nat.
Proof. rewrite length_firstn. lia. Qed.

(** C10: on a table with the three flag columns the pre-filter returns
    all qualifying rows when they are fewer than 100, and the first 100 of
    the sorted qualifying rows otherwise (when the sort does not raise);
    whatever it returns has at most 100 rows, all of them qualifying rows
    of the input. *)
Theorem prefilter_returns_qualifying_rows (df : DataFrame) :
  "actively_hiring" ∈ columns df ->
  "hiring_devops" ∈ columns df ->
  "hiring_developers" ∈ columns df ->
  ((length (hiring_rows df) < 100)%nat ->
   exists trace,
     filter_actively_hiring_companies df
     = (trace, Returned (mkDataFrame (columns df) (hiring_rows df)))) /\
  ((100 <= length (hiring_rows df))%nat ->
   forall sorted,
     sort_by_size_or_revenue (mkDataFrame (columns df) (hiring_rows df))
       = Returned sorted ->
     filter_actively_hiring_companies df = ([], Returned (head 100 sorted)) /\
     length (rows (head 100 sorted)) = 100%nat) /\
  (forall trace out,
     filter_actively_hiring_companies df = (trace, Returned out) ->
     (length (rows out) <= 100)%nat /\
     Forall (fun r => qualifies r = true) (rows out) /\
     (forall r, In r (rows out) -> In r (rows df)) /\
     ((length (hiring_rows df) < 100)%nat -> rows out = hiring_rows df)).
Proof.
  intros H1 H2 H3.
  assert (Hunfold : filter_actively_hiring_companies df
    = let hiring_df := mkDataFrame (columns df) (hiring_rows df) in
      if (length (rows hiring_df) <? 100)%nat then
        emit (Printed ("Warning: Only " +:+ pretty (length (rows hiring_df))
                       +:+ " companies are actively hiring. Using all available companies.")) ;;;
        io_ret hiring_df
      else
        hiring_df <-- lift (sort_by_size_or_revenue hiring_df) ;;
        io_ret (head 100 hiring_df)).
  { unfold filter_actively_hiring_companies, has_column.
    now rewrite !bool_decide_eq_true_2 by assumption. }
  rewrite Hunfold. clear Hunfold. cbn zeta. simpl rows.
  assert (Hq : Forall (fun r => qualifies r = true) (hiring_rows df)).
  { rewrite List.Forall_forall. intros r Hr. now apply filter_In in Hr. }
  assert (Hin : forall r, In r (hiring_rows df) -> In r (rows df)).
  { intros r Hr. now apply filter_In in Hr. }
  split; [|split].
  - intros Hlt. apply Nat.ltb_lt in Hlt. rewrite Hlt. simpl. eauto.
  - intros Hge sorted Hsorted.
    rewrite (proj2 (Nat.ltb_ge _ _) Hge). unfold lift, io_bind, io_ret.
    rewrite Hsorted. simpl. split; [reflexivity|].
    apply sort_by_size_or_revenue_perm in Hsorted as [Hperm _]. simpl in Hperm.
    rewrite length_firstn, (Permutation_length Hperm). lia.
  - intros trace out.
    destruct (length (hiring_rows df) <? 100)%nat eqn:Hlt.
    + simpl. intros H. injection H as _ <-. simpl.
      apply Nat.ltb_lt in Hlt. repeat split; auto; lia.
    + unfold lift, io_bind, io_ret.
      destruct (sort_by_size_or_revenue _) as [sorted|e] eqn:Hsorted; [|discriminate].
      intros H. injection H as _ <-. simpl.
      apply sort_by_size_or_revenue_perm in Hsorted as [Hperm _]. simpl in Hperm.
      apply Nat.ltb_ge in Hlt.
      split; [apply length_firstn_le|]. split; [|split].
      * apply Forall_take. now rewrite Hperm.
      * intros r Hr. apply TopTenFacts.In_firstn in Hr.
        apply Hin. now apply (Permutation_in _ Hperm).
      * lia.
Qed.

(** C10 (witness): three checked companies, two of which qualify. *)
Lemma three_checked_prefilter :
  exists trace out,
    filter_actively_hiring_companies three_checked = (trace, Returned out) /\
    rows out = hiring_rows three_checked /\
    map company_id_of (rows out) = [Int 1; Int 3] /\
    (length (rows out) <= 100)%nat /\
    Forall (fun r => qualifies r = true) (rows out).
Proof.
  destruct (prefilter_returns_qualifying_rows three_checked)
    as (Hfew & _ & Hany).
  - apply (bool_decide_unpack _). vm_compute. exact I.
  - apply (bool_decide_unpack _). vm_compute. exact I.
  - apply (bool_decide_unpack _). vm_compute. exact I.
  - destruct Hfew as [trace Hret]; [vm_compute; lia|].
    destruct (Hany _ _ Hret) as (Hlen & Hq & _ & _).
    exists trace, (mkDataFrame (columns three_checked) (hiring_rows three_checked)).
    split; [exact Hret|]. split; [reflexivity|].
    split; [vm_compute; reflexivity|]. split; assumption.
Defined.

End PrefilterFacts.

(** ** Collector: company ids *)

Module CollectorFacts.
Import Pandas Collector CollectorIdFacts.

Lemma dedup_by_ids {A} (key idf : A -> cell) l seen start :
  map idf l = map int_cell (seq start (length l)) ->
  map idf (dedup_by key seen l)
  = map int_cell (first_occurrences seen start (map key l)).
Proof.
  revert seen start. induction l as [|x l IH]; intros seen start Hids; [reflexivity|].
  simpl in Hids. injection Hids as Hx Hids. simpl.
  destruct (bool_decide (key x ∈ seen)); simpl; [|rewrite Hx; f_equal]; now apply IH.
Qed.

Lemma dedup_by_keys {A} (key : A -> cell) l seen :
  map key (dedup_by key seen l) = dedup_by (fun k => k) seen (map key l).
Proof.
  revert seen. induction l as [|x l IH]; intros seen; [reflexivity|]. simpl.
  destruct (bool_decide (key x ∈ seen)); simpl; [|f_equal]; apply IH.
Qed.

Lemma dedup_by_fresh {K} `{EqDecision K} (l seen : list K) :
  NoDup (dedup_by (fun k => k) seen l) /\
  forall k, k ∈ dedup_by (fun k => k) seen l -> (k ∉ seen) /\ (k ∈ l).
Proof.
  revert seen. induction l as [|x l IH]; intros seen; simpl.
  - split; [constructor|]. intros k Hk. now apply elem_of_nil in Hk.
  - case_bool_decide as Hx.
    + destruct (IH seen) as [Hnd Hin]. split; [exact Hnd|].
      intros k Hk. destruct (Hin k Hk). split; [assumption|]. now right.
    + destruct (IH (x :: seen)) as [Hnd Hin]. split.
      * constructor; [|exact Hnd]. intros Hk. apply Hin in Hk as [Hk _].
        apply Hk. left.
      * intros k Hk. apply elem_of_cons in Hk as [->|Hk].
        -- split; [exact Hx | left].
        -- destruct (Hin k Hk) as [Hs Hl]. split; [|now right].
           intros Hs'. apply Hs. now right.
Qed.

Lemma first_occurrences_bounds seen start names :
  Forall (fun i => start <= i < start + length names)%nat
         (first_occurrences seen start names).
Proof.
  revert seen start. induction names as [|n names IH]; intros seen start; simpl.
  - constructor.
  - destruct (bool_decide (n ∈ seen)).
    + eapply Forall_impl; [apply IH|]. simpl. intros; lia.
    + constructor; [lia|]. eapply Forall_impl; [apply IH|]. simpl. intros; lia.
Qed.

Lemma first_occurrences_sorted seen start names :
  StronglySorted lt (first_occurrences seen start names).
Proof.
  revert seen start. induction names as [|n names IH]; intros seen start; simpl.
  - constructor.
  - destruct (bool_decide (n ∈ seen)); [apply IH|].
    constructor; [apply IH|].
    eapply Forall_impl; [apply first_occurrences_bounds|]. simpl. intros; lia.
Qed.

(** Without a repeated name every position is a first occurrence. *)
Lemma first_occurrences_nodup seen start names :
  NoDup names -> (forall n, n ∈ names -> n ∉ seen) ->
  first_occurrences seen start names = seq start (length names).
Proof.
  revert seen start. induction names as [|n names IH]; intros seen start Hnd Hs;
    [reflexivity|].
  apply NoDup_cons in Hnd as [Hn Hnd]. simpl.
  rewrite bool_decide_eq_false_2 by (apply Hs; left).
  f_equal. apply IH; [exact Hnd|].
  intros k Hk. rewrite not_elem_of_cons. split; [|apply Hs; now right].
  intros ->. contradiction.
Qed.

Lemma assign_all_length c v df :
  length (rows (assign_all c v df)) = length (rows df).
Proof.
  unfold assign_all, assign. simpl.
  rewrite length_zip_with, length_map. lia.
Qed.

Lemma assign_all_columns_old c c' v df :
  c ∈ columns df -> c ∈ columns (assign_all c' v df).
Proof. apply TopTenFacts.assign_columns_old. Qed.

(** Adding the required columns that are missing keeps the columns that
    are there. *)
Lemma add_missing_columns_keeps c df :
  c ∈ columns df ->
  c ∈ columns (add_missing_columns df) /\
  map (fun r => cell_at r c) (rows (add_missing_columns df))
  = map (fun r => cell_at r c) (rows df).
Proof.
  unfold add_missing_columns. generalize required_columns. intros cols.
  revert df. induction cols as [|c' cols IH]; intros df Hc; [auto|].
  simpl. destruct (has_column df c') eqn:Hc'.
  - now apply IH.
  - apply bool_decide_eq_false in Hc'.
    destruct (IH (assign_all c' NaN df)) as [Hcol Hrows].
    + now apply assign_all_columns_old.
    + split; [exact Hcol|]. rewrite Hrows. apply assign_all_other.
      intros ->. contradiction.
Qed.

Lemma enrich_rows_other (f : row -> row * list event) c df :
  (forall r, cell_at (f r).1 c = cell_at r c) ->
  exists trace out,
    enrich_rows f df = (trace, Returned out) /\
    columns out = columns df /\
    map (fun r => cell_at r c) (rows out) = map (fun r => cell_at r c) (rows df).
Proof.
  intros Hf. unfold enrich_rows. eexists _, _. split; [reflexivity|].
  split; [reflexivity|]. simpl. rewrite !map_map. apply map_ext. intros r. apply Hf.
Qed.

Lemma enrich_website_row_other c r :
  c <> "company_website" -> cell_at (enrich_website_row r).1 c = cell_at r c.
Proof.
  intros Hne. unfold enrich_website_row.
  destruct (isna _); [|reflexivity].
  destruct (cell_at r "company_name"); try reflexivity.
  simpl. unfold cell_at. now rewrite lookup_insert_ne by congruence.
Qed.

Lemma enrich_linkedin_row_other c r :
  c <> "linkedin_url" -> cell_at (enrich_linkedin_row r).1 c = cell_at r c.
Proof.
  intros Hne. unfold enrich_linkedin_row.
  destruct (isna _); [|reflexivity].
  destruct (cell_at r "company_name"); try reflexivity.
  simpl. unfold cell_at. now rewrite lookup_insert_ne by congruence.
Qed.

Lemma enrich_with_company_websites_returns df :
  exists trace,
    enrich_with_company_websites df
    = (trace, Returned (mkDataFrame (columns df)
                          (map (fun r => (enrich_website_row r).1) (rows df)))).
Proof.
  unfold enrich_with_company_websites, enrich_rows, io_bind, emit.
  rewrite (map_map enrich_website_row fst). eexists. reflexivity.
Qed.

Lemma enrich_with_linkedin_returns df :
  exists trace,
    enrich_with_linkedin df
    = (trace, Returned (mkDataFrame (columns df)
                          (map (fun r => (enrich_linkedin_row r).1) (rows df)))).
Proof.
  unfold enrich_with_linkedin, enrich_rows, io_bind, emit.
  rewrite (map_map enrich_linkedin_row fst). eexists. reflexivity.
Qed.

Lemma numbered_length today companies :
  length (rows (numbered today companies)) = length companies.
Proof.
  unfold numbered. rewrite !assign_all_length. unfold assign, id_range. simpl.
  rewrite length_zip_with, !length_map, length_seq. lia.
Qed.

Lemma numbered_ids today companies :
  map company_id_of (rows (numbered today companies))
  = map int_cell (seq 1 (length companies)).
Proof.
  unfold numbered, company_id_of.
  rewrite !assign_all_other by discriminate.
  unfold assign, id_range. simpl.
  rewrite zip_with_insert_column by now rewrite !length_map, length_seq.
  now rewrite length_map.
Qed.

Lemma numbered_names today companies :
  map raw_name_of (rows (numbered today companies))
  = map raw_name_of (rows (frame_of_dicts companies)).
Proof.
  unfold numbered, raw_name_of.
  rewrite !assign_all_other by discriminate.
  unfold assign. apply zip_with_insert_other; [discriminate|].
  unfold id_range. now rewrite length_map, length_seq.
Qed.

Lemma numbered_columns today companies c :
  c ∈ columns (frame_of_dicts companies) -> c ∈ columns (numbered today companies).
Proof.
  intros Hc. unfold numbered.
  do 4 apply assign_all_columns_old. now apply TopTenFacts.assign_columns_old.
Qed.

Lemma numbered_has_id today companies :
  "company_id" ∈ columns (numbered today companies).
Proof.
  unfold numbered. do 4 apply assign_all_columns_old.
  apply TopTenFacts.assign_columns_new.
Qed.

(** The Collector returns a table whenever some company dict has a name;
    apart from the two address columns it is the numbered table without
    its duplicates. *)
Lemma collect_returns today companies :
  "company_name" ∈ columns (frame_of_dicts companies) ->
  exists trace df,
    collect today companies = (trace, Returned df) /\
    forall c, c ∈ columns (numbered today companies) ->
              c <> "company_website" -> c <> "linkedin_url" ->
      map (fun r => cell_at r c) (rows df)
      = map (fun r => cell_at r c)
          (dedup_by raw_name_of [] (rows (numbered today companies))).
Proof.
  intros Hname. unfold collect. fold (numbered today companies).
  rewrite SortFacts.drop_duplicates_with_column by now apply numbered_columns.
  unfold lift, io_bind at 1.
  set (deduped := mkDataFrame _ (dedup_by _ [] _)).
  set (full := add_missing_columns deduped).
  assert (Hfull : forall c, c ∈ columns (numbered today companies) ->
            map (fun r => cell_at r c) (rows full)
            = map (fun r => cell_at r c)
                (dedup_by raw_name_of [] (rows (numbered today companies)))).
  { intros c Hc. now apply (add_missing_columns_keeps c deduped). }
  assert (Hweb : exists t1 web,
            (if has_column full "company_website"
             then enrich_with_company_websites full else io_ret full)
            = (t1, Returned web) /\
            forall c, c <> "company_website" ->
              map (fun r => cell_at r c) (rows web)
              = map (fun r => cell_at r c) (rows full)).
  { destruct (has_column full "company_website").
    - destruct (enrich_with_company_websites_returns full) as [t1 ->].
      eexists _, _. split; [reflexivity|]. intros c Hc. cbn [rows].
      rewrite map_map. apply map_ext. intros r.
      now apply enrich_website_row_other.
    - eexists _, _. split; [reflexivity|]. reflexivity. }
  destruct Hweb as (t1 & web & -> & Hweb).
  assert (Hlk : exists t2 lk,
            (if has_column web "linkedin_url"
             then enrich_with_linkedin web else io_ret web)
            = (t2, Returned lk) /\
            forall c, c <> "linkedin_url" ->
              map (fun r => cell_at r c) (rows lk)
              = map (fun r => cell_at r c) (rows web)).
  { destruct (has_column web "linkedin_url").
    - destruct (enrich_with_linkedin_returns web) as [t2 ->].
      eexists _, _. split; [reflexivity|]. intros c Hc. cbn [rows].
      rewrite map_map. apply map_ext. intros r.
      now apply enrich_linkedin_row_other.
    - eexists _, _. split; [reflexivity|]. reflexivity. }
  destruct Hlk as (t2 & lk & Hlk & Hlk').
  unfold io_bind. rewrite Hlk. eexists _, _. split; [reflexivity|].
  intros c Hc Hw Hl. rewrite Hlk', Hweb by assumption. now apply Hfull.
Qed.

Lemma frame_of_dicts_length companies :
  length (rows (frame_of_dicts companies)) = length companies.
Proof. unfold frame_of_dicts. simpl. now rewrite length_map. Qed.

Lemma int_cell_inj : Inj eq eq int_cell.
Proof. intros i j H. injection H. lia. Qed.

Lemma sorted_lt_nodup l : StronglySorted lt l -> NoDup l.
Proof.
  induction 1 as [|x l Hl IH Hx]; constructor; [|exact IH].
  intros Hin. rewrite List.Forall_forall in Hx.
  apply list_elem_of_In, Hx in Hin. lia.
Qed.

(** C1 as amended: the Collector numbers the merged catalog 1..M before it
    drops duplicate names, so the ids of its table are the positions, from
    1, of the first occurrences of the names: increasing, between 1 and M,
    pairwise distinct, one per distinct name, and equal to 1..N when no
    name repeats; the Status Checker hands every id on unchanged. *)
Theorem collector_ids_are_first_occurrence_positions
    (today : string) (companies : list (list (string * cell))) :
  "company_name" ∈ columns (frame_of_dicts companies) ->
  exists trace df,
    collect today companies = (trace, Returned df) /\
    map company_id_of (rows df)
    = map int_cell
        (first_occurrences [] 1 (map raw_name_of (rows (frame_of_dicts companies)))) /\
    StronglySorted lt
      (first_occurrences [] 1 (map raw_name_of (rows (frame_of_dicts companies)))) /\
    Forall (fun i => 1 <= i <= length companies)%nat
      (first_occurrences [] 1 (map raw_name_of (rows (frame_of_dicts companies)))) /\
    NoDup (map company_id_of (rows df)) /\
    NoDup (map raw_name_of (rows df)) /\
    (NoDup (map raw_name_of (rows (frame_of_dicts companies))) ->
     map company_id_of (rows df) = id_range (length (rows df))) /\
    (forall (world : Type)
            (careers linkedin seek :
               cell -> cell -> bool -> world -> StatusChecker.check_result * world)
            use_mock w,
       map company_id_of
         (rows (StatusChecker.verify_hiring_status world careers linkedin seek
                  df use_mock w).1)
       = map company_id_of (rows df)).
Proof.
  intros Hname.
  destruct (collect_returns today companies Hname) as (trace & df & Hret & Hcols).
  exists trace, df. split; [exact Hret|].
  set (names := map raw_name_of (rows (frame_of_dicts companies))).
  assert (Hids : map company_id_of (rows df)
                 = map int_cell (first_occurrences [] 1 names)).
  { unfold company_id_of. rewrite Hcols; [|apply numbered_has_id|discriminate..].
    unfold names. rewrite <- (numbered_names today).
    apply (dedup_by_ids raw_name_of company_id_of).
    now rewrite numbered_ids, numbered_length. }
  assert (Hnames : map raw_name_of (rows df) = dedup_by (fun k => k) [] names).
  { unfold raw_name_of at 1.
    rewrite Hcols; [|now apply numbered_columns|discriminate..].
    unfold names. rewrite <- (numbered_names today).
    apply (dedup_by_keys raw_name_of). }
  assert (Hsorted : StronglySorted lt (first_occurrences [] 1 names))
    by apply first_occurrences_sorted.
  split; [exact Hids|]. split; [exact Hsorted|]. split; [|split; [|split; [|split]]].
  - eapply Forall_impl; [apply first_occurrences_bounds|].
    simpl. intros i Hi. unfold names in Hi.
    rewrite length_map, frame_of_dicts_length in Hi. lia.
  - rewrite Hids. apply (NoDup_fmap_2 int_cell (Inj0:=int_cell_inj)).
    now apply sorted_lt_nodup.
  - rewrite Hnames. apply dedup_by_fresh.
  - intros Hnd. rewrite Hids.
    rewrite first_occurrences_nodup; [|exact Hnd|intros n _; apply not_elem_of_nil].
    assert (Hlen : length (rows df) = length names).
    { rewrite <- (length_map company_id_of), Hids.
      rewrite first_occurrences_nodup;
        [|exact Hnd|intros n _; apply not_elem_of_nil].
      now rewrite length_map, length_seq. }
    rewrite Hlen. reflexivity.
  - intros. apply StatusFacts.verify_hiring_status_keeps_ids.
Qed.

(** C1 (witness): the amended statement on the static catalog. *)
Lemma catalog_ids_are_first_occurrence_positions :
  exists trace df,
    collect "2025-01-01" all_companies = (trace, Returned df) /\
    map company_id_of (rows df)
    = map int_cell
        (first_occurrences [] 1
           (map raw_name_of (rows (frame_of_dicts all_companies)))) /\
    NoDup (map company_id_of (rows df)) /\
    NoDup (map raw_name_of (rows df)).
Proof.
  destruct (collector_ids_are_first_occurrence_positions "2025-01-01" all_companies)
    as (trace & df & Hret & Hids & _ & _ & Hnd & Hnames & _).
  - apply (bool_decide_unpack _). vm_compute. exact I.
  - exists trace, df. auto.
Defined.

(** C1 (counterexample): on the static catalog the Collector returns 74
    companies whose ids are not 1..74; the id 13, that of a dropped
    duplicate, is missing and the ids run up to 85. *)
Lemma catalog_ids_are_not_contiguous :
  exists ids,
    collected_ids "2025-01-01" all_companies = Some ids /\
    length ids = 74%nat /\
    ids <> id_range (length ids) /\
    ~ In (Int 13) ids /\
    In (Int 85) ids.
Proof.
  eexists. split; [vm_compute; reflexivity|].
  split; [reflexivity|].
  split; [vm_compute; discriminate|].
  split.
  - intros Hin. repeat (destruct Hin as [Hin|Hin]; [discriminate|]). exact Hin.
  - do 73 right. left. reflexivity.
Qed.

End CollectorFacts.

(** ** Consolidator: the exception handler of main *)

Module MainFacts.
Import Pandas Consolidator.

Section Handler.
Variable python_float : string -> option pyfloat.
Variable format_date : cell -> option cell.
Variable today : string.
Variable read_excel : string -> result DataFrame.
Variable create_summary_data : DataFrame -> result DataFrame.
Variable create_methodology_content : list string.
Variable create_sources_content : DataFrame.
Variable save_workbook : string -> Workbook -> result unit.

Local Abbreviation the_main :=
  (main python_float format_date today read_excel create_summary_data
     create_methodology_content create_sources_content save_workbook).

(** C8 as amended: when the tables load and the construction of the
    final table raises an exception, main catches it, prints the error
    line and the stack trace, and ends normally; these prints are all
    that happens after the start message, no file is written. *)
Theorem construction_failure_is_printed (companies_df executives_df : DataFrame)
    (e : exn) :
  read_excel "data/processed/top_hiring_companies.xlsx" = Returned companies_df ->
  read_excel "data/processed/executives_contacts.xlsx" = Returned executives_df ->
  prepare_final_dataset format_date today companies_df executives_df = Raised e ->
  is_exception e = true ->
  the_main
  = ([Printed "Starting data consolidation process...";
      Printed ("Error in data consolidation: " +:+ exn_str e);
      TracebackPrinted e],
     Finished) /\
  Forall (fun ev => is_file_write ev = false) the_main.1.
Proof.
  intros Hc He Hraise Hexn.
  assert (Hmain : the_main
    = ([Printed "Starting data consolidation process...";
        Printed ("Error in data consolidation: " +:+ exn_str e);
        TracebackPrinted e], Finished)).
  { unfold main, consolidate, load_data. rewrite Hc, He.
    unfold io_bind, io_ret, emit, lift. cbn [fst snd]. rewrite Hraise.
    destruct e; try discriminate; reflexivity. }
  split; [exact Hmain|]. rewrite Hmain. repeat constructor.
Qed.

End Handler.

(** C8 (witness): the amended statement on a contacts table without the
    company id column, where the join raises KeyError. *)
Lemma broken_contacts_failure_is_printed :
  main (fun _ => None) (fun _ => None) "2025-01-01" read_broken_contacts
       (fun df => Returned df) [] one_company (fun _ _ => Returned tt)
  = ([Printed "Starting data consolidation process...";
      Printed "Error in data consolidation: 'company_id'";
      TracebackPrinted (KeyError "company_id")],
     Finished) /\
  Forall (fun ev => is_file_write ev = false)
    (main (fun _ => None) (fun _ => None) "2025-01-01" read_broken_contacts
          (fun df => Returned df) [] one_company (fun _ _ => Returned tt)).1.
Proof.
  apply (construction_failure_is_printed (fun _ => None) (fun _ => None)
           "2025-01-01" read_broken_contacts (fun df => Returned df) [] one_company
           (fun _ _ => Returned tt) one_company contacts_without_id
           (KeyError "company_id")).
  - reflexivity.
  - reflexivity.
  - vm_compute. reflexivity.
  - reflexivity.
Defined.

(** C8 (counterexample): in that run the construction of the final table
    raises, and nothing is written to a log file. *)
Lemma no_log_file_on_broken_contacts :
  prepare_final_dataset (fun _ => None) "2025-01-01" one_company contacts_without_id
    = Raised (KeyError "company_id") /\
  ~ exists path mode content,
      In (FileWritten path mode content)
        (main (fun _ => None) (fun _ => None) "2025-01-01" read_broken_contacts
              (fun df => Returned df) [] one_company (fun _ _ => Returned tt)).1.
Proof.
  split; [vm_compute; reflexivity|].
  intros (path & mode & content & Hin). vm_compute in Hin.
  repeat (destruct Hin as [Hin|Hin]; [discriminate|]). exact Hin.
Qed.

End MainFacts.


(** ** Status Checker: what a checked company looks like *)

Module StatusMoreFacts.
Import Pandas StatusChecker StatusFacts.

Lemma is_yes_cell c r : is_yes c r = true <-> cell_at r c = Str "Yes".
Proof.
  unfold is_yes, cell_is. destruct (cell_at r c) as [|s|z]; try (split; discriminate).
  rewrite bool_decide_eq_true. split; congruence.
Qed.

Lemma cell_at_insert_eq c v (r : row) : cell_at (<[c := v]> r) c = v.
Proof. unfold cell_at. now rewrite lookup_insert_eq. Qed.

Lemma cell_at_insert_ne c c' v (r : row) :
  c <> c' -> cell_at (<[c' := v]> r) c = cell_at r c.
Proof. intros Hne. unfold cell_at. now rewrite lookup_insert_ne. Qed.

(** After the fill-in a role flag is "Yes" or "No". *)
Lemma mark_no_settles c r :
  role_flag c -> cell_at (mark_no r) c = Str "Yes" \/ cell_at (mark_no r) c = Str "No".
Proof.
  intros [-> | ->]; unfold mark_no.
  - destruct (is_yes "hiring_devops" r) eqn:Hd; simpl.
    + left. destruct (negb _); rewrite ?cell_at_insert_ne by discriminate;
        now apply is_yes_cell.
    + right. rewrite is_yes_insert_other by discriminate.
      destruct (negb _); rewrite ?cell_at_insert_ne by discriminate;
        apply cell_at_insert_eq.
  - destruct (negb (is_yes "hiring_devops" r)); simpl;
      rewrite ?is_yes_insert_other by discriminate;
      (destruct (is_yes "hiring_developers" r) eqn:Hs; simpl;
       [left; rewrite ?cell_at_insert_ne by discriminate; now apply is_yes_cell
       |right; apply cell_at_insert_eq]).
Qed.

Lemma set_actively_hiring_flag c r :
  role_flag c -> cell_at (set_actively_hiring r) c = cell_at r c.
Proof.
  intros Hc. unfold set_actively_hiring.
  destruct (_ || _); destruct Hc as [-> | ->]; now rewrite cell_at_insert_ne.
Qed.

Lemma set_actively_hiring_overall r :
  cell_at (set_actively_hiring r) "actively_hiring"
  = if is_yes "hiring_devops" r || is_yes "hiring_developers" r
    then Str "Yes" else Str "No".
Proof.
  unfold set_actively_hiring. destruct (_ || _); apply cell_at_insert_eq.
Qed.

Lemma is_yes_set_actively_hiring c r :
  role_flag c -> is_yes c (set_actively_hiring r) = is_yes c r.
Proof. intros Hc. unfold is_yes. now rewrite set_actively_hiring_flag. Qed.

Section Checked.
Variable world : Type.
Variable check_company_careers_page :
  cell -> cell -> bool -> world -> check_result * world.
Variable check_linkedin_jobs :
  cell -> cell -> bool -> world -> check_result * world.
Variable check_seek_jobs :
  cell -> cell -> bool -> world -> check_result * world.

Local Abbreviation verify :=
  (verify_row world check_company_careers_page check_linkedin_jobs check_seek_jobs).
Local Abbreviation the_stages :=
  (stages world check_company_careers_page check_linkedin_jobs check_seek_jobs).

(** The loop body ends with the fill-in and the overall flag. *)
Lemma verify_row_ends_with_fill_in use_mock r w :
  exists r3,
    (verify use_mock r w).1 = set_actively_hiring (mark_no r3) /\
    (verify use_mock r w).2
    = (run_stages world (firstn 3 (the_stages use_mock r)) r w).2.
Proof.
  unfold verify_row.
  change (the_stages use_mock r)
    with (firstn 3 (the_stages use_mock r) ++ skipn 3 (the_stages use_mock r)).
  rewrite run_stages_app.
  destruct (run_stages world (firstn 3 _) r w) as [r3 w3].
  exists r3. split; reflexivity.
Qed.

(** X1: after the loop body of [verify_hiring_status] each role flag of the
    company is "Yes" or "No", never "Unknown" or missing, and the overall
    flag is "Yes" exactly when one of the two role flags is. *)
Theorem verify_row_settles_flags use_mock (r : row) (w : world) :
  (cell_at (verify use_mock r w).1 "hiring_devops" = Str "Yes" \/
   cell_at (verify use_mock r w).1 "hiring_devops" = Str "No") /\
  (cell_at (verify use_mock r w).1 "hiring_developers" = Str "Yes" \/
   cell_at (verify use_mock r w).1 "hiring_developers" = Str "No") /\
  cell_at (verify use_mock r w).1 "actively_hiring"
  = (if is_yes "hiring_devops" (verify use_mock r w).1
        || is_yes "hiring_developers" (verify use_mock r w).1
     then Str "Yes" else Str "No").
Proof.
  destruct (verify_row_ends_with_fill_in use_mock r w) as (r3 & -> & _).
  rewrite !set_actively_hiring_flag by (unfold role_flag; auto).
  rewrite !is_yes_set_actively_hiring by (unfold role_flag; auto).
  split; [apply mark_no_settles; now left|].
  split; [apply mark_no_settles; now right|].
  apply set_actively_hiring_overall.
Qed.

(** X2: a company that went through the loop body passes the Contact
    Finder's pre-filter exactly when one of its role flags is "Yes"; the
    filter's test of the overall flag adds nothing. *)
Theorem verified_company_qualifies_iff_some_role use_mock (r : row) (w : world) :
  ContactFinder.qualifies (verify use_mock r w).1
  = is_yes "hiring_devops" (verify use_mock r w).1
    || is_yes "hiring_developers" (verify use_mock r w).1.
Proof.
  unfold ContactFinder.qualifies.
  destruct (verify_row_ends_with_fill_in use_mock r w) as (r3 & -> & _).
  rewrite !is_yes_set_actively_hiring by (unfold role_flag; auto).
  rewrite set_actively_hiring_overall.
  rewrite !set_actively_hiring_flag by (unfold role_flag; auto).
  fold (is_yes "hiring_devops" (mark_no r3)).
  fold (is_yes "hiring_developers" (mark_no r3)).
  destruct (is_yes "hiring_devops" (mark_no r3) || is_yes "hiring_developers" (mark_no r3));
    reflexivity.
Qed.


(** X3: when the company has a website and its careers page reports both
    roles, LinkedIn and Seek are not consulted: the outside world is left
    as the careers check left it, both flags and the overall flag are
    "Yes", and both sources are the careers page's. *)
Theorem both_roles_on_careers_page_end_the_search use_mock (r : row) (w : world)
    (res : check_result) (w1 : world) :
  truthy (cell_at r "company_website") = true ->
  check_company_careers_page (cell_at r "company_name")
    (cell_at r "company_website") use_mock w = (res, w1) ->
  has_devops res = true -> has_software_dev res = true ->
  (verify use_mock r w).2 = w1 /\
  cell_at (verify use_mock r w).1 "hiring_devops" = Str "Yes" /\
  cell_at (verify use_mock r w).1 "hiring_developers" = Str "Yes" /\
  cell_at (verify use_mock r w).1 "actively_hiring" = Str "Yes" /\
  cell_at (verify use_mock r w).1 "devops_source" = source res /\
  cell_at (verify use_mock r w).1 "software_dev_source" = source res.
Proof.
  intros Hurl Hcheck Hd Hs.
  set (r1 := record_careers res r).
  assert (Hd1 : is_yes "hiring_devops" r1 = true).
  { unfold r1, record_careers. rewrite Hd, Hs.
    rewrite !is_yes_insert_other by discriminate. apply is_yes_insert_yes. }
  assert (Hs1 : is_yes "hiring_developers" r1 = true).
  { unfold r1, record_careers. rewrite Hd, Hs.
    rewrite !is_yes_insert_other by discriminate. apply is_yes_insert_yes. }
  assert (Hrun : verify use_mock r w = (set_actively_hiring (mark_no r1), w1)).
  { assert (H1 : careers_stage world check_company_careers_page use_mock r r w
                 = (r1, w1)).
    { unfold careers_stage. now rewrite Hurl, Hcheck. }
    assert (H2 : linkedin_stage world check_linkedin_jobs use_mock r r1 w1
                 = (r1, w1)).
    { unfold linkedin_stage, undecided. now rewrite Hd1, Hs1. }
    assert (H3 : seek_stage world check_seek_jobs use_mock r r1 w1 = (r1, w1)).
    { unfold seek_stage, undecided. now rewrite Hd1, Hs1. }
    unfold verify_row, stages, run_stages. cbn [fold_left fst snd].
    rewrite H1. cbn [fst snd]. rewrite H2. cbn [fst snd]. now rewrite H3. }
  assert (Hmark : mark_no r1 = r1).
  { unfold mark_no. rewrite Hd1. cbn [negb]. now rewrite Hs1. }
  rewrite Hrun, Hmark. cbn [fst snd]. split; [reflexivity|].
  rewrite !set_actively_hiring_flag by (unfold role_flag; auto).
  rewrite set_actively_hiring_overall, Hd1.
  split; [now apply is_yes_cell|]. split; [now apply is_yes_cell|].
  split; [reflexivity|].
  unfold set_actively_hiring. rewrite Hd1. cbn [orb].
  rewrite !cell_at_insert_ne by discriminate.
  unfold r1, record_careers. rewrite Hd, Hs.
  split.
  - rewrite !cell_at_insert_ne by discriminate. apply cell_at_insert_eq.
  - apply cell_at_insert_eq.
Qed.

Lemma source_column_cases c :
  role_flag c ->
  (c = "hiring_devops" /\ source_column c = "devops_source") \/
  (c = "hiring_developers" /\ source_column c = "software_dev_source").
Proof. intros [-> | ->]; [left | right]; split; reflexivity. Qed.

Lemma record_later_keeps_source res c r :
  role_flag c -> is_yes c r = true ->
  cell_at (record_later res r) (source_column c) = cell_at r (source_column c).
Proof.
  intros Hc Hy. unfold record_later.
  destruct (source_column_cases c Hc) as [[-> ->] | [-> ->]].
  - rewrite Hy. rewrite andb_false_r.
    destruct (_ && _); now rewrite ?cell_at_insert_ne by discriminate.
  - destruct (has_devops res && negb (is_yes "hiring_devops" r)).
    + rewrite !is_yes_insert_other by discriminate. rewrite Hy, andb_false_r.
      now rewrite !cell_at_insert_ne by discriminate.
    + rewrite Hy, andb_false_r. reflexivity.
Qed.

Lemma mark_no_keeps_source c r :
  cell_at (mark_no r) (source_column c) = cell_at r (source_column c).
Proof.
  unfold mark_no, source_column.
  case_bool_decide; repeat (case_match; rewrite ?cell_at_insert_ne by discriminate);
    reflexivity.
Qed.

Lemma set_actively_hiring_keeps_source c r :
  cell_at (set_actively_hiring r) (source_column c) = cell_at r (source_column c).
Proof.
  unfold set_actively_hiring, source_column.
  case_bool_decide; repeat (case_match; rewrite ?cell_at_insert_ne by discriminate);
    reflexivity.
Qed.

Lemma later_stages_keep_source use_mock snapshot :
  Forall (keeps_source (world:=world)) (skipn 1 (the_stages use_mock snapshot)).
Proof.
  unfold stages. cbn [skipn]. repeat constructor; intros c r w Hc Hy.
  - unfold linkedin_stage. destruct (undecided r); [|reflexivity].
    destruct (check_linkedin_jobs _ _ _ _) as [res w'].
    now apply record_later_keeps_source.
  - unfold seek_stage. destruct (undecided r); [|reflexivity].
    destruct (check_seek_jobs _ _ _ _) as [res w'].
    now apply record_later_keeps_source.
  - apply mark_no_keeps_source.
  - apply set_actively_hiring_keeps_source.
Qed.

Lemma run_stages_keep_source ss c r w :
  Forall (keeps_yes (world:=world)) ss -> Forall (keeps_source (world:=world)) ss ->
  role_flag c -> is_yes c r = true ->
  cell_at (run_stages world ss r w).1 (source_column c) = cell_at r (source_column c).
Proof.
  intros Hyes Hsrc Hc. revert r w.
  induction ss as [|s ss IH]; intros r w Hy; [reflexivity|].
  apply Forall_cons in Hyes as [Hs Hyes]. apply Forall_cons in Hsrc as [Hs' Hsrc].
  change (s :: ss) with ([s] ++ ss). rewrite run_stages_app.
  rewrite IH by (try assumption; now apply Hs).
  now apply Hs'.
Qed.

(** X4: split the blocks that follow the careers-page block (LinkedIn,
    Seek, fill-in, overall flag) at any point; the recorded source of a
    role flag that is "Yes" at the split is the same after all of them, so
    the source shown is that of the first source that reported the role. *)
Theorem first_reporting_source_is_kept use_mock snapshot before after c
    (r : row) (w : world) :
  skipn 1 (the_stages use_mock snapshot) = before ++ after ->
  role_flag c ->
  is_yes c (run_stages world before r w).1 = true ->
  cell_at (run_stages world (before ++ after) r w).1 (source_column c)
  = cell_at (run_stages world before r w).1 (source_column c).
Proof.
  intros Hsplit Hc Hy. rewrite run_stages_app.
  pose proof (later_stages_keep_source use_mock snapshot) as Hsrc.
  pose proof (stages_keep_yes world check_company_careers_page check_linkedin_jobs
                check_seek_jobs use_mock snapshot) as Hyes.
  rewrite <- (firstn_skipn 1 (the_stages use_mock snapshot)) in Hyes.
  apply Forall_app in Hyes as [_ Hyes].
  rewrite Hsplit in Hsrc, Hyes.
  apply Forall_app in Hsrc as [_ Hsrc]. apply Forall_app in Hyes as [_ Hyes].
  now apply run_stages_keep_source.
Qed.

End Checked.


(** X3 (witness): Suncorp's careers page reports both roles. *)
Lemma suncorp_search_ends_at_careers_page :
  (verify_row unit reports_both reports_nothing reports_nothing true
     unchecked_company tt).2 = tt /\
  cell_at (verify_row unit reports_both reports_nothing reports_nothing true
             unchecked_company tt).1 "devops_source"
  = Str "suncorp.com.au/careers".
Proof.
  destruct (both_roles_on_careers_page_end_the_search unit reports_both
              reports_nothing reports_nothing true unchecked_company tt
              (mkCheck true true (Str "suncorp.com.au/careers")) tt)
    as (Hw & _ & _ & _ & Hsrc & _); try reflexivity.
  split; [exact Hw | exact Hsrc].
Defined.

(** X4 (witness): the careers page reports a DevOps opening, then LinkedIn
    reports one as well; the source stays the careers page. *)
Lemma suncorp_devops_source_stays :
  cell_at
    (run_stages unit
       (firstn 0 (skipn 1 (stages unit reports_devops reports_devops reports_nothing
                             true unchecked_company))
        ++ skipn 0 (skipn 1 (stages unit reports_devops reports_devops
                               reports_nothing true unchecked_company)))
       (record_careers (mkCheck true false (Str "suncorp.com.au/careers"))
          unchecked_company) tt).1
    (source_column "hiring_devops")
  = cell_at
      (run_stages unit
         (firstn 0 (skipn 1 (stages unit reports_devops reports_devops
                               reports_nothing true unchecked_company)))
         (record_careers (mkCheck true false (Str "suncorp.com.au/careers"))
            unchecked_company) tt).1
      (source_column "hiring_devops").
Proof.
  apply (first_reporting_source_is_kept unit reports_devops reports_devops
           reports_nothing true unchecked_company).
  - reflexivity.
  - left. reflexivity.
  - vm_compute. reflexivity.
Defined.

End StatusMoreFacts.


(** ** Contact Finder: addresses, domains and the contact table *)

Module ContactMoreFacts.
Import Pandas ContactFinder ContactFacts.

Lemma str_app_assoc (a b c : string) : (a +:+ b) +:+ c = a +:+ (b +:+ c).
Proof.
  induction a as [|x a IH]; [reflexivity|].
  change (String x ((a +:+ b) +:+ c) = String x (a +:+ (b +:+ c))). now f_equal.
Qed.

(** *** generate_email *)

(** With a non-empty first and last name the result is an address at the
    given domain, whatever the pattern. *)
Lemma generate_email_at_domain first_name last_name domain pattern :
  first_name <> "" -> last_name <> "" ->
  exists local,
    generate_email first_name last_name domain pattern
    = Returned (local +:+ "@" +:+ domain).
Proof.
  intros Hf Hl. unfold generate_email.
  destruct (first_char_returns _ (lower_nonempty _ Hf)) as [f ->].
  destruct (first_char_returns _ (lower_nonempty _ Hl)) as [l ->].
  set (first := lower first_name). set (last := lower last_name).
  assert (H2 : forall a b, exists local,
             Returned (a +:+ b +:+ "@" +:+ domain)
             = Returned (local +:+ "@" +:+ domain)).
  { intros a b. exists (a +:+ b). now rewrite str_app_assoc. }
  assert (H3 : forall a b c, exists local,
             Returned (a +:+ b +:+ c +:+ "@" +:+ domain)
             = Returned (local +:+ "@" +:+ domain)).
  { intros a b c. exists (a +:+ b +:+ c). now rewrite !str_app_assoc. }
  repeat case_bool_decide; cbn [rbind]; auto.
Qed.


(** *** extract_domain_from_url *)

Lemma first_piece_has_no_slash s : contains "/" (split_aux "/" 0 s).1 = false.
Proof.
  induction s as [|a s IH]; [reflexivity|].
  cbn [split_aux]. destruct (starts_with "/" (String a s)) eqn:Hs.
  - cbn [String.length Nat.sub]. destruct (split_aux "/" 0 s). reflexivity.
  - destruct (split_aux "/" 0 s) as [p ps]. cbn [fst] in *.
    cbn [contains]. rewrite IH, orb_false_r.
    cbn [starts_with] in *. now rewrite andb_true_r in *.
Qed.

Lemma drop_chars_has_no_slash n s :
  contains "/" s = false -> contains "/" (drop_chars n s) = false.
Proof.
  revert s. induction n as [|n IH]; intros s Hs; [exact Hs|].
  destruct s as [|a s]; [reflexivity|]. cbn [drop_chars]. apply IH.
  cbn [contains] in Hs. now apply orb_false_elim in Hs as [_ Hs].
Qed.

(** X6: the domain extracted from a website address never contains a
    slash, so no path and no scheme survive in it. *)
Theorem extracted_domain_has_no_slash (url : cell) (domain : string) :
  extract_domain_from_url url = Some domain -> contains "/" domain = false.
Proof.
  destruct url as [|url|]; [discriminate| |discriminate].
  unfold extract_domain_from_url.
  set (address := if starts_with "http://" url || starts_with "https://" url
                 then url else "https://" +:+ url).
  set (parsed_url := List.hd "" (split "/" (List.last (split "//" address) ""))).
  assert (Hhd : contains "/" parsed_url = false).
  { unfold parsed_url, split at 1.
    pose proof (first_piece_has_no_slash (List.last (split "//" address) "")) as Hp.
    destruct (split_aux "/" 0 _) as [p ps]. exact Hp. }
  intros Hdomain. apply (inj Some) in Hdomain. rewrite <- Hdomain.
  destruct (starts_with "www." parsed_url); [|exact Hhd].
  now apply drop_chars_has_no_slash.
Qed.

(** X6 (witness): the domain of Suncorp's careers page. *)
Lemma suncorp_domain_has_no_slash : contains "/" "suncorp.com.au" = false.
Proof.
  apply (extracted_domain_has_no_slash (Str "https://www.suncorp.com.au/careers")
           "suncorp.com.au").
  reflexivity.
Defined.

Lemma split_without_separator sep s :
  sep <> "" -> contains sep s = false -> split_aux sep 0 s = (s, []).
Proof.
  intros Hsep. induction s as [|a s IH]; intros Hs; [reflexivity|].
  cbn [contains] in Hs. apply orb_false_elim in Hs as [Hst Hs].
  cbn [split_aux]. rewrite Hst, (IH Hs). reflexivity.
Qed.

Lemma first_piece_before_slash p q :
  contains "/" p = false -> (split_aux "/" 0 (p +:+ "/" +:+ q)).1 = p.
Proof.
  induction p as [|a p IH]; intros Hp.
  - change ("" +:+ "/" +:+ q) with (String "/" q). cbn [split_aux].
    change (starts_with "/" (String "/" q)) with true. cbv iota.
    destruct (split_aux "/" _ q). reflexivity.
  - cbn [contains] in Hp. apply orb_false_elim in Hp as [Hst Hp].
    change (String a p +:+ "/" +:+ q) with (String a (p +:+ "/" +:+ q)).
    cbn [split_aux].
    assert (Hst' : starts_with "/" (String a (p +:+ "/" +:+ q)) = false).
    { cbn [starts_with] in *. exact Hst. }
    rewrite Hst'. specialize (IH Hp).
    destruct (split_aux "/" 0 (p +:+ "/" +:+ q)) as [p' ps]. cbn [fst] in *.
    now rewrite IH.
Qed.

(** X7: for a secure address with the [www.] prefix, a domain without a
    slash and a path without a double slash, the domain is recovered. *)
Theorem domain_of_secure_address (domain path : string) :
  contains "/" domain = false ->
  contains "//" (domain +:+ "/" +:+ path) = false ->
  extract_domain_from_url (Str ("https://www." +:+ domain +:+ "/" +:+ path))
  = Some domain.
Proof.
  intros Hd Hp. unfold extract_domain_from_url.
  set (rest := domain +:+ "/" +:+ path) in *.
  assert (Hsplit : split "//" ("https://www." +:+ rest) = ["https:"; "www." +:+ rest]).
  { pose proof (split_without_separator "//" rest ltac:(discriminate) Hp) as Hs.
    clearbody rest. unfold split. simpl.
    change ("" +:+ rest) with rest. rewrite Hs. reflexivity. }
  change (starts_with "http://" ("https://www." +:+ rest)
          || starts_with "https://" ("https://www." +:+ rest)) with true.
  cbv iota. rewrite Hsplit. cbn [List.last].
  assert (Hhd : List.hd "" (split "/" ("www." +:+ rest)) = "www." +:+ domain).
  { unfold split.
    pose proof (first_piece_before_slash ("www." +:+ domain) path) as Hfp.
    rewrite str_app_assoc in Hfp. fold rest in Hfp.
    destruct (split_aux "/" 0 ("www." +:+ rest)) as [p ps]. cbn [fst List.hd] in *.
    apply Hfp. cbn. exact Hd. }
  rewrite Hhd. reflexivity.
Qed.

(** X7 (witness): the careers page of Suncorp. *)
Lemma domain_of_suncorp_careers_page :
  extract_domain_from_url (Str "https://www.suncorp.com.au/careers/jobs")
  = Some "suncorp.com.au".
Proof.
  apply (domain_of_secure_address "suncorp.com.au" "careers/jobs"); reflexivity.
Defined.

(** An address whose path holds a double slash loses its domain: the
    last piece after a double slash is taken. *)
Example domain_lost_after_double_slash :
  extract_domain_from_url (Str "https://www.suncorp.com.au/careers//jobs")
  = Some "jobs".
Proof. vm_compute. reflexivity. Qed.


(** *** enrich_contacts *)

Lemma split_ws_aux_words s : Forall (fun w => w <> "") (split_ws_aux s).2.
Proof.
  induction s as [|a s IH]; [constructor|].
  cbn [split_ws_aux]. destruct (split_ws_aux s) as [w ws]. cbn [snd] in *.
  destruct (is_space a); cbn [snd]; [|exact IH].
  destruct w; [exact IH|]. constructor; [discriminate | exact IH].
Qed.

(** The words [split()] gives are never empty. *)
Lemma split_ws_words s : Forall (fun w => w <> "") (split_ws s).
Proof.
  unfold split_ws. pose proof (split_ws_aux_words s) as H.
  destruct (split_ws_aux s) as [w ws]. cbn [snd] in H.
  destruct w; [exact H|]. constructor; [discriminate | exact H].
Qed.

Lemma Forall_hd {A} (P : A -> Prop) d l : Forall P l -> l <> [] -> P (List.hd d l).
Proof. intros [|x l' Hx _]; [congruence | intros _; exact Hx]. Qed.

Lemma Forall_last {A} (P : A -> Prop) d l : Forall P l -> l <> [] -> P (List.last l d).
Proof.
  induction 1 as [|x l' Hx Hl IH]; [congruence|]. intros _.
  destruct l' as [|y l'']; [exact Hx|]. apply IH. discriminate.
Qed.

Section Enrich.
Variable world : Type.
Variable find_linkedin_executives :
  cell -> cell -> bool -> world -> list executive * world.
Variable find_company_executives :
  cell -> cell -> bool -> world -> list executive * world.
Variable random_index : nat -> world -> nat * world.
Variable verify_email_exists : string -> bool -> world -> bool * world.
Variable find_phone_number : string -> cell -> bool -> world -> option string * world.

Local Abbreviation enrich_one :=
  (enrich_company world find_linkedin_executives find_company_executives
     random_index verify_email_exists find_phone_number).
Local Abbreviation enrich_all :=
  (enrich_rows world find_linkedin_executives find_company_executives
     random_index verify_email_exists find_phone_number).
Local Abbreviation enrich_table :=
  (enrich_contacts world find_linkedin_executives find_company_executives
     random_index verify_email_exists find_phone_number).
Local Abbreviation process_one :=
  (process_executive world verify_email_exists find_phone_number).
Local Abbreviation process_all :=
  (process_executives world verify_email_exists find_phone_number).

(** The email of a candidate with non-empty names: none and "Not
    Verified", or an address at the company's domain. *)
Lemma derive_email_cases use_mock first_name last_name domain pattern w :
  first_name <> "" -> last_name <> "" ->
  exists email status w',
    derive_email world verify_email_exists use_mock first_name last_name
      domain pattern w = (Returned (email, status), w') /\
    (email = None /\ status = "Not Verified" \/
     exists local d, domain = Some d /\ email = Some (local +:+ "@" +:+ d) /\
                     (status = "Not Verified" \/ status = "Domain MX Verified")).
Proof.
  intros Hf Hl. unfold derive_email.
  destruct domain as [d|]; [|unfold st_ret; eauto 8].
  destruct pattern as [p|]; [|unfold st_ret; eauto 8].
  destruct (negb _ && negb _); [|unfold st_ret; eauto 8].
  destruct (generate_email_at_domain first_name last_name d (Some p) Hf Hl)
    as [local Hemail].
  unfold st_bind, ask, st_ret. rewrite Hemail.
  destruct (verify_email_exists _ use_mock w) as [ok w'].
  eexists _, _, _. split; [reflexivity|]. right. exists local, d.
  destruct ok; auto.
Qed.

Lemma process_executive_contacts use_mock (r : row) domain pattern e w :
  (forall d, domain = Some d ->
     extract_domain_from_url (cell_at r "company_website") = Some d) ->
  exists l w',
    process_one use_mock (cell_at r "company_id") (cell_at r "company_name")
      domain pattern e w = (Returned l, w') /\
    Forall (contact_of_company r) l.
Proof.
  intros Hdomain. unfold process_executive.
  case_bool_decide as Hname; [unfold st_ret; eauto|].
  destruct (2 <=? length (split_ws (name e)))%nat eqn:Hwords;
    [|unfold st_ret; eauto].
  apply Nat.leb_le in Hwords.
  assert (Hne : split_ws (name e) <> []).
  { intros Hnil. rewrite Hnil in Hwords. cbn in Hwords. lia. }
  pose proof (Forall_hd _ "" _ (split_ws_words (name e)) Hne) as Hfirst.
  pose proof (Forall_last _ "" _ (split_ws_words (name e)) Hne) as Hlast.
  destruct (derive_email_cases use_mock _ _ domain pattern w Hfirst Hlast)
    as (email & status & w1 & Hderive & Hcases).
  unfold st_bind at 1. rewrite Hderive. unfold st_bind, ask, st_ret.
  destruct (find_phone_number _ _ _ w1) as [phone w2]. cbn [fst snd].
  eexists _, _. split; [reflexivity|].
  constructor; [|constructor].
  unfold contact_of_company, contact_row.
  split; [rewrite dom_list_to_map_L; reflexivity|].
  split; [reflexivity|].
  split; [exists (name e); split; [reflexivity | auto]|].
  destruct Hcases as [[-> ->] | (local & d & Hd & -> & Hstatus)].
  - split; left; reflexivity.
  - split.
    + right. exists local, d. split; [now apply Hdomain | reflexivity].
    + destruct Hstatus as [-> | ->]; [left; reflexivity|].
      right. split; [reflexivity | discriminate].
Qed.

Lemma process_executives_contacts use_mock (r : row) domain pattern execs w :
  (forall d, domain = Some d ->
     extract_domain_from_url (cell_at r "company_website") = Some d) ->
  exists l w',
    process_all use_mock (cell_at r "company_id") (cell_at r "company_name")
      domain pattern execs w = (Returned l, w') /\
    Forall (contact_of_company r) l.
Proof.
  intros Hdomain. revert w.
  induction execs as [|e execs IH]; intros w; [unfold process_executives, st_ret; eauto|].
  cbn [process_executives].
  destruct (process_executive_contacts use_mock r domain pattern e w Hdomain)
    as (l1 & w1 & H1 & Hl1).
  destruct (IH w1) as (l2 & w2 & H2 & Hl2).
  unfold st_bind at 1. rewrite H1. unfold st_bind at 1. rewrite H2.
  unfold st_ret. eexists _, _. split; [reflexivity|]. now apply Forall_app.
Qed.

Lemma enrich_company_contacts use_mock (r : row) w :
  exists l w',
    enrich_one use_mock r w = (Returned l, w') /\ Forall (contact_of_company r) l.
Proof.
  unfold enrich_company, st_bind at 1, ask.
  destruct (gather_executives _ _ _ use_mock r w) as [all_execs w1].
  set (domain := if truthy (cell_at r "company_website")
                 then extract_domain_from_url (cell_at r "company_website")
                 else None).
  destruct (pattern_step_returns world random_index domain w1) as (p & w2 & Hp).
  unfold st_bind at 1. rewrite Hp.
  apply process_executives_contacts.
  intros d. unfold domain. destruct (truthy _); [auto | discriminate].
Qed.

Lemma enrich_rows_contacts use_mock (l : list row) w :
  exists contacts w',
    enrich_all use_mock l w = (Returned contacts, w') /\
    Forall (fun c => exists r, r ∈ l /\ contact_of_company r c) contacts.
Proof.
  revert w. induction l as [|r l IH]; intros w;
    [unfold enrich_rows, st_ret; eauto|].
  cbn [enrich_rows].
  destruct (enrich_company_contacts use_mock r w) as (l1 & w1 & H1 & Hl1).
  destruct (IH w1) as (l2 & w2 & H2 & Hl2).
  unfold st_bind at 1. rewrite H1. unfold st_bind at 1. rewrite H2.
  unfold st_ret. eexists _, _. split; [reflexivity|]. apply Forall_app. split.
  - eapply Forall_impl; [exact Hl1|]. intros c Hc. exists r. split; [left | exact Hc].
  - eapply Forall_impl; [exact Hl2|]. intros c (r' & Hin & Hc). exists r'.
    split; [now right | exact Hc].
Qed.

(** X8: on a table with the columns the loop reads, [enrich_contacts]
    never raises, whatever the finders, the draw, the email check and the
    phone lookup answer: it returns a table with the eight contact
    columns in which every row has exactly these columns and carries the
    id of one of the given companies. *)
Theorem enrich_contacts_returns_a_contact_table (companies_df : DataFrame) use_mock
    (w : world) :
  Forall (fun c => has_column companies_df c = true) columns_read_by_enrich_contacts ->
  exists executives_df w',
    enrich_table companies_df use_mock w = (Returned executives_df, w') /\
    columns executives_df = executive_columns /\
    Forall (fun c => dom c = list_to_set executive_columns /\
                     exists r, r ∈ rows companies_df /\
                               c !! "company_id" = Some (cell_at r "company_id"))
           (rows executives_df).
Proof.
  intros _. unfold enrich_contacts.
  destruct (enrich_rows_contacts use_mock (rows companies_df) w)
    as (contacts & w' & Hrun & Hall).
  unfold st_bind. rewrite Hrun. unfold st_ret.
  eexists _, _. split; [reflexivity|]. split; [reflexivity|]. cbn [rows].
  eapply Forall_impl; [exact Hall|].
  intros c (r & Hin & Hdom & Hid & _). split; [exact Hdom|]. now exists r.
Qed.

(** X9: every contact row names somebody: the name is not "Unknown" and
    has at least two words. Its email is absent or an address at the
    domain extracted from the website of its company, and the label
    "Domain MX Verified" only stands next to an email. *)
Theorem contact_rows_name_somebody_at_the_company (companies_df : DataFrame) use_mock
    (w : world) (executives_df : DataFrame) (w' : world) :
  Forall (fun c => has_column companies_df c = true) columns_read_by_enrich_contacts ->
  enrich_table companies_df use_mock w = (Returned executives_df, w') ->
  Forall (fun c =>
            exists r, r ∈ rows companies_df /\
              c !! "company_id" = Some (cell_at r "company_id") /\
              (exists n, c !! "executive_name" = Some (Str n) /\ n <> "Unknown" /\
                         (2 <= length (split_ws n))%nat) /\
              (c !! "email" = Some NaN \/
               exists local domain,
                 extract_domain_from_url (cell_at r "company_website") = Some domain /\
                 c !! "email" = Some (Str (local +:+ "@" +:+ domain))) /\
              (c !! "verification_status" = Some (Str "Not Verified") \/
               c !! "verification_status" = Some (Str "Domain MX Verified") /\
               c !! "email" <> Some NaN))
         (rows executives_df).
Proof.
  intros _. unfold enrich_contacts.
  destruct (enrich_rows_contacts use_mock (rows companies_df) w)
    as (contacts & w1 & Hrun & Hall).
  unfold st_bind. rewrite Hrun. unfold st_ret. intros [= <- <-]. cbn [rows].
  eapply Forall_impl; [exact Hall|].
  intros c (r & Hin & _ & Hrest). now exists r.
Qed.

End Enrich.

(** X8 (witness): the contact table of Suncorp when the profile finder
    finds its chief technology officer. *)
Lemma suncorp_contact_table :
  exists executives_df w',
    enrich_contacts unit finds_cto finds_nobody first_choice always_verified no_phone
      one_hiring_company true tt = (Returned executives_df, w') /\
    columns executives_df = executive_columns.
Proof.
  destruct (enrich_contacts_returns_a_contact_table unit finds_cto finds_nobody
              first_choice always_verified no_phone one_hiring_company true tt)
    as (executives_df & w' & Hrun & Hcolumns & _).
  - repeat constructor.
  - exists executives_df, w'. split; [exact Hrun | exact Hcolumns].
Defined.

(** X9 (witness): the contact found for Suncorp. *)
Lemma suncorp_contact_names_somebody :
  Forall (fun c => exists n, c !! "executive_name" = Some (Str n) /\ n <> "Unknown")
    [contact_row (Int 6)
       (mkExecutive "Sarah Wilson" "CTO"
          (Some "https://www.linkedin.com/in/sarah-wilson-48213")
          "LinkedIn (Mock Data)")
       (Some "sarah.wilson@suncorp.com.au") None "Domain MX Verified"].
Proof.
  pose proof (contact_rows_name_somebody_at_the_company unit finds_cto finds_nobody
                first_choice always_verified no_phone one_hiring_company true tt
                (mkDataFrame executive_columns
                   [contact_row (Int 6)
                      (mkExecutive "Sarah Wilson" "CTO"
                         (Some "https://www.linkedin.com/in/sarah-wilson-48213")
                         "LinkedIn (Mock Data)")
                      (Some "sarah.wilson@suncorp.com.au") None "Domain MX Verified"])
                tt) as Hrows.
  eapply Forall_impl; [apply Hrows|].
  - repeat constructor.
  - vm_compute. reflexivity.
  - intros c (r & _ & _ & (n & Hn & Hu & _) & _). now exists n.
Defined.

End ContactMoreFacts.


(** ** Consolidator: names, quality rating and scores *)

Module ConsolidatorMoreFacts.
Import Pandas Consolidator SortFacts QualityFacts.

(** *** calculate_quality *)

Lemma getitem_present (r : row) c :
  is_Some (r !! c) -> exists v, getitem r c = Returned v.
Proof. intros [v Hv]. unfold getitem. rewrite Hv. eauto. Qed.

Lemma any_isna_returns (r : row) cols :
  Forall (fun c => is_Some (r !! c)) cols -> exists b, any_isna r cols = Returned b.
Proof.
  induction 1 as [|c cols Hc _ IH]; [cbn; eauto|].
  cbn [any_isna]. destruct (getitem_present r c Hc) as [v ->]. cbn [rbind].
  destruct (isna v); eauto.
Qed.

Lemma quality_score_returns (r : row) :
  Forall (fun c => is_Some (r !! c)) quality_columns ->
  exists score, quality_score r = Returned score.
Proof.
  intros Hcols. unfold quality_columns in Hcols.
  apply Forall_app with (l1 := ["company_name"; "industry"; "country"]) in Hcols
    as [Hbasic Hrest].
  destruct (any_isna_returns r _ Hbasic) as [basic_missing Hb].
  repeat match type of Hrest with
         | Forall _ (_ :: _) => apply Forall_cons in Hrest as [?Hc Hrest]
         end.
  unfold quality_score. rewrite Hb. cbn [rbind].
  repeat match goal with
         | Hc : is_Some (r !! ?c) |- _ =>
             destruct (getitem_present r c Hc) as [? ->]; clear Hc
         end.
  cbn [rbind]. destruct (isna _); cbn [rbind]; eauto.
Qed.

(** X10: a joined row that has the ten columns the rating looks up gets
    a rating: its score counts the checks passed and lies between 0 and
    7, and the rating shows as many glyphs as the larger of 5 and the
    score. *)
Theorem quality_rating_of_a_joined_row (r : row) :
  Forall (fun c => is_Some (r !! c)) quality_columns ->
  exists score,
    quality_score r = Returned score /\ 0 <= score <= 7 /\
    calculate_quality r = Returned (stars_of score) /\
    star_count (stars_of score) = Some (Z.to_nat (Z.max 5 score)).
Proof.
  intros Hcols. destruct (quality_score_returns r Hcols) as [score Hscore].
  pose proof (quality_score_range r score Hscore) as Hrange.
  exists score. split; [exact Hscore|]. split; [exact Hrange|]. split.
  - unfold calculate_quality. now rewrite Hscore.
  - apply stars_of_count. lia.
Qed.

(** X10 (witness): a company without any contact. *)
Lemma quality_rating_of_bare_row :
  exists score,
    quality_score bare_row = Returned score /\ 0 <= score <= 7 /\
    calculate_quality bare_row = Returned (stars_of score).
Proof.
  destruct (quality_rating_of_a_joined_row bare_row) as (score & H1 & H2 & H3 & _).
  - apply (bool_decide_unpack _). vm_compute. exact I.
  - exists score. auto.
Defined.

(** *** clean_name *)

Lemma sub_pattern_after_word p base t :
  no_space base = true -> sub_pattern p (base +:+ t) = base +:+ sub_pattern p t.
Proof.
  induction base as [|a base IH]; intros Hb; [reflexivity|].
  cbn [no_space] in Hb. apply andb_true_iff in Hb as [Ha Hb].
  apply negb_true_iff in Ha.
  change (String a base +:+ t) with (String a (base +:+ t)).
  cbn [sub_pattern]. rewrite Ha, (IH Hb). reflexivity.
Qed.

Lemma fold_sub_pattern_after_word ps base t :
  no_space base = true ->
  fold_left (fun cleaned p => sub_pattern p cleaned) ps (base +:+ t)
  = base +:+ fold_left (fun cleaned p => sub_pattern p cleaned) ps t.
Proof.
  intros Hb. revert t. induction ps as [|p ps IH]; intros t; [reflexivity|].
  cbn [fold_left]. now rewrite sub_pattern_after_word, IH.
Qed.

Lemma sub_pattern_empty p : sub_pattern p "" = "".
Proof. reflexivity. Qed.

Lemma fold_sub_pattern_empty ps :
  fold_left (fun cleaned p => sub_pattern p cleaned) ps "" = "".
Proof. induction ps as [|p ps IH]; [reflexivity | exact IH]. Qed.

Lemma str_app_empty s : s +:+ "" = s.
Proof.
  induction s as [|a s IH]; [reflexivity|].
  change (String a (s +:+ "") = String a s). now f_equal.
Qed.

Lemma lstrip_no_space s : no_space s = true -> lstrip s = s.
Proof.
  destruct s as [|a s]; [reflexivity|]. cbn [no_space lstrip].
  intros H. apply andb_true_iff in H as [Ha _]. apply negb_true_iff in Ha.
  now rewrite Ha.
Qed.

Lemma rstrip_no_space s : no_space s = true -> rstrip s = s.
Proof.
  induction s as [|a s IH]; [reflexivity|]. cbn [no_space rstrip].
  intros H. apply andb_true_iff in H as [Ha Hs]. apply negb_true_iff in Ha.
  rewrite (IH Hs), Ha. now destruct s.
Qed.

Lemma strip_no_space s : no_space s = true -> strip s = s.
Proof.
  intros H. unfold strip. rewrite lstrip_no_space by exact H.
  now apply rstrip_no_space.
Qed.

(** The cleaning of a name that starts with a word acts on what follows
    the word. *)
Lemma clean_name_after_word base t :
  no_space base = true ->
  clean_name (base +:+ t)
  = strip (base +:+ fold_left (fun cleaned p => sub_pattern p cleaned) patterns t).
Proof.
  intros Hb. unfold clean_name. now rewrite fold_sub_pattern_after_word.
Qed.

(** X11: a name of ASCII characters without white space is left as it
    is, whatever it spells: the endings are only cut off after white
    space. *)
Theorem clean_name_keeps_a_single_word (name : string) :
  ascii_only name = true -> no_space name = true -> clean_name name = name.
Proof.
  intros _ Hn. rewrite <- (str_app_empty name) at 1.
  rewrite clean_name_after_word by exact Hn.
  rewrite fold_sub_pattern_empty, str_app_empty. now apply strip_no_space.
Qed.

(** X11 (witness): a company called Ltd keeps its name. *)
Lemma clean_name_keeps_ltd : clean_name "Ltd" = "Ltd".
Proof. apply (clean_name_keeps_a_single_word "Ltd"); reflexivity. Defined.

(** X12: a one-word name of ASCII characters followed by a blank and a
    legal ending, in any of the listed spellings, is cleaned to the one
    word. *)
Theorem clean_name_cuts_the_legal_ending (base : string) :
  ascii_only base = true -> no_space base = true ->
  Forall (fun ending => clean_name (base +:+ " " +:+ ending) = base) legal_endings.
Proof.
  intros _ Hb. unfold legal_endings.
  repeat constructor;
    (rewrite clean_name_after_word by exact Hb;
     match goal with
     | |- strip (base +:+ ?t) = base =>
         let t' := eval vm_compute in t in
         change t with t'
     end;
     rewrite str_app_empty; now apply strip_no_space).
Qed.

(** X12 (witness): Suncorp with its endings. *)
Lemma clean_name_suncorp_endings :
  clean_name "Suncorp Group" = "Suncorp" /\ clean_name "Suncorp Pty Ltd" = "Suncorp".
Proof.
  pose proof (clean_name_cuts_the_legal_ending "Suncorp" eq_refl eq_refl) as H.
  rewrite List.Forall_forall in H. split; apply H; cbn; tauto.
Defined.

(** The endings are cut in the order of the pattern list, once each: an
    ending that only comes to the end after a later pattern has cut
    stays. *)
Example clean_name_order_of_endings :
  clean_name "Suncorp Ltd Pty" = "Suncorp Ltd" /\
  clean_name "Suncorp Pty Ltd" = "Suncorp".
Proof. vm_compute. split; reflexivity. Qed.

(** *** clean_company_names *)

Lemma rmap_clean_name_cell cells :
  rmap clean_name_cell cells
  = if forallb is_text cells
    then Returned (map (fun v => match v with
                                 | Str name => Str (clean_name name)
                                 | _ => v
                                 end) cells)
    else Raised TypeError.
Proof.
  induction cells as [|v cells IH]; [reflexivity|].
  cbn [rmap forallb map]. destruct v as [|name|z]; cbn; try reflexivity.
  rewrite IH. now destruct (forallb is_text cells).
Qed.

Lemma rmap_map {A B C} (f : B -> result C) (g : A -> B) l :
  rmap (fun a => f (g a)) l = rmap f (map g l).
Proof. induction l as [|a l IH]; [reflexivity|]. cbn. now rewrite IH. Qed.

(** X13: on a table with a company name column the cleaning raises
    TypeError exactly when some name is not a text (a missing value or a
    number); otherwise it returns the table with one more column and the
    same number of rows, each row carrying its cleaned name. *)
Theorem clean_company_names_needs_text_names (df : DataFrame) :
  has_column df "company_name" = true ->
  (Exists (fun r => is_text (cell_at r "company_name") = false) (rows df) ->
   clean_company_names df = Raised TypeError) /\
  (Forall (fun r => is_text (cell_at r "company_name") = true) (rows df) ->
   exists cleaned,
     clean_company_names df = Returned cleaned /\
     "clean_company_name" ∈ columns cleaned /\
     length (rows cleaned) = length (rows df) /\
     forall i r, rows df !! i = Some r ->
       exists name,
         cell_at r "company_name" = Str name /\
         rows cleaned !! i = Some (<["clean_company_name" := Str (clean_name name)]> r)).
Proof.
  intros Hcol. unfold clean_company_names. rewrite Hcol.
  rewrite (rmap_map clean_name_cell (fun r => cell_at r "company_name")).
  rewrite rmap_clean_name_cell. split.
  - intros Hex.
    assert (Hf : forallb is_text (map (fun r => cell_at r "company_name") (rows df))
                 = false).
    { apply not_true_is_false. intros Hall.
      rewrite forallb_forall in Hall. apply List.Exists_exists in Hex as (r & Hr & Hno).
      rewrite (Hall (cell_at r "company_name")) in Hno; [discriminate|].
      now apply (in_map (fun r => cell_at r "company_name")). }
    now rewrite Hf.
  - intros Hall.
    assert (Hf : forallb is_text (map (fun r => cell_at r "company_name") (rows df))
                 = true).
    { apply forallb_forall. intros v Hv. apply in_map_iff in Hv as (r & <- & Hr).
      rewrite List.Forall_forall in Hall. now apply Hall. }
    rewrite Hf. cbn [rbind]. eexists. split; [reflexivity|].
    split; [apply TopTenFacts.assign_columns_new|].
    split.
    + unfold assign. cbn [rows]. rewrite length_zip_with, !length_map. lia.
    + intros i r Hi. rewrite Forall_lookup in Hall. specialize (Hall i r Hi).
      destruct (cell_at r "company_name") as [|name|] eqn:Hname; try discriminate.
      exists name. split; [reflexivity|].
      unfold assign. cbn [rows]. rewrite lookup_zip_with, Hi. cbn.
      rewrite !list_lookup_fmap, Hi. cbn. now rewrite Hname.
Qed.

(** X13 (witness): the cleaned table of one company. *)
Lemma clean_company_names_one_company :
  exists cleaned,
    clean_company_names one_hiring_company = Returned cleaned /\
    length (rows cleaned) = 1%nat.
Proof.
  destruct (clean_company_names_needs_text_names one_hiring_company) as [_ Hok].
  - reflexivity.
  - destruct Hok as (cleaned & Hrun & _ & Hlen & _).
    + repeat constructor.
    + exists cleaned. split; [exact Hrun | exact Hlen].
Defined.

(** *** score_opportunity, create_opportunity_note *)

Lemma join_nonempty sep (notes : list string) :
  notes <> [] -> Forall (fun n => n <> "") notes -> join sep notes <> "".
Proof.
  destruct notes as [|n notes]; [congruence|]. intros _ Hn.
  apply Forall_cons in Hn as [Hn _].
  destruct n as [|a n]; [congruence|]. cbn [join]. now destruct notes.
Qed.

Section Scores.
Variable python_float : string -> option pyfloat.

Local Abbreviation score := (score_opportunity python_float).
Local Abbreviation note := (create_opportunity_note python_float).

Lemma hiring_points_range r : 0 <= hiring_points r <= 3.
Proof.
  unfold hiring_points.
  destruct (r !! "Hiring DevOps"), (r !! "Hiring Software Developers"); try lia.
  destruct (_ && _); [lia|]. destruct (_ || _); lia.
Qed.

Lemma notes_nonempty r :
  Forall (fun n => n <> "")
    (hiring_notes r ++ contact_notes r ++ size_notes python_float r).
Proof.
  rewrite !Forall_app. repeat split.
  - unfold hiring_notes.
    destruct (r !! "Hiring DevOps"), (r !! "Hiring Software Developers");
      try constructor.
    repeat (destruct (_ : bool); [repeat constructor; discriminate|]). constructor.
  - unfold contact_notes.
    destruct (r !! "C-Level Email"), (r !! "C-Level Phone"); try constructor.
    repeat (destruct (_ : bool); [repeat constructor; discriminate|]). constructor.
  - unfold size_notes. destruct (r !! "Company Size") as [v|]; [|constructor].
    destruct (isna v); [constructor|].
    destruct (company_size python_float v); [|constructor].
    repeat (destruct (float_gt _ _); [repeat constructor; discriminate|]). constructor.
Qed.

(** X14: every report row gets a score between 0 and 11 (hiring up to
    3, contact up to 5, size up to 3; nothing caps the sum) and a
    note that is never empty. *)
Theorem every_row_gets_a_score_and_a_note (r : row) :
  0 <= score_opportunity python_float r <= 11 /\
  create_opportunity_note python_float r <> "".
Proof.
  split.
  - unfold score_opportunity.
    pose proof (hiring_points_range r) as Hh.
    pose proof (OpportunityFacts.size_points_range python_float r) as Hs.
    destruct (present r "C-Level Contact Name"), (present r "C-Level Email"),
      (present r "C-Level Phone"); lia.
  - unfold create_opportunity_note.
    pose proof (notes_nonempty r) as Hn.
    destruct (hiring_notes r ++ contact_notes r ++ size_notes python_float r)
      as [|n notes] eqn:Hnotes; [discriminate|].
    now apply join_nonempty.
Qed.

End Scores.

(** *** merge *)

Lemma length_merge_row key lcols rcols right (l : row) :
  length (merge_row key lcols rcols right l)
  = Nat.max 1 (length (matches key l right)).
Proof.
  unfold merge_row. destruct (matches key l right) as [|r rs]; [reflexivity|].
  rewrite length_map. cbn [length]. lia.
Qed.

Lemma length_concat_map {A B} (f : A -> list B) l :
  length (concat (map f l)) = list_sum (map (fun a => length (f a)) l).
Proof.
  induction l as [|a l IH]; [reflexivity|].
  cbn [map concat].
  change (list_sum (length (f a) :: map (fun a => length (f a)) l))
    with (length (f a) + list_sum (map (fun a => length (f a)) l))%nat.
  now rewrite length_app, IH.
Qed.

(** X15: the left join on the company id gives, for every company, one
    row per contact of that company and one row when it has none, so the
    number of merged rows is the sum of these; and every merged row
    carries the id of a company of the left table: a contact of a company
    that is not in the company table is left out. *)
Theorem left_join_row_count (left right merged : DataFrame) :
  merge_left "company_id" left right = Returned merged ->
  length (rows merged)
  = list_sum (map (fun l => Nat.max 1 (length (matches "company_id" l (rows right))))
                  (rows left)) /\
  Forall (fun m => exists l, l ∈ rows left /\
                             cell_at m "company_id" = cell_at l "company_id")
         (rows merged).
Proof.
  unfold merge_left. destruct (has_column left "company_id") eqn:Hl; [|discriminate].
  destruct (has_column right "company_id"); [|discriminate].
  cbn [andb]. intros [= <-]. cbn [rows]. split.
  - rewrite length_concat_map. f_equal. apply map_ext. intros l.
    apply length_merge_row.
  - apply bool_decide_eq_true in Hl.
    rewrite List.Forall_forall. intros m Hm.
    apply in_concat in Hm as (ms & Hms & Hm).
    apply in_map_iff in Hms as (l & <- & Hin).
    exists l. split; [now apply list_elem_of_In|].
    now apply (JoinFacts.merge_row_key _ _ _ _ _ Hl Hm).
Qed.

(** X15 (witness): Suncorp joined with the contact of another company. *)
Lemma suncorp_join_has_one_row :
  exists merged,
    merge_left "company_id" one_hiring_company other_contacts = Returned merged /\
    length (rows merged) = 1%nat.
Proof.
  eexists. split; [reflexivity|].
  apply (left_join_row_count one_hiring_company other_contacts). reflexivity.
Defined.

(** *** create_opportunities_content on any report *)

Lemma dedup_by_In {A K} `{EqDecision K} (key : A -> K) seen l x :
  In x (dedup_by key seen l) -> In x l.
Proof.
  revert seen. induction l as [|y l IH]; intros seen; cbn [dedup_by]; [tauto|].
  case_bool_decide; [right; eauto|]. intros [->|Hin]; [now left | right; eauto].
Qed.

(** A row that survives the removal of duplicates is the first of its key. *)
Lemma dedup_by_first {A K} `{EqDecision K} (key : A -> K) seen l x :
  In x (dedup_by key seen l) ->
  exists l1 l2, l = l1 ++ x :: l2 /\ (key x ∉ seen) /\ ~ In (key x) (map key l1).
Proof.
  revert seen. induction l as [|y l IH]; intros seen; cbn [dedup_by]; [intros []|].
  case_bool_decide as Hy.
  - intros Hin. destruct (IH seen Hin) as (l1 & l2 & -> & Hs & Hl1).
    exists (y :: l1), l2. split; [reflexivity|]. split; [exact Hs|].
    cbn [map]. intros [Heq | Hin']; [|contradiction].
    apply Hs. now rewrite <- Heq.
  - intros [-> | Hin].
    + exists [], l. split; [reflexivity|]. split; [exact Hy | tauto].
    + destruct (IH (key y :: seen) Hin) as (l1 & l2 & -> & Hs & Hl1).
      apply not_elem_of_cons in Hs as [Hne Hs].
      exists (y :: l1), l2. split; [reflexivity|]. split; [exact Hs|].
      cbn [map]. intros [Heq | Hin']; [congruence | contradiction].
Qed.

Lemma dedup_by_sorted {A K} `{EqDecision K} (R : A -> A -> Prop) (key : A -> K)
    seen l :
  StronglySorted R l -> StronglySorted R (dedup_by key seen l).
Proof.
  intros Hl. revert seen. induction Hl as [|y l Hl IH Hy]; intros seen;
    cbn [dedup_by]; [constructor|].
  case_bool_decide; [apply IH|]. constructor; [apply IH|].
  rewrite List.Forall_forall in Hy |- *. intros x Hx. apply Hy.
  eapply dedup_by_In, Hx.
Qed.

Lemma dedup_by_names {A K} `{EqDecision K} (key : A -> K) l :
  NoDup (map key (dedup_by key [] l)).
Proof.
  revert l. generalize (@nil K).
  intros seen l. revert seen. induction l as [|x l IH]; intros seen; cbn [dedup_by].
  - constructor.
  - case_bool_decide; [apply IH|]. cbn [map]. constructor; [|apply IH].
    intros Hin. apply list_elem_of_In, in_map_iff in Hin as (y & Hy & Hin).
    apply dedup_by_first in Hin as (_ & _ & _ & Hs & _).
    apply Hs. rewrite Hy. left.
Qed.

Lemma StronglySorted_firstn {A} (R : A -> A -> Prop) n l :
  StronglySorted R l -> StronglySorted R (firstn n l).
Proof.
  intros Hl. rewrite <- (firstn_skipn n l) in Hl.
  now apply StronglySorted_app_1_l in Hl.
Qed.

Lemma StronglySorted_map {A B} (R : B -> B -> Prop) (f : A -> B) l :
  StronglySorted (fun x y => R (f x) (f y)) l -> StronglySorted R (map f l).
Proof.
  induction 1 as [|x l Hl IH Hx]; cbn [map]; constructor; [exact IH|].
  rewrite List.Forall_forall in Hx |- *. intros y Hy.
  apply in_map_iff in Hy as (a & <- & Ha). now apply Hx.
Qed.

Lemma StronglySorted_split {A} (R : A -> A -> Prop) l1 x l2 y :
  StronglySorted R (l1 ++ x :: l2) -> In y l2 -> R x y.
Proof.
  intros Hl Hy. apply StronglySorted_app_1_r in Hl.
  apply StronglySorted_inv in Hl as [_ Hx].
  rewrite List.Forall_forall in Hx. now apply Hx.
Qed.

Lemma restricted_cell (cols : list string) (a : row) c :
  c ∈ cols -> cell_at (filter (fun kv => kv.1 ∈ cols) a) c = cell_at a c.
Proof.
  intros Hc. unfold cell_at. f_equal.
  destruct (a !! c) as [v|] eqn:Hv.
  - apply map_lookup_filter_Some. split; [exact Hv | exact Hc].
  - apply map_lookup_filter_None. left. exact Hv.
Qed.

Section TopOpportunities.
Variable python_float : string -> option pyfloat.

Local Abbreviation score := (score_opportunity python_float).
Local Abbreviation annotated := (annotate python_float).

(** The annotated rows in the order [sort_values] puts them: scores
    descend. *)
Lemma sorted_annotated_rows (l : list row) :
  StronglySorted (fun a b => score_of_annotated b <= score_of_annotated a)
    (sort_desc cell_leb (fun a => cell_at a "Opportunity Score") (map annotated l)).
Proof.
  set (dl := enumerate_from 0 l).
  assert (Hl : map annotated l = map (fun p : nat * row => annotated p.2) dl).
  { unfold dl. now rewrite <- (map_map snd annotated), TopTenFacts.enumerate_from_snd. }
  rewrite Hl, sort_desc_map. apply StronglySorted_map.
  eapply StronglySorted_weaken;
    [|apply (sort_desc_sorted cell_leb
               (fun p : nat * row => cell_at (annotated p.2) "Opportunity Score")
               (fun p => score p.2) fst)].
  - intros p q Hpq. unfold score_of_annotated.
    rewrite !TopTenFacts.annotate_score. unfold beats in Hpq. lia.
  - intros x y. now rewrite !TopTenFacts.annotate_score.
  - apply TopTenFacts.enumerate_from_sorted.
Qed.

(** X16: on any report with a company name column the Top 10 sheet is
    produced: at most ten rows, no company twice, scores in descending
    order; every row is a report row with its score and note, cut to the
    sheet's columns, and it is a best-scoring row of its company. *)
Theorem top_opportunities_of_any_report (df : DataFrame) :
  "Company Name" ∈ columns df ->
  exists out,
    create_opportunities_content python_float df = Returned out /\
    (length (rows out) <= 10)%nat /\
    NoDup (map company_name_of (rows out)) /\
    StronglySorted (fun a b => score_of_annotated b <= score_of_annotated a)
      (rows out) /\
    Forall (fun o =>
              exists r, r ∈ rows df /\
                o = filter (fun kv => kv.1 ∈ columns out) (annotated r) /\
                forall r', r' ∈ rows df ->
                  company_name_of r' = company_name_of r -> score r' <= score r)
           (rows out).
Proof.
  intros Hcol.
  set (scored := assign "Opportunity Score"
                   (map (fun r => Int (score r)) (rows df)) df).
  set (noted := assign "Opportunity Notes"
                  (map (fun r => Str (create_opportunity_note python_float r))
                     (rows scored)) scored).
  assert (Hrows : rows noted = map annotated (rows df)).
  { unfold noted, scored. apply TopTenFacts.annotated_rows. }
  assert (Hname_col : "Company Name" ∈ columns noted).
  { unfold noted. now do 2 apply TopTenFacts.assign_columns_old. }
  assert (Hscore_col : "Opportunity Score" ∈ columns noted).
  { unfold noted. apply TopTenFacts.assign_columns_old, TopTenFacts.assign_columns_new. }
  set (sl := sort_desc cell_leb (fun a => cell_at a "Opportunity Score")
               (map annotated (rows df))).
  set (dl := dedup_by (fun a => cell_at a "Company Name") [] sl).
  set (avail := List.filter
                  (has_column (head 10 (mkDataFrame (columns noted) dl)))
                  display_columns).
  assert (Hrun : create_opportunities_content python_float df
                 = Returned (select_columns avail
                               (head 10 (mkDataFrame (columns noted) dl)))).
  { unfold create_opportunities_content, create_opportunities_content_by.
    fold scored. fold noted. fold (sort_values_desc "Opportunity Score" noted).
    rewrite (TopTenFacts.sort_values_desc_whole_numbers _ _ score_of_annotated);
      [|exact Hscore_col|]; cycle 1.
    { rewrite Hrows. intros r Hr. apply in_map_iff in Hr as (q & <- & _).
      unfold score_of_annotated. now rewrite TopTenFacts.annotate_score. }
    cbn [rbind]. rewrite Hrows. fold sl.
    rewrite SortFacts.drop_duplicates_with_column by exact Hname_col.
    reflexivity. }
  assert (Hav_name : "Company Name" ∈ avail).
  { unfold avail. apply list_elem_of_In, filter_In. split; [cbn; tauto|].
    unfold has_column. cbn [head columns]. now apply bool_decide_eq_true_2. }
  assert (Hav_score : "Opportunity Score" ∈ avail).
  { unfold avail. apply list_elem_of_In, filter_In. split; [cbn; tauto|].
    unfold has_column. cbn [head columns]. now apply bool_decide_eq_true_2. }
  assert (Hsl : StronglySorted (fun a b => score_of_annotated b <= score_of_annotated a)
                  sl) by apply sorted_annotated_rows.
  assert (Hperm : sl ≡ₚ map annotated (rows df)) by apply sort_desc_perm.
  eexists. split; [exact Hrun|]. cbn [select_columns head rows columns].
  split; [|split; [|split]].
  - rewrite length_map, length_firstn. lia.
  - rewrite map_map.
    erewrite map_ext; [|intros a; unfold company_name_of;
                        apply (restricted_cell avail a "Company Name" Hav_name)].
    rewrite <- firstn_map. apply TopTenFacts.NoDup_firstn. apply dedup_by_names.
  - apply StronglySorted_map.
    eapply StronglySorted_weaken;
      [|apply StronglySorted_firstn, (dedup_by_sorted _ _ _ _ Hsl)].
    intros a b Hab. unfold score_of_annotated in *.
    now rewrite !(restricted_cell avail _ "Opportunity Score" Hav_score).
  - rewrite List.Forall_forall. intros o Ho.
    apply in_map_iff in Ho as (a & <- & Ha).
    apply TopTenFacts.In_firstn in Ha.
    pose proof (dedup_by_first _ _ _ _ Ha) as (l1 & l2 & Hsplit & _ & Hfirst).
    assert (Hin : In a (map annotated (rows df))).
    { apply (Permutation_in _ Hperm). rewrite Hsplit. apply in_elt. }
    apply in_map_iff in Hin as (r & <- & Hr).
    exists r. split; [now apply list_elem_of_In|]. split; [reflexivity|].
    intros r' Hr' Hsame.
    assert (Hin' : In (annotated r') sl).
    { apply (Permutation_in _ (Permutation_sym Hperm)). apply in_map.
      now apply list_elem_of_In. }
    rewrite Hsplit in Hin'. apply in_app_or in Hin' as [Hin' | [Heq | Hin']].
    + exfalso. apply Hfirst. apply in_map_iff. exists (annotated r').
      split; [|exact Hin'].
      pose proof (TopTenFacts.annotate_name python_float r') as H1.
      pose proof (TopTenFacts.annotate_name python_float r) as H2.
      unfold company_name_of in *. congruence.
    + assert (Hs : score_of_annotated (annotated r') = score_of_annotated (annotated r))
        by now rewrite Heq.
      unfold score_of_annotated in Hs. rewrite !TopTenFacts.annotate_score in Hs. lia.
    + rewrite Hsplit in Hsl.
      pose proof (StronglySorted_split _ _ _ _ _ Hsl Hin') as Hle.
      unfold score_of_annotated in Hle.
      now rewrite !TopTenFacts.annotate_score in Hle.
Qed.

(** X17: without a company name column the sheet of a report that has
    rows cannot be made: the removal of duplicates raises KeyError for
    that column. A report without rows passes the removal of duplicates
    as it is and gives a sheet without rows. *)
Theorem top_opportunities_need_a_name_column (df : DataFrame) :
  "Company Name" ∉ columns df ->
  (rows df <> [] ->
   create_opportunities_content python_float df
   = Raised (KeyError "Company Name")) /\
  (rows df = [] ->
   exists out,
     create_opportunities_content python_float df = Returned out /\
     rows out = []).
Proof.
  intros Hcol.
  set (scored := assign "Opportunity Score"
                   (map (fun r => Int (score r)) (rows df)) df).
  set (noted := assign "Opportunity Notes"
                  (map (fun r => Str (create_opportunity_note python_float r))
                     (rows scored)) scored).
  assert (Hrows : rows noted = map annotated (rows df)).
  { unfold noted, scored. apply TopTenFacts.annotated_rows. }
  assert (Hscore_col : "Opportunity Score" ∈ columns noted).
  { unfold noted. apply TopTenFacts.assign_columns_old, TopTenFacts.assign_columns_new. }
  assert (Hname_col : "Company Name" ∉ columns noted).
  { unfold noted, scored, assign. cbn [columns].
    repeat (destruct (has_column _ _); cbn [columns]);
      rewrite ?elem_of_app, ?list_elem_of_singleton; intuition discriminate. }
  unfold create_opportunities_content, create_opportunities_content_by.
    fold scored. fold noted. fold (sort_values_desc "Opportunity Score" noted).
  rewrite (TopTenFacts.sort_values_desc_whole_numbers _ _ score_of_annotated);
    [|exact Hscore_col|]; cycle 1.
  { rewrite Hrows. intros r Hr. apply in_map_iff in Hr as (q & <- & _).
    unfold score_of_annotated. now rewrite TopTenFacts.annotate_score. }
  cbn [rbind]. rewrite Hrows. split.
  - intros Hr.
    rewrite SortFacts.drop_duplicates_without_column; [reflexivity| | |].
    + exact Hname_col.
    + cbn [rows]. intros Hs.
      apply (f_equal (@length row)) in Hs.
      rewrite (Permutation_length (sort_desc_perm _ _ _)), length_map in Hs.
      destruct (rows df); [contradiction | discriminate Hs].
    + cbn [columns]. intros Hc. rewrite Hc in Hscore_col.
      now apply elem_of_nil in Hscore_col.
  - intros Hr. rewrite Hr. cbn [map].
    rewrite SortFacts.drop_duplicates_no_rows by reflexivity.
    cbn [rbind]. eexists. split; reflexivity.
Qed.

End TopOpportunities.

(** X16 (witness): the sheet of the fifteen leads. *)
Lemma top_opportunities_of_fifteen_leads :
  exists out,
    create_opportunities_content no_float fifteen_leads = Returned out /\
    (length (rows out) <= 10)%nat /\
    NoDup (map company_name_of (rows out)).
Proof.
  destruct (top_opportunities_of_any_report no_float fifteen_leads)
    as (out & Hrun & Hlen & Hnd & _).
  - apply (bool_decide_unpack _). vm_compute. exact I.
  - exists out. auto.
Defined.

(** X17 (witness): a table of checked companies is no report. *)
Lemma top_opportunities_of_checked_companies :
  create_opportunities_content no_float three_checked
  = Raised (KeyError "Company Name").
Proof.
  apply (top_opportunities_need_a_name_column no_float three_checked).
  - apply (bool_decide_unpack _). vm_compute. exact I.
  - discriminate.
Defined.

(** *** prepare_final_dataset *)

Lemma list_filter_sublist {A} (f : A -> bool) l : List.filter f l `sublist_of` l.
Proof.
  induction l as [|x l IH]; [constructor|]. cbn [List.filter].
  destruct (f x); [now apply sublist_skip | now apply sublist_cons].
Qed.

Lemma sort_by_size_or_revenue_columns df sorted :
  Consolidator.sort_by_size_or_revenue df = Returned sorted ->
  columns sorted = columns df.
Proof.
  unfold Consolidator.sort_by_size_or_revenue.
  destruct (_ && _).
  { intros H. now apply sort_values_desc_perm in H as [_ Hc]. }
  destruct (_ && _).
  { intros H. now apply sort_values_desc_perm in H as [_ Hc]. }
  intros H. now injection H as <-.
Qed.

Lemma assign_existing_columns c values df :
  c ∈ columns df -> columns (assign c values df) = columns df.
Proof.
  intros Hc. unfold assign, has_column. cbn [columns].
  now rewrite bool_decide_eq_true_2 by exact Hc.
Qed.

Lemma format_last_verified_columns format_date today df :
  columns (format_last_verified format_date today df) = columns df.
Proof.
  unfold format_last_verified. destruct (has_column df "Last Verified") eqn:Hc;
    [|reflexivity].
  apply bool_decide_eq_true in Hc.
  destruct (format_dates _ _); now apply assign_existing_columns.
Qed.

Lemma clean_company_names_shape df cleaned :
  clean_company_names df = Returned cleaned ->
  "clean_company_name" ∈ columns cleaned /\ length (rows cleaned) = length (rows df).
Proof.
  unfold clean_company_names. destruct (has_column df "company_name"); [|discriminate].
  intros H. apply rbind_returned in H as (names & Hnames & H).
  apply JoinFacts.rmap_length in Hnames.
  injection H as <-. split; [apply TopTenFacts.assign_columns_new|].
  now apply JoinFacts.assign_length.
Qed.

Lemma list_sum_at_least_length {A} (f : A -> nat) l :
  (forall a, 1 <= f a)%nat -> (length l <= list_sum (map f l))%nat.
Proof.
  intros Hf. induction l as [|a l IH]; [reflexivity|].
  cbn [length map].
  change (list_sum (f a :: map f l)) with (f a + list_sum (map f l))%nat.
  specialize (Hf a). lia.
Qed.

(** The shape of the final table, when it is produced. *)
Lemma final_table_shape (format_date : cell -> option cell) (today : string)
    (companies_df executives_df final_df : DataFrame) :
  prepare_final_dataset format_date today companies_df executives_df
    = Returned final_df ->
  columns final_df `sublist_of` columns_order /\
  "Data Quality" ∈ columns final_df /\
  ("clean_company_name" ∉ columns executives_df ->
   "Company Name" ∈ columns final_df) /\
  (forall (r : row) c, r ∈ rows final_df -> is_Some (r !! c) -> c ∈ columns final_df) /\
  (length (rows companies_df) <= length (rows final_df))%nat.
Proof.
  intros Hrun.
  destruct (JoinFacts.prepare_final_dataset_row_count _ _ _ _ _ Hrun)
    as (cleaned0 & merged0 & Hclean0 & Hmerge0 & Hcount).
  unfold prepare_final_dataset in Hrun.
  apply rbind_returned in Hrun as (cleaned & Hclean & H).
  apply rbind_returned in H as (merged & Hmerge & H).
  apply rbind_returned in H as (sorted & Hsort & H).
  apply rbind_returned in H as (quality & Hquality & H).
  assert (cleaned0 = cleaned) by congruence. subst cleaned0.
  assert (merged0 = merged) by congruence. subst merged0.
  cbv zeta in H.
  set (assigned := assign "data_quality" quality sorted) in H.
  set (renamed := rename column_names assigned) in H.
  set (dated := format_last_verified format_date today renamed) in H.
  assert (Hfinal : final_df
                   = select_columns (List.filter (has_column dated) columns_order) dated)
    by congruence.
  clear H.
  assert (Hcols : columns final_df = List.filter (has_column dated) columns_order)
    by (rewrite Hfinal; reflexivity).
  assert (Hdated : columns dated
                   = map (rename_column column_names) (columns assigned)).
  { unfold dated. rewrite format_last_verified_columns. reflexivity. }
  assert (Hin : forall c c', c ∈ columns assigned ->
                  rename_column column_names c = c' -> In c' columns_order ->
                  c' ∈ columns final_df).
  { intros c c' Hc Hren Hord. rewrite Hcols. apply list_elem_of_In, filter_In.
    split; [exact Hord|]. unfold has_column. apply bool_decide_eq_true_2.
    rewrite Hdated, <- Hren. apply list_elem_of_In, in_map. now apply list_elem_of_In. }
  apply clean_company_names_shape in Hclean as [Hclean_col Hclean_len].
  split; [|split; [|split; [|split]]].
  - rewrite Hcols. apply list_filter_sublist.
  - apply (Hin "data_quality"); [apply TopTenFacts.assign_columns_new|reflexivity|].
    cbn. tauto.
  - intros Hno. apply (Hin "clean_company_name"); [|reflexivity|cbn; tauto].
    apply TopTenFacts.assign_columns_old.
    rewrite (sort_by_size_or_revenue_columns _ _ Hsort).
    unfold merge_left in Hmerge. destruct (_ && _); [|discriminate].
    injection Hmerge as <-. cbn [columns]. apply elem_of_app. left.
    apply list_elem_of_In, in_map_iff. exists "clean_company_name".
    split; [|now apply list_elem_of_In].
    unfold suffixed, overlaps. now rewrite (bool_decide_eq_false_2 _ Hno).
  - intros r c Hr [v Hv]. rewrite Hfinal in Hr. cbn [select_columns rows] in Hr.
    apply list_elem_of_In, in_map_iff in Hr as (r0 & <- & _).
    apply map_lookup_filter_Some in Hv as [_ Hc]. cbn [fst] in Hc.
    now rewrite Hcols.
  - rewrite Hcount, <- Hclean_len.
    unfold merge_left in Hmerge. destruct (_ && _); [|discriminate].
    injection Hmerge as <-. cbn [rows]. rewrite length_concat_map.
    apply list_sum_at_least_length. intros l. rewrite length_merge_row. lia.
Qed.

(** X18: when the final table is produced, its columns are report
    columns in the fixed report order, the quality rating among them, and
    the company name too unless the contact table has a column called
    clean_company_name; the rows hold values for these columns only, and
    there are at least as many rows as companies. *)
Theorem report_shape (format_date : cell -> option cell) (today : string)
    (companies_df executives_df final_df : DataFrame) :
  prepare_final_dataset format_date today companies_df executives_df
    = Returned final_df ->
  columns final_df `sublist_of` columns_order /\
  "Data Quality" ∈ columns final_df /\
  ("clean_company_name" ∉ columns executives_df ->
   "Company Name" ∈ columns final_df) /\
  (forall (r : row) c, r ∈ rows final_df -> is_Some (r !! c) -> c ∈ columns final_df) /\
  (length (rows companies_df) <= length (rows final_df))%nat.
Proof. apply final_table_shape. Qed.

(** X18 (witness): the report of Suncorp, for which no contact is known. *)
Lemma shape_of_the_suncorp_report :
  exists final_df,
    prepare_final_dataset (fun v => Some v) "2025-01-01" one_company other_contacts
    = Returned final_df /\
    columns final_df `sublist_of` columns_order /\
    "Company Name" ∈ columns final_df /\
    (1 <= length (rows final_df))%nat.
Proof.
  destruct (prepare_final_dataset (fun v => Some v) "2025-01-01" one_company
              other_contacts) as [final_df|e] eqn:Hrun.
  - exists final_df. split; [reflexivity|].
    destruct (report_shape _ _ _ _ _ Hrun) as (Hsub & _ & Hname & _ & Hlen).
    split; [exact Hsub|]. split; [|exact Hlen].
    apply Hname. apply (bool_decide_unpack _). vm_compute. exact I.
  - vm_compute in Hrun. discriminate Hrun.
Defined.

End ConsolidatorMoreFacts.

(** ** Consolidator: the summary sheet and the runs of main *)

Module SummaryFacts.
Import Pandas Consolidator Summary SortFacts.

Lemma rmap_all_returned {A B} (f : A -> result B) (g : A -> B) l :
  (forall a, f a = Returned (g a)) -> rmap f l = Returned (map g l).
Proof.
  intros Hf. induction l as [|a l IH]; [reflexivity|].
  cbn [rmap map]. now rewrite Hf, IH.
Qed.

Lemma count_companies_le_total mask df :
  (count_companies mask df <= count_companies (fun _ => true) df)%nat.
Proof.
  unfold count_companies.
  apply submseteq_length, NoDup_submseteq; [apply NoDup_remove_dups|].
  intros v Hv. rewrite elem_of_remove_dups in Hv |- *.
  apply list_elem_of_In. apply list_elem_of_In, in_map_iff in Hv as (r & <- & Hr).
  apply (in_map (fun r => cell_at r "Company Name")).
  apply filter_In. apply filter_In in Hr as [Hr _]. auto.
Qed.

Lemma count_companies_total df :
  count_companies (fun _ => true) df
  = length (remove_dups (map (fun r => cell_at r "Company Name") (rows df))).
Proof.
  unfold count_companies. now rewrite TopTenFacts.filter_all by reflexivity.
Qed.

Lemma count_companies_positive df :
  rows df <> [] -> (1 <= count_companies (fun _ => true) df)%nat.
Proof.
  rewrite count_companies_total. destruct (rows df) as [|r l]; [congruence|].
  intros _. cbn [map].
  destruct (remove_dups _) as [|v vs] eqn:Hd; [|cbn; lia].
  exfalso. assert (Hin : cell_at r "Company Name" ∈ @nil cell).
  { rewrite <- Hd. apply elem_of_remove_dups. left. }
  now apply elem_of_nil in Hin.
Qed.

Lemma Forall_if_list {A} (P : A -> Prop) (b : bool) l :
  Forall P l -> Forall P (if b then l else []).
Proof. destruct b; [auto | constructor]. Qed.

Lemma length_if_list {A} (b : bool) (l : list A) :
  (length (if b then l else []) <= length l)%nat.
Proof. destruct b; cbn; lia. Qed.

(** The metrics start with the total and no count exceeds it. *)
Lemma metrics_of_report df :
  has_column df "Company Name" = true ->
  exists more,
    metrics df = Returned (("Total Companies", count_companies (fun _ => true) df) :: more) /\
    Forall (fun kv : string * nat => kv.2 <= count_companies (fun _ => true) df)%nat more /\
    (length more <= 11)%nat.
Proof.
  intros Hcol. unfold metrics. rewrite Hcol. eexists. split; [reflexivity|].
  split.
  - rewrite !Forall_app.
    repeat split; apply Forall_if_list; repeat constructor;
      apply count_companies_le_total.
  - rewrite !length_app.
    repeat match goal with
           | |- context [length (if ?b then ?l else [])] =>
               let n := fresh "n" in
               pose proof (length_if_list b l);
               set (n := length (if b then l else [])) in *; clearbody n
           end.
    cbn [length] in *. lia.
Qed.

Section Percentages.
Variable format_percentage : nat -> nat -> string.

Local Abbreviation summary := (create_summary_data format_percentage).

(** X19: a report without rows makes the summary raise a division by
    zero: the total is in the dict, with the value 0, so the default 1
    of the lookup is not used. *)
Theorem summary_of_an_empty_report_divides_by_zero (final_df : DataFrame) :
  has_column final_df "Company Name" = true ->
  rows final_df = [] ->
  summary final_df = Raised ZeroDivisionError.
Proof.
  intros Hcol Hrows.
  destruct (metrics_of_report final_df Hcol) as (more & Hm & _ & _).
  unfold create_summary_data. rewrite Hm. cbn [rbind].
  assert (Hzero : count_companies (fun _ => true) final_df = 0%nat).
  { unfold count_companies. now rewrite Hrows. }
  rewrite Hzero. reflexivity.
Qed.

(** X20: on a report with at least one row the summary is produced:
    its first row is the total, the number of distinct company names,
    which is at least 1; every other row counts companies and shows a
    count that does not exceed the total, with the percentage of that
    count in the total; there are at most twelve rows. *)
Theorem summary_counts_companies (final_df : DataFrame) :
  has_column final_df "Company Name" = true ->
  rows final_df <> [] ->
  let total :=
    length (remove_dups (map (fun r => cell_at r "Company Name") (rows final_df))) in
  exists summary_df,
    summary final_df = Returned summary_df /\
    columns summary_df = ["Metric"; "Count"; "Percentage"] /\
    (1 <= total)%nat /\
    rows summary_df !! 0%nat
    = Some (summary_row "Total Companies" total (format_percentage total total)) /\
    Forall (fun r => exists metric count,
                       r = summary_row metric count (format_percentage count total) /\
                       (count <= total)%nat)
           (rows summary_df) /\
    (length (rows summary_df) <= 12)%nat.
Proof.
  intros Hcol Hrows total.
  destruct (metrics_of_report final_df Hcol) as (more & Hm & Hle & Hlen).
  pose proof (count_companies_positive final_df Hrows) as Hpos.
  rewrite count_companies_total in Hm, Hle, Hpos. fold total in Hm, Hle, Hpos.
  unfold create_summary_data. rewrite Hm. cbn [rbind].
  set (ms := ("Total Companies", total) :: more).
  assert (Hp : percentages format_percentage ms
               = Returned (map (fun kv : string * nat => format_percentage kv.2 total) ms)).
  { unfold percentages.
    change (List.find _ ms) with (Some ("Total Companies", total)).
    cbn [fmap option_fmap option_map default snd].
    apply rmap_all_returned. intros kv. unfold id.
    rewrite bool_decide_eq_false_2 by lia. reflexivity. }
  rewrite Hp. cbn [rbind]. eexists. split; [reflexivity|]. cbn [columns rows].
  split; [reflexivity|]. split; [exact Hpos|].
  rewrite zip_with_fmap_r, zip_with_diag.
  split; [reflexivity|]. split.
  - apply Forall_fmap. unfold ms. constructor.
    + exists "Total Companies", total. cbn. split; [reflexivity | lia].
    + eapply Forall_impl; [exact Hle|]. intros [k v] Hv. exists k, v. cbn in *. auto.
  - rewrite length_fmap. unfold ms. cbn [length]. lia.
Qed.

End Percentages.

(** X19 (witness): the summary of the report of no companies. *)
Lemma summary_of_no_companies :
  create_summary_data percentage_of
    (mkDataFrame columns_order []) = Raised ZeroDivisionError.
Proof.
  apply (summary_of_an_empty_report_divides_by_zero percentage_of
           (mkDataFrame columns_order [])); reflexivity.
Defined.

(** X20 (witness): the summary of the fifteen leads. *)
Lemma summary_of_fifteen_leads :
  exists summary_df,
    create_summary_data percentage_of fifteen_leads = Returned summary_df /\
    rows summary_df !! 0%nat
    = Some (summary_row "Total Companies" 15 "15/15").
Proof.
  destruct (summary_counts_companies percentage_of fifteen_leads)
    as (summary_df & Hrun & _ & _ & Hfirst & _).
  - reflexivity.
  - discriminate.
  - exists summary_df. split; [exact Hrun|]. rewrite Hfirst. vm_compute. reflexivity.
Defined.

End SummaryFacts.


(** ** Consolidator: the runs of main *)

Module RunFacts.
Import Pandas Consolidator Summary SortFacts.

Lemma io_bind_events {A B} (P : event -> Prop) (m : io A) (k : A -> io B) :
  Forall P m.1 -> (forall a, Forall P (k a).1) -> Forall P (io_bind m k).1.
Proof.
  destruct m as [trace [a|e]]; cbn [io_bind fst]; intros Ht Hk; [|exact Ht].
  specialize (Hk a). destruct (k a) as [trace' r]. cbn [fst] in *.
  apply Forall_app. auto.
Qed.

Section Runs.
Variable python_float : string -> option pyfloat.
Variable format_date : cell -> option cell.
Variable today : string.
Variable read_excel : string -> result DataFrame.
Variable create_summary_data : DataFrame -> result DataFrame.
Variable create_methodology_content : list string.
Variable create_sources_content : DataFrame.
Variable save_workbook : string -> Workbook -> result unit.

Local Abbreviation run :=
  (main python_float format_date today read_excel create_summary_data
     create_methodology_content create_sources_content save_workbook).
Local Abbreviation steps :=
  (consolidate python_float format_date today read_excel create_summary_data
     create_methodology_content create_sources_content save_workbook).

Local Abbreviation companies_path := "data/processed/top_hiring_companies.xlsx".
Local Abbreviation executives_path := "data/processed/executives_contacts.xlsx".

Lemma load_data_events : Forall (fun ev => report_event ev = true) (load_data read_excel).1.
Proof.
  unfold load_data.
  destruct (read_excel companies_path) as [c|[]]; try (repeat constructor).
  destruct (read_excel executives_path) as [x|[]]; repeat constructor.
Qed.

Ltac events :=
  repeat first
    [ apply io_bind_events; [|intros ?]
    | apply load_data_events
    | progress (unfold emit, lift, io_ret; cbn [fst])
    | match goal with |- context [if ?b then _ else _] => destruct b end
    | solve [repeat constructor] ].

Lemma consolidate_events : Forall (fun ev => report_event ev = true) steps.1.
Proof. unfold consolidate. events. Qed.

(** X21: whatever the stored tables, the helper sheets and the saving
    do, a run of the Consolidator only prints, prints a stack trace or
    saves the workbook at its fixed path: it never writes a text file such
    as an error log and saves no other table. *)
Theorem consolidator_only_prints_and_saves_the_workbook :
  Forall (fun ev => report_event ev = true)
    (main python_float format_date today read_excel create_summary_data
       create_methodology_content create_sources_content save_workbook).1.
Proof.
  unfold main.
  assert (Hsteps : Forall (fun ev => report_event ev = true)
                     (emit (Printed "Starting data consolidation process...") ;;; steps).1).
  { apply io_bind_events; [repeat constructor | intros _; apply consolidate_events]. }
  destruct (emit _ ;;; steps) as [trace [u|e]]; cbn [fst] in *; [exact Hsteps|].
  destruct e; cbn [fst]; try exact Hsteps;
    (apply Forall_app; split; [exact Hsteps | repeat constructor]).
Qed.

(** X22: when one of the two processed tables is not found, the run
    prints the hint to run the previous scripts and exits with status 1;
    the exception handler of main is not involved, nothing else is
    printed. *)
Theorem missing_table_ends_the_run (path : string) :
  read_excel companies_path = Raised (FileNotFoundError path) \/
  (exists companies_df, read_excel companies_path = Returned companies_df /\
                        read_excel executives_path = Raised (FileNotFoundError path)) ->
  main python_float format_date today read_excel create_summary_data
    create_methodology_content create_sources_content save_workbook
  = ([Printed "Starting data consolidation process...";
      Printed "Processed data files not found. Please run the previous scripts first."],
     Exited 1).
Proof.
  intros [Hc | (companies_df & Hc & He)]; unfold main, consolidate, load_data;
    rewrite Hc, ?He; reflexivity.
Qed.

End Runs.

(** X22 (witness): a run without the processed tables. *)
Lemma run_without_tables :
  main no_float (fun v => Some v) "2025-01-01" read_nothing
    (Summary.create_summary_data percentage_of) [] one_company (fun _ _ => Returned tt)
  = ([Printed "Starting data consolidation process...";
      Printed "Processed data files not found. Please run the previous scripts first."],
     Exited 1).
Proof.
  apply (missing_table_ends_the_run no_float (fun v => Some v) "2025-01-01"
           read_nothing (Summary.create_summary_data percentage_of) [] one_company
           (fun _ _ => Returned tt) "data/processed/top_hiring_companies.xlsx").
  left. reflexivity.
Defined.

Section EmptyTable.
Variable python_float : string -> option pyfloat.
Variable format_date : cell -> option cell.
Variable today : string.
Variable read_excel : string -> result DataFrame.
Variable format_percentage : nat -> nat -> string.
Variable create_methodology_content : list string.
Variable create_sources_content : DataFrame.
Variable save_workbook : string -> Workbook -> result unit.

(** X23: when no company is left in the table of hiring companies and
    the final table is produced, the run fails in the summary: main
    prints "division by zero" with the stack trace and ends without
    saving a workbook. *)
Theorem run_on_no_companies_divides_by_zero
    (companies_df executives_df final_df : DataFrame) :
  read_excel "data/processed/top_hiring_companies.xlsx" = Returned companies_df ->
  read_excel "data/processed/executives_contacts.xlsx" = Returned executives_df ->
  rows companies_df = [] ->
  "clean_company_name" ∉ columns executives_df ->
  prepare_final_dataset format_date today companies_df executives_df
    = Returned final_df ->
  main python_float format_date today read_excel
    (Summary.create_summary_data format_percentage)
    create_methodology_content create_sources_content save_workbook
  = ([Printed "Starting data consolidation process...";
      Printed "Error in data consolidation: division by zero";
      TracebackPrinted ZeroDivisionError],
     Finished).
Proof.
  intros Hc He Hempty Hclash Hrun.
  destruct (ConsolidatorMoreFacts.final_table_shape _ _ _ _ _ Hrun)
    as (_ & _ & Hname & _ & _).
  specialize (Hname Hclash).
  destruct (JoinFacts.prepare_final_dataset_row_count _ _ _ _ _ Hrun)
    as (cleaned & merged & Hclean & Hmerge & Hcount).
  apply ConsolidatorMoreFacts.clean_company_names_shape in Hclean as [_ Hlen].
  rewrite Hempty in Hlen. cbn [length] in Hlen.
  assert (Hrows : rows final_df = []).
  { apply length_zero_iff_nil. rewrite Hcount.
    unfold merge_left in Hmerge. destruct (_ && _); [|discriminate].
    injection Hmerge as <-. cbn [rows].
    apply length_zero_iff_nil in Hlen. now rewrite Hlen. }
  assert (Hsummary : Summary.create_summary_data format_percentage final_df
                     = Raised ZeroDivisionError).
  { destruct (SummaryFacts.metrics_of_report final_df) as (more & Hm & _ & _).
    { unfold has_column. now apply bool_decide_eq_true_2. }
    unfold create_summary_data. rewrite Hm. cbn [rbind].
    assert (Hzero : count_companies (fun _ => true) final_df = 0%nat).
    { unfold count_companies. now rewrite Hrows. }
    rewrite Hzero. reflexivity. }
  unfold main, consolidate, load_data. rewrite Hc, He.
  unfold io_bind, io_ret, emit, lift. cbn [fst snd]. rewrite Hrun, Hsummary.
  reflexivity.
Qed.

End EmptyTable.

(** X23 (witness): a run on the empty table of hiring companies. *)
Lemma run_on_the_empty_table :
  main no_float (fun v => Some v) "2025-01-01" read_no_companies
    (Summary.create_summary_data percentage_of) [] one_company (fun _ _ => Returned tt)
  = ([Printed "Starting data consolidation process...";
      Printed "Error in data consolidation: division by zero";
      TracebackPrinted ZeroDivisionError],
     Finished).
Proof.
  destruct (prepare_final_dataset (fun v => Some v) "2025-01-01" no_companies
              other_contacts) as [final_df|e] eqn:Hrun.
  - apply (run_on_no_companies_divides_by_zero no_float (fun v => Some v)
             "2025-01-01" read_no_companies percentage_of [] one_company
             (fun _ _ => Returned tt) no_companies other_contacts final_df).
    + reflexivity.
    + reflexivity.
    + reflexivity.
    + apply (bool_decide_unpack _). vm_compute. exact I.
    + exact Hrun.
  - vm_compute in Hrun. discriminate Hrun.
Defined.

End RunFacts.


(** ** Collector: the table handed to the Status Checker *)

Module CollectorMoreFacts.
Import Pandas Collector CollectorIdFacts CollectorFacts.

Lemma assign_all_own c v df :
  map (fun r => cell_at r c) (rows (assign_all c v df)) = map (fun _ => v) (rows df).
Proof.
  unfold assign_all, assign. cbn [rows].
  rewrite zip_with_insert_column by now rewrite length_map.
  reflexivity.
Qed.

Lemma Forall_map_const {A B} (v : B) (l : list A) :
  Forall (fun x => x = v) (map (fun _ => v) l).
Proof. induction l; constructor; auto. Qed.

Lemma fold_add_columns cols df c :
  c ∈ cols \/ c ∈ columns df ->
  c ∈ columns (fold_left (fun df c => if has_column df c then df
                                      else assign_all c NaN df) cols df).
Proof.
  revert df. induction cols as [|c' cols IH]; intros df Hc; cbn [fold_left].
  - destruct Hc as [Hc|Hc]; [now apply elem_of_nil in Hc | exact Hc].
  - apply IH. destruct Hc as [Hc|Hc].
    + apply elem_of_cons in Hc as [->|Hc]; [|now left]. right.
      destruct (has_column df c') eqn:Hhas.
      * now apply bool_decide_eq_true in Hhas.
      * apply TopTenFacts.assign_columns_new.
    + right. destruct (has_column df c'); [exact Hc|].
      now apply assign_all_columns_old.
Qed.

Lemma add_missing_columns_has c df :
  c ∈ required_columns -> c ∈ columns (add_missing_columns df).
Proof. intros Hc. apply fold_add_columns. now left. Qed.

Lemma length_dedup_by {A K} `{EqDecision K} (key : A -> K) seen l :
  (length (dedup_by key seen l) <= length l)%nat.
Proof.
  revert seen. induction l as [|x l IH]; intros seen; cbn [dedup_by length]; [lia|].
  case_bool_decide; cbn [length]; [specialize (IH seen) | specialize (IH (key x :: seen))];
    lia.
Qed.

Lemma with_addresses_other c r :
  c <> "company_website" -> c <> "linkedin_url" ->
  cell_at (with_addresses r) c = cell_at r c.
Proof.
  intros Hw Hl. unfold with_addresses.
  rewrite enrich_linkedin_row_other by exact Hl.
  now apply enrich_website_row_other.
Qed.


Lemma isna_filled (v : cell) (s : string) :
  isna (if isna v then Str s else v) = false.
Proof. now destruct v. Qed.

(** *** From the company dicts to the rows of the table *)











Section Collected.
Variable today : string.
Variable companies : list (list (string * cell)).

Local Abbreviation start := (numbered today companies).
Local Abbreviation full :=
  (add_missing_columns
     (mkDataFrame (columns start) (dedup_by raw_name_of [] (rows start)))).

Lemma add_missing_columns_has_column c (df : DataFrame) :
  c ∈ required_columns -> has_column (add_missing_columns df) c = true.
Proof.
  intros Hc. apply bool_decide_eq_true_2. now apply add_missing_columns_has.
Qed.

Lemma required_website : "company_website" ∈ required_columns.
Proof. apply (bool_decide_unpack _). vm_compute. exact I. Qed.

Lemma required_linkedin : "linkedin_url" ∈ required_columns.
Proof. apply (bool_decide_unpack _). vm_compute. exact I. Qed.

(** The two enrichment steps on a table that has both address columns. *)
Lemma enrich_both (df : DataFrame) :
  has_column df "company_website" = true ->
  has_column df "linkedin_url" = true ->
  exists trace out,
    (collected_df <--
       (if has_column df "company_website"
        then enrich_with_company_websites df
        else io_ret df) ;;
     (if has_column collected_df "linkedin_url"
      then enrich_with_linkedin collected_df
      else io_ret collected_df))
    = (trace, Returned out) /\
    columns out = columns df /\
    rows out = map with_addresses (rows df).
Proof.
  intros Hw Hl. rewrite Hw.
  destruct (enrich_with_company_websites_returns df) as [t1 ->].
  unfold io_bind. cbn [columns].
  change (has_column {| columns := columns df;
                        rows := map (fun r => (enrich_website_row r).1) (rows df) |}
            "linkedin_url")
    with (has_column df "linkedin_url").
  rewrite Hl.
  destruct (enrich_with_linkedin_returns
              {| columns := columns df;
                 rows := map (fun r => (enrich_website_row r).1) (rows df) |})
    as [t2 ->].
  eexists _, _. split; [reflexivity|]. cbn [rows columns].
  split; [reflexivity|]. rewrite map_map. reflexivity.
Qed.

(** The table the Collector returns, spelled out. *)
Lemma collect_result :
  "company_name" ∈ columns (frame_of_dicts companies) ->
  exists trace df,
    collect today companies = (trace, Returned df) /\
    columns df = columns full /\
    rows df = map with_addresses (rows full).
Proof.
  intros Hname. unfold collect. fold (numbered today companies).
  rewrite SortFacts.drop_duplicates_with_column
    by now apply CollectorFacts.numbered_columns.
  unfold lift, io_bind at 1.
  match goal with
  | |- context [enrich_with_company_websites ?df] =>
      destruct (enrich_both df) as (t & out & Ht & Hcols & Hrows);
        [apply add_missing_columns_has_column, required_website
        |apply add_missing_columns_has_column, required_linkedin|]
  end.
  rewrite Ht. exists ([] ++ t), out.
  split; [reflexivity|]. split; [exact Hcols | exact Hrows].
Qed.

Lemma full_rows_column c :
  c ∈ columns start ->
  map (fun r => cell_at r c) (rows full)
  = map (fun r => cell_at r c) (dedup_by raw_name_of [] (rows start)).
Proof.
  intros Hc.
  now apply (add_missing_columns_keeps c
               (mkDataFrame (columns start) (dedup_by raw_name_of [] (rows start)))).
Qed.

Lemma full_rows_flag c v :
  c ∈ columns start ->
  Forall (fun x => x = v) (map (fun r => cell_at r c) (rows start)) ->
  Forall (fun r => cell_at r c = v) (rows full).
Proof.
  intros Hc Hstart. rewrite List.Forall_forall in Hstart |- *. intros r Hr.
  assert (Hin : In (cell_at r c)
                  (map (fun r => cell_at r c) (dedup_by raw_name_of [] (rows start)))).
  { rewrite <- (full_rows_column c Hc). exact (in_map (fun r => cell_at r c) _ _ Hr). }
  apply in_map_iff in Hin as (r' & Heq & Hr'). rewrite <- Heq.
  apply Hstart. apply (in_map (fun r => cell_at r c)).
  exact (ConsolidatorMoreFacts.dedup_by_In _ _ _ _ Hr').
Qed.

Lemma length_full : (length (rows full) <= length companies)%nat.
Proof.
  rewrite <- (length_map (fun r => cell_at r "company_id") (rows full)).
  rewrite (full_rows_column "company_id") by apply numbered_has_id.
  rewrite length_map. etransitivity; [apply length_dedup_by|].
  now rewrite numbered_length.
Qed.

Lemma full_actively_hiring :
  Forall (fun r => cell_at r "actively_hiring" = Str "Unknown") (rows full).
Proof.
  apply full_rows_flag.
  - unfold numbered. do 3 apply assign_all_columns_old.
    apply TopTenFacts.assign_columns_new.
  - unfold numbered. rewrite !assign_all_other by discriminate.
    rewrite assign_all_own. apply Forall_map_const.
Qed.

Lemma full_hiring_devops :
  Forall (fun r => cell_at r "hiring_devops" = Str "Unknown") (rows full).
Proof.
  apply full_rows_flag.
  - unfold numbered. do 2 apply assign_all_columns_old.
    apply TopTenFacts.assign_columns_new.
  - unfold numbered. rewrite !assign_all_other by discriminate.
    rewrite assign_all_own. apply Forall_map_const.
Qed.

Lemma full_hiring_developers :
  Forall (fun r => cell_at r "hiring_developers" = Str "Unknown") (rows full).
Proof.
  apply full_rows_flag.
  - unfold numbered. apply assign_all_columns_old.
    apply TopTenFacts.assign_columns_new.
  - unfold numbered. rewrite !assign_all_other by discriminate.
    rewrite assign_all_own. apply Forall_map_const.
Qed.

Lemma full_last_verified :
  Forall (fun r => cell_at r "last_verified" = Str today) (rows full).
Proof.
  apply full_rows_flag.
  - unfold numbered. apply TopTenFacts.assign_columns_new.
  - unfold numbered. rewrite assign_all_own. apply Forall_map_const.
Qed.

Lemma full_required_columns : Forall (fun c => c ∈ columns full) required_columns.
Proof.
  rewrite List.Forall_forall. intros c Hc.
  apply add_missing_columns_has. now apply list_elem_of_In.
Qed.

Lemma with_addresses_flags (l : list row) c v :
  c <> "company_website" -> c <> "linkedin_url" ->
  Forall (fun r => cell_at r c = v) l ->
  Forall (fun r => cell_at r c = v) (map with_addresses l).
Proof.
  intros Hw Hl Hall. rewrite List.Forall_forall in Hall |- *.
  intros r Hr. apply in_map_iff in Hr as (r0 & <- & Hr0).
  rewrite with_addresses_other by assumption. exact (Hall r0 Hr0).
Qed.

Lemma Forall_and4 {A} (P1 P2 P3 P4 : A -> Prop) l :
  Forall P1 l -> Forall P2 l -> Forall P3 l -> Forall P4 l ->
  Forall (fun x => P1 x /\ P2 x /\ P3 x /\ P4 x) l.
Proof.
  rewrite !List.Forall_forall. intros H1 H2 H3 H4 x Hx. auto.
Qed.

(** X24: whenever some company dict has a name the Collector returns a
    table that has all thirteen required columns, with at most one row
    per given dict; in every row the three hiring flags are "Unknown" and
    the date of verification is the day of the run. *)
Theorem collected_table_is_ready_for_checking :
  "company_name" ∈ columns (frame_of_dicts companies) ->
  exists trace df,
    collect today companies = (trace, Returned df) /\
    Forall (fun c => c ∈ columns df) required_columns /\
    (length (rows df) <= length companies)%nat /\
    Forall (fun r => cell_at r "actively_hiring" = Str "Unknown" /\
                     cell_at r "hiring_devops" = Str "Unknown" /\
                     cell_at r "hiring_developers" = Str "Unknown" /\
                     cell_at r "last_verified" = Str today)
           (rows df).
Proof.
  intros Hname.
  destruct (collect_result Hname) as (trace & df & Hrun & Hcols & Hrows).
  exists trace, df. rewrite Hcols, Hrows.
  split; [exact Hrun|].
  split; [exact full_required_columns|].
  split.
  - rewrite length_map. exact length_full.
  - apply Forall_and4; apply with_addresses_flags; try discriminate.
    + exact full_actively_hiring.
    + exact full_hiring_devops.
    + exact full_hiring_developers.
    + exact full_last_verified.
Qed.



Lemma assign_columns_inv c c' values df :
  c ∈ columns (assign c' values df) -> c ∈ columns df \/ c = c'.
Proof.
  unfold assign. cbn [columns]. destruct (has_column df c'); [now left|].
  intros Hc. apply elem_of_app in Hc as [Hc|Hc]; [now left|].
  apply list_elem_of_singleton in Hc. now right.
Qed.

Lemma numbered_columns_inv c :
  c ∈ columns start ->
  c ∈ columns (frame_of_dicts companies)
  \/ c ∈ ["company_id"; "actively_hiring"; "hiring_devops"; "hiring_developers";
          "last_verified"].
Proof.
  unfold numbered, assign_all. intros Hc.
  repeat (apply assign_columns_inv in Hc as [Hc | ->];
          [|right; apply (bool_decide_unpack _); vm_compute; exact I]).
  now left.
Qed.

(** X26: when there are company dicts and none of them has a name, the
    removal of duplicate names raises KeyError, so the Collector returns
    no table. *)
Theorem nameless_companies_are_not_collected :
  companies <> [] ->
  "company_name" ∉ columns (frame_of_dicts companies) ->
  collect today companies = ([], Raised (KeyError "company_name")).
Proof.
  intros Hsome Hname. unfold collect. fold (numbered today companies).
  rewrite SortFacts.drop_duplicates_without_column; [reflexivity| | |].
  - intros Hc. apply numbered_columns_inv in Hc as [Hc|Hc]; [contradiction|].
    repeat (apply elem_of_cons in Hc as [Hc|Hc]; [discriminate|]).
    now apply elem_of_nil in Hc.
  - intros Hr. apply (f_equal (@length row)) in Hr.
    rewrite CollectorFacts.numbered_length in Hr.
    destruct companies; [contradiction | discriminate Hr].
  - intros Hc. pose proof (CollectorFacts.numbered_has_id today companies) as Hid.
    rewrite Hc in Hid. now apply elem_of_nil in Hid.
Qed.

End Collected.

(** X24 (witness): two companies, one without a website. *)
Lemma two_companies_are_ready_for_checking :
  exists trace df,
    collect "2025-01-01" two_companies = (trace, Returned df) /\
    Forall (fun c => c ∈ columns df) required_columns /\
    (length (rows df) <= 2)%nat.
Proof.
  destruct (collected_table_is_ready_for_checking "2025-01-01" two_companies)
    as (trace & df & Hrun & Hcols & Hlen & _).
  - apply (bool_decide_unpack _). vm_compute. exact I.
  - exists trace, df. auto.
Defined.


Example two_companies_websites :
  (fun df => map (fun r => cell_at r "company_website") (rows df))
    <$> returned (collect "2025-01-01" two_companies)
  = Some [Str "suncorp.com.au"; Str "https://www.judobank.com"].
Proof. vm_compute. reflexivity. Qed.

(** X26 (witness): a dict without a name. *)
Lemma nameless_company_is_not_collected :
  collect "2025-01-01" nameless_companies = ([], Raised (KeyError "company_name")).
Proof.
  apply (nameless_companies_are_not_collected "2025-01-01" nameless_companies).
  - discriminate.
  - apply (bool_decide_unpack _). vm_compute. exact I.
Defined.

(** An empty list of company dicts raises nothing: the empty table
    passes the removal of duplicates as it is, gets the required columns
    and goes through both enrichment steps. *)
Example no_company_is_collected :
  collect "2025-01-01" []
  = ([Printed "Enriching with company websites...";
      Printed "Enriching with LinkedIn URLs..."],
     Returned
       (mkDataFrame
          ["company_id"; "actively_hiring"; "hiring_devops"; "hiring_developers";
           "last_verified"; "company_name"; "industry"; "country"; "company_size";
           "annual_revenue"; "company_website"; "linkedin_url"; "data_source"]
          [])).
Proof. vm_compute. reflexivity. Qed.


End CollectorMoreFacts.

(** ** Contact Finder: mock mode *)

Module MockFacts.
Import Pandas ContactFinder MockFinder ContactFacts.

Lemma nth_mod_in {A} (default : A) (l : list A) i :
  l <> [] -> nth (i mod length l) l default ∈ l.
Proof.
  intros Hl. apply list_elem_of_In, nth_In. apply Nat.mod_upper_bound.
  destruct l; [congruence | discriminate].
Qed.

Section Random.
Variable world : Type.
Variable random_index : nat -> world -> nat * world.
Variable search_linkedin : cell -> cell -> world -> list executive * world.
Variable search_website : cell -> cell -> world -> list executive * world.

Local Abbreviation draw := (randint world random_index).
Local Abbreviation make := (generate_mock_executive world random_index).
Local Abbreviation profile_finder :=
  (MockFinder.find_linkedin_executives world random_index search_linkedin).
Local Abbreviation website_finder :=
  (MockFinder.find_company_executives world random_index search_website).

Lemma randint_range lo hi w : lo <= hi -> lo <= (draw lo hi w).1 <= hi.
Proof.
  intros Hle. unfold randint.
  destruct (random_index (Z.to_nat (hi - lo + 1)) w) as [i w']. cbn [fst].
  assert (Hpos : (0 < Z.to_nat (hi - lo + 1))%nat) by lia.
  pose proof (Nat.mod_upper_bound i (Z.to_nat (hi - lo + 1))) as Hmod. lia.
Qed.

Lemma choice_in {A} (default : A) (l : list A) w :
  l <> [] -> (choice world random_index default l w).1 ∈ l.
Proof.
  intros Hl. unfold choice. destruct (random_index (length l) w) as [i w'].
  cbn [fst]. now apply nth_mod_in.
Qed.

Lemma generate_mock_executive_candidate company_name w :
  mock_candidate (make company_name w).1 /\
  source (make company_name w).1 = "Mock Data".
Proof.
  unfold generate_mock_executive.
  pose proof (choice_in "" first_names w ltac:(discriminate)) as Hf.
  destruct (choice world random_index "" first_names w) as [first_name w1].
  pose proof (choice_in "" last_names w1 ltac:(discriminate)) as Hl.
  destruct (choice world random_index "" last_names w1) as [last_name w2].
  pose proof (choice_in "" titles w2 ltac:(discriminate)) as Ht.
  destruct (choice world random_index "" titles w2) as [chosen_title w3].
  pose proof (randint_range 10000 99999 w3 ltac:(lia)) as Hn.
  destruct (draw 10000 99999 w3) as [number w4].
  cbn [fst] in *. split; [|reflexivity].
  exists first_name, last_name.
  cbn [ContactFinder.name ContactFinder.title ContactFinder.linkedin_url].
  repeat split; try assumption. exists number. split; [lia | reflexivity].
Qed.

Lemma generate_length n (f : world -> executive * world) w :
  length (generate world n f w).1 = n.
Proof.
  revert w. induction n as [|n IH]; intros w; [reflexivity|].
  cbn [generate]. destruct (f w) as [e w1]. specialize (IH w1).
  destruct (generate world n f w1) as [es w2]. cbn [fst length] in *. now rewrite IH.
Qed.

Lemma generate_all (P : executive -> Prop) n (f : world -> executive * world) w :
  (forall w, P (f w).1) -> Forall P (generate world n f w).1.
Proof.
  intros Hf. revert w. induction n as [|n IH]; intros w; [constructor|].
  cbn [generate]. pose proof (Hf w) as He. destruct (f w) as [e w1].
  specialize (IH w1). destruct (generate world n f w1) as [es w2].
  cbn [fst] in *. now constructor.
Qed.

(** What the two finders give in mock mode. *)
Lemma mock_finders_candidates (company_name address : cell) (w : world) :
  (1 <= length (profile_finder company_name address true w).1 <= 3)%nat /\
  Forall (fun e => mock_candidate e /\ source e = "Mock Data")
    (profile_finder company_name address true w).1 /\
  (length (website_finder company_name address true w).1 <= 2)%nat /\
  Forall (fun e => mock_candidate e /\
                   source e = Collector.cell_str address +:+ "/about/leadership")
    (website_finder company_name address true w).1.
Proof.
  split; [|split; [|split]].
  - unfold MockFinder.find_linkedin_executives.
    pose proof (randint_range 1 3 w ltac:(lia)) as Hn.
    destruct (draw 1 3 w) as [n w1]. cbn [fst] in Hn.
    rewrite generate_length. lia.
  - unfold MockFinder.find_linkedin_executives.
    destruct (draw 1 3 w) as [n w1].
    apply generate_all. intros w'. apply generate_mock_executive_candidate.
  - unfold MockFinder.find_company_executives.
    destruct (choice world random_index false [true; false] w) as [[|] w1];
      [|cbn; lia].
    pose proof (randint_range 1 2 w1 ltac:(lia)) as Hn.
    destruct (draw 1 2 w1) as [n w2]. cbn [fst] in Hn.
    rewrite generate_length. lia.
  - unfold MockFinder.find_company_executives.
    destruct (choice world random_index false [true; false] w) as [[|] w1];
      [|constructor].
    destruct (draw 1 2 w1) as [n w2].
    apply generate_all. intros w'.
    pose proof (generate_mock_executive_candidate company_name w') as [Hc _].
    destruct (make company_name w') as [e w'']. cbn [fst] in *.
    split; [|reflexivity]. exact Hc.
Qed.

(** X28: in mock mode the profile finder gives one to three candidates
    and the website finder none, one or two; each has a first and a last
    name of the lists with a blank between, a title of the list and a
    profile address made of the lower-case names and a five-digit
    number; the source is "Mock Data" for the profile finder and the
    leadership page of the website for the website finder. *)
Theorem mock_finders_make_listed_candidates (company_name address : cell) (w : world) :
  (1 <= length (profile_finder company_name address true w).1 <= 3)%nat /\
  Forall (fun e => mock_candidate e /\ source e = "Mock Data")
    (profile_finder company_name address true w).1 /\
  (length (website_finder company_name address true w).1 <= 2)%nat /\
  Forall (fun e => mock_candidate e /\
                   source e = Collector.cell_str address +:+ "/about/leadership")
    (website_finder company_name address true w).1.
Proof. apply mock_finders_candidates. Qed.

End Random.

(** *** enrich_contacts in mock mode *)

Lemma split_ws_aux_word w : no_space w = true -> split_ws_aux w = (w, []).
Proof.
  induction w as [|a w IH]; [reflexivity|]. cbn [no_space split_ws_aux].
  intros H. apply andb_true_iff in H as [Ha Hw]. apply negb_true_iff in Ha.
  now rewrite (IH Hw), Ha.
Qed.

Lemma split_ws_aux_two_words f l :
  no_space f = true -> no_space l = true -> l <> "" ->
  split_ws_aux (f +:+ " " +:+ l) = (f, [l]).
Proof.
  intros Hf Hl Hne. induction f as [|a f IH].
  - change ("" +:+ " " +:+ l) with (String " " l). cbn [split_ws_aux].
    rewrite (split_ws_aux_word l Hl). change (is_space " ") with true. cbv iota.
    destruct l; [congruence | reflexivity].
  - cbn [no_space] in Hf. apply andb_true_iff in Hf as [Ha Hf].
    apply negb_true_iff in Ha.
    change (String a f +:+ " " +:+ l) with (String a (f +:+ " " +:+ l)).
    cbn [split_ws_aux]. now rewrite (IH Hf), Ha.
Qed.

Lemma split_ws_two_words f l :
  no_space f = true -> f <> "" -> no_space l = true -> l <> "" ->
  split_ws (f +:+ " " +:+ l) = [f; l].
Proof.
  intros Hf Hfne Hl Hlne. unfold split_ws.
  rewrite (split_ws_aux_two_words f l Hf Hl Hlne). destruct f; [congruence | reflexivity].
Qed.

Lemma listed_first_names :
  Forall (fun n => no_space n = true /\ n <> "" /\
                   forall l, n +:+ " " +:+ l <> "Unknown")
         first_names.
Proof.
  unfold first_names.
  repeat constructor; try discriminate; intros l H; cbn in H; discriminate H.
Qed.

Lemma listed_last_names :
  Forall (fun n => no_space n = true /\ n <> "") last_names.
Proof. unfold last_names. repeat constructor; discriminate. Qed.

Lemma mock_candidate_words e :
  mock_candidate e ->
  name e <> "Unknown" /\
  exists first_name last_name,
    split_ws (name e) = [first_name; last_name] /\
    first_name <> "" /\ last_name <> "".
Proof.
  intros (f & l & Hf & Hl & Hname & _).
  pose proof listed_first_names as Hfs. pose proof listed_last_names as Hls.
  rewrite Forall_forall in Hfs, Hls.
  destruct (Hfs f Hf) as (Hf1 & Hf2 & Hf3). destruct (Hls l Hl) as (Hl1 & Hl2).
  rewrite Hname. split; [apply Hf3|].
  exists f, l. split; [now apply split_ws_two_words | auto].
Qed.

Section MockMode.
Variable world : Type.
Variable random_index : nat -> world -> nat * world.
Variable search_linkedin : cell -> cell -> world -> list executive * world.
Variable search_website : cell -> cell -> world -> list executive * world.
Variable verify_email_exists : string -> bool -> world -> bool * world.
Variable find_phone_number : string -> cell -> bool -> world -> option string * world.

Local Abbreviation profile_finder :=
  (MockFinder.find_linkedin_executives world random_index search_linkedin).
Local Abbreviation website_finder :=
  (MockFinder.find_company_executives world random_index search_website).
Local Abbreviation process_one :=
  (process_executive world verify_email_exists find_phone_number).
Local Abbreviation process_all :=
  (process_executives world verify_email_exists find_phone_number).
Local Abbreviation gather :=
  (gather_executives world profile_finder website_finder).
Local Abbreviation enrich_one :=
  (enrich_company world profile_finder website_finder random_index
     verify_email_exists find_phone_number).

(** A mock candidate always gets its contact row. *)
Lemma process_mock_candidate use_mock company_id company_name domain pattern e w :
  mock_candidate e ->
  exists email phone status w',
    process_one use_mock company_id company_name domain pattern e w
    = (Returned [contact_row company_id e email phone status], w').
Proof.
  intros He. destruct (mock_candidate_words e He) as (Hname & f & l & Hwords & Hf & Hl).
  unfold process_executive.
  rewrite bool_decide_eq_false_2 by exact Hname.
  rewrite Hwords. cbn [length Nat.leb List.hd List.last].
  destruct (derive_email_returns world verify_email_exists use_mock f l domain pattern
              w Hf Hl) as ([email status] & w1 & Hd).
  unfold st_bind at 1. rewrite Hd. unfold st_bind, ask, st_ret.
  destruct (find_phone_number _ _ _ w1) as [phone w2]. cbn [fst snd]. eauto 6.
Qed.

Lemma process_mock_candidates use_mock company_id company_name domain pattern execs w :
  Forall mock_candidate execs ->
  exists contacts w',
    process_all use_mock company_id company_name domain pattern execs w
    = (Returned contacts, w') /\
    Forall2 (fun e c => exists email phone status,
                          c = contact_row company_id e email phone status)
            execs contacts.
Proof.
  intros Hall. revert w. induction Hall as [|e execs He _ IH]; intros w.
  - cbn [process_executives]. unfold st_ret. eexists _, _. split; [reflexivity|].
    constructor.
  - cbn [process_executives].
    destruct (process_mock_candidate use_mock company_id company_name domain pattern
                e w He) as (email & phone & status & w1 & H1).
    destruct (IH w1) as (contacts & w2 & H2 & Hrel).
    unfold st_bind at 1. rewrite H1. unfold st_bind at 1. rewrite H2.
    unfold st_ret. eexists _, _. split; [reflexivity|].
    cbn [app]. constructor; [eauto | exact Hrel].
Qed.

Lemma gather_mock_candidates (r : row) w :
  Forall mock_candidate (gather true r w).1 /\
  (1 <= length (gather true r w).1 <= 5)%nat.
Proof.
  unfold gather_executives.
  pose proof (mock_finders_candidates world random_index
                search_linkedin search_website (cell_at r "company_name")
                (cell_at r "linkedin_url") w) as (Hn1 & Hc1 & _ & _).
  destruct (profile_finder (cell_at r "company_name") (cell_at r "linkedin_url") true w)
    as [linkedin_execs w1].
  cbn [fst] in Hn1, Hc1.
  assert (Hweb : forall out : list executive * world,
            out = (if truthy (cell_at r "company_website")
                   then website_finder (cell_at r "company_name")
                          (cell_at r "company_website") true w1
                   else ([], w1)) ->
            Forall mock_candidate out.1 /\ (length out.1 <= 2)%nat).
  { intros out ->. destruct (truthy _); [|split; [constructor | cbn; lia]].
    pose proof (mock_finders_candidates world random_index
                  search_linkedin search_website (cell_at r "company_name")
                  (cell_at r "company_website") w1) as (_ & _ & Hn2 & Hc2).
    split; [|exact Hn2]. eapply Forall_impl; [exact Hc2|]. now intros e [He _]. }
  specialize (Hweb _ eq_refl).
  destruct (if truthy (cell_at r "company_website") then _ else _)
    as [website_execs w2].
  cbn [fst] in *. destruct Hweb as [Hc2 Hn2].
  unfold combine_executives. split.
  - apply Forall_app. split.
    + eapply Forall_impl; [exact Hc1|]. now intros e [He _].
    + rewrite List.Forall_forall in Hc2 |- *. intros e He.
      apply filter_In in He as [He _]. now apply Hc2.
  - rewrite length_app.
    pose proof (filter_length_le
                  (fun e => negb (bool_decide
                     (lower (name e) ∈ map (fun e => lower (name e)) linkedin_execs)))
                  website_execs) as Hle.
    lia.
Qed.

(** X29: in mock mode every company whose row has the columns the
    loop reads gets between one and five contact rows: one for each
    candidate of the profile finder and one for each candidate of the
    website finder whose name, ignoring case, the profile finder did not
    give, in that order. A website candidate with a name the profile
    finder gave gets no row. Each row carries the company's id and the
    name, title, profile address and source of its candidate; the
    placeholder is never used. *)
Theorem mock_mode_gives_every_company_contacts (r : row) (w : world) :
  Forall (fun c => is_Some (r !! c)) columns_read_by_enrich_contacts ->
  let found :=
    profile_finder (cell_at r "company_name") (cell_at r "linkedin_url") true w in
  let on_website :=
    if truthy (cell_at r "company_website")
    then website_finder (cell_at r "company_name") (cell_at r "company_website")
           true found.2
    else ([], found.2) in
  let candidates :=
    found.1
    ++ List.filter
         (fun e => negb (bool_decide
                           (lower (name e) ∈ map (fun e => lower (name e)) found.1)))
         on_website.1 in
  exists contacts w',
    enrich_one true r w = (Returned contacts, w') /\
    (1 <= length contacts <= 5)%nat /\
    Forall2 (fun (e : executive) (c : row) =>
               c !! "company_id" = Some (cell_at r "company_id") /\
               c !! "executive_name" = Some (Str (name e)) /\
               c !! "executive_title" = Some (Str (title e)) /\
               c !! "linkedin_url" = Some (opt_cell (linkedin_url e)) /\
               c !! "source" = Some (Str (source e)) /\
               name e <> name placeholder)
            candidates contacts.
Proof.
  intros _ found on_website candidates.
  pose proof (gather_mock_candidates r w) as [Hcand Hlen].
  assert (Hg : (gather true r w).1 = candidates).
  { unfold gather_executives, candidates, on_website, found, combine_executives.
    destruct (profile_finder (cell_at r "company_name") (cell_at r "linkedin_url")
                true w) as [linkedin_execs w1].
    cbn [fst snd].
    destruct (if truthy (cell_at r "company_website") then _ else _)
      as [website_execs w2].
    reflexivity. }
  clearbody candidates. clear found on_website.
  unfold enrich_company, st_bind at 1, ask.
  destruct (gather true r w) as [all_execs w1]. cbn [fst] in Hcand, Hlen, Hg.
  subst all_execs.
  assert (Hsame : with_placeholder candidates = candidates).
  { destruct candidates; [cbn in Hlen; lia | reflexivity]. }
  rewrite Hsame.
  set (domain := if truthy (cell_at r "company_website")
                 then extract_domain_from_url (cell_at r "company_website")
                 else None).
  destruct (pattern_step_returns world random_index domain w1) as (p & w2 & Hp).
  unfold st_bind at 1. rewrite Hp.
  destruct (process_mock_candidates true (cell_at r "company_id")
              (cell_at r "company_name") domain p candidates w2 Hcand)
    as (contacts & w3 & Hrun & Hrel).
  exists contacts, w3. split; [exact Hrun|]. split.
  - now rewrite <- (Forall2_length _ _ _ Hrel).
  - clear Hrun Hlen Hsame. induction Hrel as [|e c execs contacts Hec _ IH];
      [constructor|].
    apply Forall_cons in Hcand as [He Hcand]. constructor; [|now apply IH].
    destruct Hec as (email & phone & status & ->).
    unfold contact_row.
    split; [reflexivity|]. split; [reflexivity|]. split; [reflexivity|].
    split; [reflexivity|]. split; [reflexivity|].
    destruct He as (f & l & Hf & _ & Hname & _). rewrite Hname.
    clear -Hf. unfold first_names in Hf.
    repeat (apply elem_of_cons in Hf as [->|Hf]; [cbn; discriminate|]).
    now apply elem_of_nil in Hf.
Qed.

End MockMode.

(** X29 (witness): a run of mock mode in which every draw is 0: both
    finders make James Smith, so the company gets a single row. *)
Lemma mock_mode_gives_suncorp_one_contact :
  exists contacts w',
    enrich_company unit
      (MockFinder.find_linkedin_executives unit (always_draws 0) search_finds_nobody)
      (MockFinder.find_company_executives unit (always_draws 0) search_finds_nobody)
      (always_draws 0) always_verified no_phone true unchecked_company tt
    = (Returned contacts, w') /\
    length contacts = 1%nat.
Proof.
  destruct (mock_mode_gives_every_company_contacts unit (always_draws 0)
              search_finds_nobody search_finds_nobody always_verified no_phone
              unchecked_company tt)
    as (contacts & w' & Hrun & _ & Hrel).
  - apply (bool_decide_unpack _). vm_compute. exact I.
  - exists contacts, w'. split; [exact Hrun|].
    apply Forall2_length in Hrel. rewrite <- Hrel. vm_compute. reflexivity.
Defined.

(** The row of that run: the website's find is dropped as a duplicate. *)
Example mock_contacts_of_suncorp :
  (fun out => map (fun r : row => (cell_at r "executive_name",
                                   cell_at r "executive_title", cell_at r "email",
                                   cell_at r "linkedin_url", cell_at r "source"))
                  <$> (match out.1 with Returned l => Some l | Raised _ => None end))
    (enrich_company unit
       (MockFinder.find_linkedin_executives unit (always_draws 0) search_finds_nobody)
       (MockFinder.find_company_executives unit (always_draws 0) search_finds_nobody)
       (always_draws 0) always_verified no_phone true unchecked_company tt)
  = Some [(Str "James Smith", Str "Chief Technology Officer",
           Str "james.smith@suncorp.com.au",
           Str "https://www.linkedin.com/in/james-smith-10000",
           Str "Mock Data")].
Proof. vm_compute. reflexivity. Qed.

End MockFacts.

(** ** Status Checker: the mock checks of LinkedIn and Seek *)

Module MockCheckFacts.
Import StatusChecker MockChecker.




Section Random.
Variable world : Type.
Variable random_index : nat -> world -> nat * world.
Variable search_linkedin_jobs : cell -> cell -> world -> check_result * world.
Variable search_seek_jobs : cell -> cell -> world -> check_result * world.

Local Abbreviation flip := (coin world random_index).
Local Abbreviation linkedin_check :=
  (MockChecker.check_linkedin_jobs world random_index search_linkedin_jobs).
Local Abbreviation seek_check :=
  (MockChecker.check_seek_jobs world random_index search_seek_jobs).


End Random.


End MockCheckFacts.
